(* ===== verification/_CoqProject ===== *)
-Q . S2P
Prelude.v
JsString.v
Ellipsify.v
JsValue.v
DateFormat.v
BigDecimal.v
JsonBody.v
Axios.v
PromiseAll.v
Fetcher.v
Transport.v
TestSuite.v
