(* ===== verification/Prelude.v ===== *)
(** * A verification library for tron-tx-reader

    ** The program

    The repository (src/src/index.ts) is one asynchronous TypeScript
    function, [getTransactionById], and two helpers, [ellipsify] and
    [formatDate].  [getTransactionById(transactionId, options)] splits
    its argument on commas and keeps the pieces that are not blank
    (line 56), posts one request per piece to the TronGrid endpoint
    [API_URL] with axios (lines 62-67; all requests are in flight at
    once and are joined with [Promise.all], line 59), turns each
    response into a record (lines 69-94: a provider [Error] field, the
    contract value read through an optional chain, the hash shortened
    by [ellipsify], the amount divided by 10^6 with bignumber.js, the
    timestamp printed by [formatDate]), and returns [{ data }] (one
    record, or an array for several ids, line 100) or, when anything
    throws, [{ error: e.message }] (lines 101-104).  With [log] set it
    prints the rows or the error.

    ** Layout: one file per component, in dependency order

    - [Prelude] (this file): the result monad [res] (a value, a thrown
      JavaScript exception, or [Unmodelled] for behaviour of library code
      outside the model) with its [let*] notation in [res_scope]; the
      JavaScript string [jsstr] (UTF-16 code units as Z); decimal
      printing of integers [Z_to_dec] (the numbers of the template
      literals) and its read-back; the tactics [res_inv], [zbool],
      [zdiv_lia]; the hint databases [tron] and [tron_rw].
    - [JsString]: [String.prototype.split] with a one-unit separator
      ([split_on]), [trim] ([js_trim], ECMAScript white space and line
      terminators) and the index rules of [slice] ([js_slice]).
    - [Ellipsify]: [ellipsify] (lines 27-32), [effective_pad] being the
      pad after lines 29-30.
    - [JsValue]: the JavaScript values a parsed response holds ([jsval]),
      the exceptions the code can raise ([exn]), property access
      ([get_prop], TypeError on undefined/null), ToBoolean ([truthy]) and
      ToString ([to_js_string]).
    - [DateFormat]: [formatDate] (lines 39-44) and its tables (lines
      5-19), with the Date getters it calls modelled from ECMA-262's date
      arithmetic; the local time-zone offset is the section variable
      [local_tza].
    - [BigDecimal]: the field 'Amount (no decimals)' (lines 82, 88-90):
      [new bignumber(amount).dividedBy(10^6).toString()] with
      bignumber.js's default configuration, fixed-point and exponent
      notation; [round_double], the double [JSON.parse] makes of an
      integer in the response; the readers [decimal_value] and
      [number_value] the round-trip theorems use.
    - [JsonBody]: the request body [JSON.stringify({ value: txId })]
      (lines 64-66): [json_escape] is QuoteJSONString over UTF-16 code
      units; [json_unescape] and [decode_body] read it back.
    - [Axios]: what [axios.post] settles with for an HTTP response
      ([axios_settle]: a status in [200, 300) resolves with the body
      decoded by [JSON.parse], or with the text itself when it is not
      JSON; any other status rejects with "Request failed with status
      code N"); [json_parse] is a recursive-descent JSON reader on fuel
      ([parse_value], [parse_items], [parse_members]); [json_print] is
      the JSON text a server writes for a value.
    - [PromiseAll]: [Promise.all] over the per-id promises: the
      functional model [promise_all] with an explicit settlement order,
      its contract [promise_all_contract], the concurrent semantics
      [pstep] (one step settles one pending promise), and the interface
      [Join] (a join meeting the contract for every settlement order)
      with [Promise.all] as its instance.
    - [Fetcher]: [getTransactionById] (lines 51-105): [normalize_ids],
      [fetch_tx] (the callback of lines 60-95), [data_of] (line 100) and
      [getTransactionById], which returns the response and the list of
      events (requests, console).
    - [Transport]: [Fetcher] composed with [Axios]: theorems that follow
      one request from TronGrid's status and body text to the value of
      [getTransactionById]; a concrete server for the witnesses.
    - [TestSuite]: the assertions of the three Jest tests of
      src/test/index.test.ts ([test_random_tx], [test_multiple],
      [test_invalid]) as predicates on the response; the hash fixture
      and TronGrid's answers are parameters ([typed_transfer] is the
      answer for a TRX transfer).

    How they interact: [Fetcher] sends [JsonBody.request_body] for each
    id; [Fetcher.fetch_tx] calls [Ellipsify], [BigDecimal] and
    [DateFormat] on values read with [JsValue];
    [Fetcher.getTransactionById] joins the per-id outcomes through the
    class [PromiseAll.Join]: its theorems are proved from the join's
    contract ([join_contract]) and hold for every instance, and
    [promise_all_join] discharges the contract for [Promise.all].
    [TestSuite] runs the tests' calls through [Fetcher].  The network
    is the section variable
    [post] of [Fetcher] (an oracle from URL and body to what axios
    resolves or rejects with), so every theorem holds for every network
    behaviour; [Transport] ties [post] to an HTTP response [r] by
    [axios_settle r = Some (post API_URL body)], the contract between
    axios and the code; the settlement order of the requests is an argument
    ([order]), so every theorem states for which orders it holds.

    ** What the theorems show

    - [Fetcher]: cardinality of [data] (one record for one id, an array
      in input order for several, whatever the timing), the data/error
      contract, provider errors (thrown for one id, [null] in a batch),
      and the three places where the code differs from the spec: an
      unknown id ([{}] response) and a transport failure fail a whole
      batch, an input without ids returns [{ data: undefined }]; the ids
      are the untrimmed non-blank pieces; the request events come first
      and in input order; the record built from a well-formed response;
      the reported error is the first rejection in settlement order, so
      it depends on timing.
    - [PromiseAll]: refinement (every complete run of [pstep] computes
      [promise_all] of its own settlement order), completeness (every
      order is realised by a run), the invariant of every reachable
      state (each task pending or settled once, the verdict is the first
      failure and is final), the contract for every order, and determinism when at most one
      promise fails.
    - [BigDecimal]: bignumber.js reads a number amount as [String(v)]
      (the shortest decimal of the double, [number_string_value]), and
      the text reads back as exactly that value over 10^6 (fixed-point
      below 10^27, exponent notation from there on); an amount TronGrid
      sends comes out exact if and only if it is [String] of its double:
      always below 2^53, not for 2^53 + 1 (it reaches the code as 2^53)
      nor for 2^60 (printed from 1152921504606847000), so the exactness
      the spec asks for is lost before the arbitrary-precision
      arithmetic starts; below 2^53 an amount sent as a decimal string
      gives the same text as the number.
    - [JsonBody]: every id of UTF-16 code units is read back exactly from
      its request body (lone surrogates and control characters
      included), so different ids give different requests; the body
      equals the one ECMA-262's QuoteJSONString gives over code points
      (equivalence with the standard's algorithm); every body
      is well-formed UTF-16 without raw control characters; hexadecimal
      hashes are sent verbatim.
    - [TestSuite]: the first test passes for every hash answered with a
      typed transfer, the second exactly when the fixture has at least
      two such hashes (with one, [data] is not an array), the third
      exactly when the lookup of the invalid id throws.
    - [Ellipsify]: exact output and length for the default pad, the pad
      exceeds 8 from 34 units on (contrary to the comment of line 30),
      pads past the end; lemmas: the shape for every pad, shortening
      from 14 units on.
    - [DateFormat]: the executable YearFromTime meets ECMA-262's
      definition (refinement), getDay/getMonth/getDate stay in range so
      the table lookups always hit, the calendar round trip, every
      September date printed with "Sept" (the spec's example has
      "Sep"), invalid dates.
    - [Axios]: [JSON.parse] reads back the text [json_print] gives of
      every value with code-unit strings, each integer rounded to the
      nearest double (round trip; exact for safe integers); examples:
      TronGrid's error answer, an amount above 2^53 read as the nearest
      double, non-JSON text.  The lemma [json_parse_fuel_enough] shows
      that the parser's fuel never runs out, on every text.
    - [Transport]: a status outside 2xx (other than 0, which axios
      resolves) throws an AxiosError naming the status and fails the whole call (the [{ error }] message for one
      id); a 2xx body that is not JSON reaches the code as a string and
      fails the call with a TypeError; a 2xx body holding the JSON text
      of a transfer gives its record, end to end, with the amount and
      the timestamp rounded to doubles as [JSON.parse] rounds them and
      the amount over 10^6 printed from [String(amount)].
    - [JsString]: lemmas only (split/join round trips, trim, slice),
      used by the claims of [Fetcher] and [Ellipsify].

    ** Bounds and fuel

    [udigits] recurses on a fuel argument; [dec_fuel n], the bit length
    of [n], is enough because [n < 2^k <= 10^k] ([dec_fuel_enough]).
    [year_from_day] corrects a 400-year-cycle estimate by at most one
    year, proved sufficient in [year_from_day_between].  [json_parse]
    gives its readers [S (2 * length text)] units of fuel: a reader that
    succeeds consumes at least one unit ([parse_consumes]), an array or
    object level costs two units of fuel for its opening bracket, and
    [parse_no_fuel] shows by induction on the fuel that this is always
    enough; with [parse_fuel_mono] (more fuel changes no result) it
    gives [json_parse_fuel_enough]: the fuel is never the reason for a
    result.  No other definition needs fuel: every recursion is
    structural ([json_unescape] consumes six units per [\uXXXX] escape through nested patterns;
    [json_escape_rect] is induction along [json_escape]'s recursion,
    which consumes a surrogate pair at once).  The concurrent semantics
    terminates by the number of pending tasks ([pstep_terminates]).
    Integers are unbounded Z; the only width that matters is the 53-bit
    significand of the doubles [JSON.parse] produces ([round_double]).
    bignumber.js switches to exponent notation at 10^21, that is for
    amounts of 10^27 and more, beyond int64; both notations are
    covered.

    ** Not modelled

    The network exchange (TCP/TLS, headers, redirects, timeouts, which
    answer the server sends) is not modelled: [Fetcher]'s theorems hold
    for every oracle [post], [Transport]'s for every HTTP response;
    JSON numbers with a fraction or an exponent, and integers from
    2^1023 on, give [JsonUnmodelled]; console rendering is reduced to events; JavaScript numbers
    are integers (fractional numbers and NaN from JSON are outside the
    model, and [round_double] ignores the overflow to Infinity beyond
    2^1024); bignumber.js parsing of string amounts other than plain
    decimals and Date.parse of string timestamps give [Unmodelled]:
    their sources are not in the
    repository (bignumber.js is a dependency, Date.parse is
    implementation-defined beyond ISO strings) and TronGrid sends both
    fields as JSON numbers; prototype properties of objects are not
    modelled (no name the code reads is one).  The tests' fixture
    ([./hashes]) is not in the repository and is a parameter.

    ** Further work

    The ISO form of Date.parse for string timestamps; fractional JSON
    numbers (they need a model of doubles beyond integers); the console
    events of the tests ([log: true] in the first test). *)

From Stdlib Require Import String Ascii ZArith List Lia Bool.
Import ListNotations.
Local Open Scope Z_scope.

(** ** JavaScript strings *)

(** A JavaScript string is a sequence of UTF-16 code units. *)
Abbreviation jsstr := (list Z) (only parsing).

(** Literal strings of the development are written in ASCII and
    converted code unit by code unit. *)
Definition js (s : string) : jsstr :=
  map (fun a => Z.of_nat (nat_of_ascii a)) (list_ascii_of_string s).

(** ** The result monad

    [Ok] is a value, [Throw] a JavaScript exception (its type is a
    parameter, fixed by the files that raise them), and [Unmodelled] a
    behaviour whose semantics belongs to library code the development
    does not model (it names what). *)
Inductive res (E A : Type) : Type :=
| Ok (a : A)
| Throw (e : E)
| Unmodelled (what : string).
Arguments Ok {E A} a.
Arguments Throw {E A} e.
Arguments Unmodelled {E A} what.

Definition res_bind {E A B} (c : res E A) (k : A -> res E B) : res E B :=
  match c with
  | Ok a => k a
  | Throw e => Throw e
  | Unmodelled w => Unmodelled w
  end.

Definition res_map {E A B} (f : A -> B) (c : res E A) : res E B :=
  res_bind c (fun a => Ok (f a)).

Declare Scope res_scope.
Delimit Scope res_scope with res.
Notation "'let*' x ':=' c 'in' k" := (res_bind c (fun x => k))
  (at level 10, x name, c at level 100, k at level 200) : res_scope.
Notation "'let*' ' p ':=' c 'in' k" := (res_bind c (fun x => match x with p => k end))
  (at level 10, p pattern, c at level 100, k at level 200) : res_scope.

Lemma res_bind_Ok {E A B} (a : A) (k : A -> res E B) :
  res_bind (Ok a) k = k a.
Proof. reflexivity. Qed.

Lemma res_bind_Throw {E A B} (e : E) (k : A -> res E B) :
  res_bind (Throw e) k = Throw e.
Proof. reflexivity. Qed.

Lemma res_bind_assoc {E A B C} (c : res E A) (f : A -> res E B) (g : B -> res E C) :
  res_bind (res_bind c f) g = res_bind c (fun a => res_bind (f a) g).
Proof. destruct c; reflexivity. Qed.

Lemma res_bind_Ok_inv {E A B} (c : res E A) (k : A -> res E B) (b : B) :
  res_bind c k = Ok b -> exists a, c = Ok a /\ k a = Ok b.
Proof. destruct c; simpl; intros H; [eauto | discriminate | discriminate]. Qed.

(** ** Decimal digits

    [udigits fuel n] is the decimal representation of [0 <= n] (most
    significant digit first) as ASCII code units; [fuel] bounds the number
    of digits, and [dec_fuel n] (the bit length of [n]) is always enough
    because [n < 2^(bits) <= 10^(bits)]. *)
Fixpoint udigits (fuel : nat) (n : Z) : jsstr :=
  match fuel with
  | O => []
  | S f => (if n <? 10 then [] else udigits f (n / 10)) ++ [48 + n mod 10]
  end.

Definition dec_fuel (n : Z) : nat := S (Z.to_nat (Z.log2 n)).

(** [Number.prototype.toString()] on an integer value in the safe range
    (no exponent notation below 10^21). *)
Definition Z_to_dec (n : Z) : jsstr :=
  if n <? 0 then 45 :: udigits (dec_fuel (- n)) (- n)
  else udigits (dec_fuel n) n.

(** Reading back a string of decimal digits. *)
Definition dec_value (s : jsstr) : Z :=
  fold_left (fun acc d => acc * 10 + (d - 48)) s 0.

Definition is_digit (c : Z) : bool := (48 <=? c) && (c <=? 57).

(** ** Shared lemmas *)

Lemma dec_value_snoc s d : dec_value (s ++ [d]) = dec_value s * 10 + (d - 48).
Proof. unfold dec_value. rewrite fold_left_app. reflexivity. Qed.

Lemma udigits_value fuel n :
  0 <= n < 10 ^ Z.of_nat fuel -> dec_value (udigits fuel n) = n.
Proof.
  revert n; induction fuel as [|f IH]; intros n Hn.
  - simpl in Hn. unfold dec_value; simpl. lia.
  - cbn [udigits]. rewrite dec_value_snoc.
    rewrite Nat2Z.inj_succ, Z.pow_succ_r in Hn by lia.
    destruct (Z.ltb_spec n 10).
    + rewrite Z.mod_small by lia. change (dec_value []) with 0. lia.
    + rewrite IH; [|split; [apply Z.div_pos; lia | apply Z.div_lt_upper_bound; lia]].
      pose proof (Z.div_mod n 10 ltac:(lia)). lia.
Qed.

Lemma udigits_digits fuel n :
  0 <= n -> Forall (fun c => is_digit c = true) (udigits fuel n).
Proof.
  revert n; induction fuel as [|f IH]; intros n Hn; cbn [udigits]; [constructor|].
  apply Forall_app; split.
  - destruct (n <? 10); [constructor | apply IH, Z.div_pos; lia].
  - constructor; [|constructor]. cbv beta. unfold is_digit.
    pose proof (Z.mod_pos_bound n 10 ltac:(lia)). apply andb_true_intro; split; apply Z.leb_le; lia.
Qed.

Lemma dec_fuel_enough n : 0 <= n -> n < 10 ^ Z.of_nat (dec_fuel n).
Proof.
  intros Hn. unfold dec_fuel. rewrite Nat2Z.inj_succ, Z2Nat.id by apply Z.log2_nonneg.
  destruct (Z.eq_dec n 0) as [->|Hn0]; [simpl; lia|].
  pose proof (Z.log2_spec n ltac:(lia)) as [_ Hlt].
  eapply Z.lt_le_trans; [exact Hlt|].
  apply Z.pow_le_mono_l. split; [lia|]. lia.
Qed.

(** The decimal text [Number.prototype.toString] gives a non-negative
    integer reads back as that integer. *)
Lemma Z_to_dec_value n : 0 <= n -> dec_value (Z_to_dec n) = n.
Proof.
  intros Hn. unfold Z_to_dec. destruct (Z.ltb_spec n 0); [lia|].
  apply udigits_value. split; [lia | apply dec_fuel_enough; lia].
Qed.

Lemma Z_to_dec_digits n : 0 <= n -> Forall (fun c => is_digit c = true) (Z_to_dec n).
Proof. intros Hn. unfold Z_to_dec. destruct (Z.ltb_spec n 0); [lia|]. apply udigits_digits. exact Hn. Qed.

Lemma udigits_nonempty fuel n : (0 < fuel)%nat -> udigits fuel n <> [].
Proof.
  destruct fuel as [|f]; [lia|]. intros _. simpl.
  intros H. apply app_eq_nil in H. destruct H as [_ H]. discriminate.
Qed.

Lemma Z_to_dec_nonempty n : 0 <= n -> Z_to_dec n <> [].
Proof. intros Hn. unfold Z_to_dec. destruct (Z.ltb_spec n 0); [lia|]. apply udigits_nonempty. unfold dec_fuel. lia. Qed.

Lemma dec_value_app a b :
  dec_value (a ++ b) = dec_value a * 10 ^ Z.of_nat (length b) + dec_value b.
Proof.
  revert a. induction b as [|d b IH] using rev_ind; intros a.
  - rewrite app_nil_r. change (dec_value []) with 0. simpl. lia.
  - rewrite app_assoc, !dec_value_snoc, IH, length_app. simpl length.
    rewrite Nat2Z.inj_add, Z.pow_add_r by lia. simpl (Z.of_nat 1). lia.
Qed.

Lemma udigits_length fuel n j :
  0 <= n < 10 ^ Z.of_nat j -> (1 <= j)%nat -> (length (udigits fuel n) <= j)%nat.
Proof.
  revert n j; induction fuel as [|f IH]; intros n j Hn Hj; cbn [udigits]; [simpl; lia|].
  rewrite length_app. simpl length.
  destruct (Z.ltb_spec n 10); simpl length; [lia|].
  destruct j as [|[|j]]; [lia| simpl in Hn; lia|].
  assert (length (udigits f (n / 10)) <= S j)%nat; [|lia].
  apply IH; [|lia]. split; [apply Z.div_pos; lia|].
  apply Z.div_lt_upper_bound; [lia|]. rewrite Nat2Z.inj_succ, Z.pow_succ_r in Hn by lia. lia.
Qed.

(** ** Automation *)

Create HintDb tron.
Create Rewrite HintDb tron_rw.
#[export] Hint Rewrite @length_app @length_map @length_rev @res_bind_Ok
  @res_bind_Throw : tron_rw.
#[export] Hint Resolve udigits_digits : tron.

(** [res_inv] splits a hypothesis [res_bind c k = Ok b]. *)
Ltac res_inv :=
  repeat match goal with
  | H : res_bind ?c _ = Ok _ |- _ =>
      let a := fresh "a" in let Hc := fresh "Hc" in
      apply res_bind_Ok_inv in H; destruct H as [a [Hc H]]
  | H : Ok _ = Ok _ |- _ => injection H as H
  end.

(** [zbool] turns the boolean comparisons on Z of a goal into cases. *)
Ltac zbool :=
  repeat match goal with
  | |- context [Z.ltb ?a ?b] => destruct (Z.ltb_spec a b)
  | |- context [Z.leb ?a ?b] => destruct (Z.leb_spec a b)
  | |- context [Z.eqb ?a ?b] => destruct (Z.eqb_spec a b)
  end.

(** [zdiv_lia] closes linear goals over floor division and modulo by
    constants. *)
Ltac zdiv_lia := Z.div_mod_to_equations; lia.
