(* ===== verification/JsString.v ===== *)
(** * JavaScript string primitives used by index.ts

    [split_on] is [String.prototype.split] with a one-code-unit separator
    (line 56 calls [split(',')]), [js_trim] is [String.prototype.trim]
    (line 56 calls [tx.trim()]) with the ECMAScript WhiteSpace and
    LineTerminator code points, and [js_slice] is the index arithmetic
    shared by [String.prototype.slice] and [Array.prototype.slice]
    (line 31).  The lemmas are the split/join round trips that
    [Fetcher.normalize_ids] builds on, the trim characterisation, and
    the slice length and shape laws that [Ellipsify] builds on; the
    program's claims about them are stated in those files. *)

From Stdlib Require Import ZArith List Lia Bool.
From S2P Require Import Prelude.
Import ListNotations.
Open Scope Z_scope.

(** ** split *)

Definition comma : Z := 44.

(** ["...".split(sep)]: the pieces between the occurrences of [sep]; the
    empty string gives one empty piece. *)
Fixpoint split_on (sep : Z) (s : jsstr) : list jsstr :=
  match s with
  | [] => [[]]
  | c :: rest =>
      let parts := split_on sep rest in
      if c =? sep then [] :: parts
      else match parts with
           | p :: ps => (c :: p) :: ps
           | [] => [[c]]
           end
  end.

(** [Array.prototype.join(sep)] on strings. *)
Fixpoint join_with (sep : Z) (ps : list jsstr) : jsstr :=
  match ps with
  | [] => []
  | [p] => p
  | p :: rest => p ++ sep :: join_with sep rest
  end.

(** ** trim *)

(** WhiteSpace (TAB, VT, FF, ZWNBSP and the Zs category) and
    LineTerminator (LF, CR, LS, PS) of ECMA-262 section 12.2-12.3. *)
Definition is_js_whitespace (c : Z) : bool :=
  (c =? 9) || (c =? 10) || (c =? 11) || (c =? 12) || (c =? 13) || (c =? 32)
  || (c =? 160) || (c =? 5760) || ((8192 <=? c) && (c <=? 8202))
  || (c =? 8232) || (c =? 8233) || (c =? 8239) || (c =? 8287)
  || (c =? 12288) || (c =? 65279).

Fixpoint trim_start (s : jsstr) : jsstr :=
  match s with
  | [] => []
  | c :: rest => if is_js_whitespace c then trim_start rest else s
  end.

Definition trim_end (s : jsstr) : jsstr := rev (trim_start (rev s)).

(** TrimString(S, start+end): leading white space first, then trailing. *)
Definition js_trim (s : jsstr) : jsstr := trim_end (trim_start s).

(** ** slice *)

(** A relative index of [slice]: negative values count from the end,
    the result is clamped to [0, len]. *)
Definition rel_index (len i : Z) : Z :=
  if i <? 0 then Z.max (len + i) 0 else Z.min i len.

(** [s.slice(start, end)] on strings and arrays alike. *)
Definition js_slice {A} (s : list A) (start end_ : Z) : list A :=
  let len := Z.of_nat (length s) in
  let from := rel_index len start in
  let to := rel_index len end_ in
  firstn (Z.to_nat (to - from)) (skipn (Z.to_nat from) s).

(** ** Lemmas on split *)

Lemma split_on_nonempty sep s : split_on sep s <> [].
Proof.
  destruct s as [|c rest]; simpl; [discriminate|].
  destruct (c =? sep); [discriminate|]. destruct (split_on sep rest); discriminate.
Qed.

Lemma split_on_cons_other sep c rest :
  c <> sep ->
  exists p ps, split_on sep rest = p :: ps /\ split_on sep (c :: rest) = (c :: p) :: ps.
Proof.
  intros Hc. simpl. destruct (Z.eqb_spec c sep); [contradiction|].
  destruct (split_on sep rest) as [|p ps] eqn:E.
  - exfalso. exact (split_on_nonempty sep rest E).
  - eauto.
Qed.

Lemma join_with_cons sep p ps :
  ps <> [] -> join_with sep (p :: ps) = p ++ sep :: join_with sep ps.
Proof. destruct ps; [contradiction | reflexivity]. Qed.

(** ** Lemmas on trim *)

Lemma trim_start_all_ws s :
  trim_start s = [] <-> forallb is_js_whitespace s = true.
Proof.
  induction s as [|c rest IH]; simpl; [tauto|].
  destruct (is_js_whitespace c); simpl; [exact IH|].
  split; discriminate.
Qed.

Lemma trim_start_head s c rest :
  trim_start s = c :: rest -> is_js_whitespace c = false.
Proof.
  induction s as [|d s' IH]; simpl; [discriminate|].
  destruct (is_js_whitespace d) eqn:E; [exact IH|].
  intros H; injection H as -> ->. exact E.
Qed.

Lemma forallb_rev {A} (f : A -> bool) l : forallb f (rev l) = forallb f l.
Proof.
  induction l as [|x l IH]; simpl; [reflexivity|].
  rewrite forallb_app, IH. simpl. rewrite andb_true_r, andb_comm. reflexivity.
Qed.

(** ** Lemmas on slice *)

Lemma rel_index_bounds len i : 0 <= len -> 0 <= rel_index len i <= len.
Proof. intros H. unfold rel_index. zbool; lia. Qed.

Lemma rel_index_nonneg len i : 0 <= i -> rel_index len i = Z.min i len.
Proof. intros H. unfold rel_index. zbool; lia. Qed.

Lemma rel_index_0 len : 0 <= len -> rel_index len 0 = 0.
Proof. intros H. rewrite rel_index_nonneg; lia. Qed.

Lemma js_slice_length {A} (s : list A) a b :
  length (js_slice s a b) =
  Z.to_nat (rel_index (Z.of_nat (length s)) b - rel_index (Z.of_nat (length s)) a).
Proof.
  unfold js_slice.
  pose proof (rel_index_bounds (Z.of_nat (length s)) a ltac:(lia)).
  pose proof (rel_index_bounds (Z.of_nat (length s)) b ltac:(lia)).
  rewrite length_firstn, length_skipn. lia.
Qed.

(** A slice from 0 is a prefix. *)
Lemma js_slice_prefix {A} (s : list A) p :
  0 <= p -> js_slice s 0 p = firstn (Z.to_nat p) s.
Proof.
  intros Hp. unfold js_slice.
  rewrite rel_index_0, rel_index_nonneg, Z.sub_0_r by lia. simpl.
  destruct (Z.le_ge_cases p (Z.of_nat (length s))).
  - rewrite Z.min_l by lia. reflexivity.
  - rewrite Z.min_r by lia. rewrite Nat2Z.id, !firstn_all2; [reflexivity | lia | lia].
Qed.

(** A slice up to the end is a suffix. *)
Lemma js_slice_suffix {A} (s : list A) a :
  0 <= a <= Z.of_nat (length s) ->
  js_slice s a (Z.of_nat (length s)) = skipn (Z.to_nat a) s.
Proof.
  intros Ha. unfold js_slice. rewrite !rel_index_nonneg by lia.
  rewrite (Z.min_l a), Z.min_id by lia.
  apply firstn_all2. rewrite length_skipn. lia.
Qed.

(** Every slice is a contiguous piece of the list. *)
Lemma js_slice_infix {A} (s : list A) a b :
  exists x y, s = x ++ js_slice s a b ++ y.
Proof.
  unfold js_slice. cbv zeta.
  generalize (Z.to_nat (rel_index (Z.of_nat (length s)) a)) as k.
  generalize (Z.to_nat (rel_index (Z.of_nat (length s)) b
                        - rel_index (Z.of_nat (length s)) a)) as n.
  intros n k. exists (firstn k s), (skipn n (skipn k s)).
  rewrite !firstn_skipn. reflexivity.
Qed.

Lemma js_slice_is_prefix {A} (s : list A) b : exists y, s = js_slice s 0 b ++ y.
Proof.
  unfold js_slice. rewrite rel_index_0 by lia. simpl.
  exists (skipn (Z.to_nat (rel_index (Z.of_nat (length s)) b - 0)) s).
  symmetry. apply firstn_skipn.
Qed.

Lemma js_slice_is_suffix {A} (s : list A) a :
  exists x, s = x ++ js_slice s a (Z.of_nat (length s)).
Proof.
  unfold js_slice. cbv zeta.
  pose proof (rel_index_bounds (Z.of_nat (length s)) a ltac:(lia)).
  rewrite (rel_index_nonneg _ (Z.of_nat _)), Z.min_id by lia.
  rewrite firstn_all2 by (rewrite length_skipn; lia).
  exists (firstn (Z.to_nat (rel_index (Z.of_nat (length s)) a)) s).
  symmetry. apply firstn_skipn.
Qed.

Lemma split_on_no_sep sep p : ~ In sep p -> split_on sep p = [p].
Proof.
  induction p as [|c p IH]; intros Hin; [reflexivity|].
  simpl. destruct (Z.eqb_spec c sep) as [->|Hne]; [simpl in Hin; tauto|].
  rewrite IH by (simpl in Hin; tauto). reflexivity.
Qed.

Lemma split_on_app sep p rest :
  ~ In sep p -> split_on sep (p ++ sep :: rest) = p :: split_on sep rest.
Proof.
  induction p as [|c p IH]; intros Hin; simpl.
  - rewrite Z.eqb_refl. reflexivity.
  - destruct (Z.eqb_spec c sep) as [->|Hne]; [simpl in Hin; tauto|].
    rewrite IH by (simpl in Hin; tauto). reflexivity.
Qed.

Lemma join_with_cons_cons sep c p ps :
  join_with sep ((c :: p) :: ps) = c :: join_with sep (p :: ps).
Proof. destruct ps; reflexivity. Qed.

(** Joining the pieces of [split(sep)] with [sep] gives back the
    original string, so splitting loses nothing. *)
Lemma join_split sep s : join_with sep (split_on sep s) = s.
Proof.
  induction s as [|c rest IH]; [reflexivity|].
  cbn [split_on]. destruct (Z.eqb_spec c sep) as [->|Hne].
  - rewrite join_with_cons by apply split_on_nonempty. rewrite IH. reflexivity.
  - destruct (split_on sep rest) as [|p ps] eqn:E.
    + exfalso. exact (split_on_nonempty _ _ E).
    + rewrite join_with_cons_cons, IH. reflexivity.
Qed.

Lemma split_join_pieces sep ps :
  ps <> [] -> Forall (fun p => ~ In sep p) ps -> split_on sep (join_with sep ps) = ps.
Proof.
  induction ps as [|p ps IH]; intros Hne Hf; [contradiction|].
  inversion Hf as [|? ? Hp Hps]; subst.
  destruct ps as [|q qs].
  - apply split_on_no_sep. exact Hp.
  - rewrite join_with_cons by discriminate. rewrite split_on_app by exact Hp.
    rewrite IH by (discriminate || exact Hps). reflexivity.
Qed.

(** No piece of a split contains the separator. *)
Lemma split_on_pieces_sep_free sep s : Forall (fun p => ~ In sep p) (split_on sep s).
Proof.
  induction s as [|c rest IH]; simpl.
  - constructor; [simpl; tauto | constructor].
  - destruct (Z.eqb_spec c sep) as [->|Hne]; [constructor; [simpl; tauto | exact IH]|].
    destruct (split_on sep rest) as [|p ps]; [constructor; [simpl; intuition | constructor]|].
    inversion IH; subst. constructor; [simpl; intuition | assumption].
Qed.

(** A split has one piece more than there are separators. *)
Lemma split_on_length sep s : length (split_on sep s) = S (count_occ Z.eq_dec s sep).
Proof.
  induction s as [|c rest IH]; [reflexivity|].
  simpl. destruct (Z.eqb_spec c sep) as [->|Hne].
  - destruct (Z.eq_dec sep sep); [simpl; rewrite IH; reflexivity | contradiction].
  - destruct (Z.eq_dec c sep); [contradiction|].
    destruct (split_on sep rest) as [|p ps]; simpl in *; lia.
Qed.

Lemma js_trim_empty_iff s : js_trim s = [] <-> forallb is_js_whitespace s = true.
Proof.
  unfold js_trim, trim_end. rewrite <- trim_start_all_ws.
  split; intros H.
  - apply (f_equal (@rev Z)) in H. rewrite rev_involutive in H. simpl in H.
    apply trim_start_all_ws in H. rewrite forallb_rev in H.
    destruct (trim_start s) as [|c rest] eqn:E; [reflexivity|].
    simpl in H. rewrite (trim_start_head _ _ _ E) in H. discriminate.
  - rewrite H. reflexivity.
Qed.

