(* ===== verification/Ellipsify.v ===== *)
(** * ellipsify (index.ts lines 27-32)

    [ellipsify str strPad] keeps [strPad] code units of each end of
    [str] around a literal ["..."].  The pad defaults to
    [Math.ceil(len / 3)] when it is absent or falsy ([strPad || ...]
    also replaces an explicit 0), and a pad above 8 is reduced by 3.
    Both ends are taken with [String.prototype.slice], so a pad larger
    than the string, or a negative one, follows slice's clamping and
    negative-index rules ([JsString.js_slice]).

    The theorems give the output's shape for every pad (a prefix of the
    string, the dots, a suffix of the string), its exact form and length
    for the pad [getTransactionById] uses (the default), the length
    bound that shows the "max pad 8" comment does not hold, and the
    behaviour on short strings and on an explicit zero pad. *)

From Stdlib Require Import String ZArith List Lia Bool.
From S2P Require Import Prelude JsString.
Import ListNotations.
Open Scope Z_scope.

(** [Math.ceil(a / b)] for [0 < b], in integer arithmetic. *)
Definition math_ceil_div (a b : Z) : Z := - ((- a) / b).

Definition dots : jsstr := js "..."%string.

(** The pad after lines 29 and 30. *)
Definition effective_pad (len : Z) (strPad : option Z) : Z :=
  let strPad := match strPad with
                | Some p => if p =? 0 then math_ceil_div len 3 else p
                | None => math_ceil_div len 3
                end in
  if 8 <? strPad then strPad - 3 else strPad.

Definition ellipsify (str : jsstr) (strPad : option Z) : jsstr :=
  let len := Z.of_nat (length str) in
  let strPad := effective_pad len strPad in
  js_slice str 0 strPad ++ dots ++ js_slice str (len - strPad) len.

(** ** Lemmas *)

Lemma math_ceil_div_bounds a : 0 <= a -> 3 * math_ceil_div a 3 - 2 <= a <= 3 * math_ceil_div a 3.
Proof.
  intros Ha. unfold math_ceil_div.
  pose proof (Z.div_mod (- a) 3 ltac:(lia)). pose proof (Z.mod_pos_bound (- a) 3 ltac:(lia)).
  lia.
Qed.

(** The default pad lies between 0 and the length. *)
Lemma default_pad_bounds len :
  0 <= len -> 0 <= effective_pad len None <= len.
Proof.
  intros Hl. pose proof (math_ceil_div_bounds len Hl).
  unfold effective_pad. zbool; lia.
Qed.

Lemma default_pad_pos len :
  1 <= len -> 1 <= effective_pad len None.
Proof.
  intros Hl. pose proof (math_ceil_div_bounds len ltac:(lia)).
  unfold effective_pad. zbool; lia.
Qed.

(** With a pad between 0 and the length, [ellipsify] is the first [p]
    and the last [p] code units around the dots. *)
Lemma ellipsify_in_range str strPad :
  0 <= effective_pad (Z.of_nat (length str)) strPad <= Z.of_nat (length str) ->
  ellipsify str strPad =
  firstn (Z.to_nat (effective_pad (Z.of_nat (length str)) strPad)) str ++ dots
  ++ skipn (Z.to_nat (Z.of_nat (length str) - effective_pad (Z.of_nat (length str)) strPad)) str.
Proof.
  intros Hp. unfold ellipsify. cbv zeta.
  rewrite js_slice_prefix, js_slice_suffix by lia. reflexivity.
Qed.

Lemma length_dots : length dots = 3%nat.
Proof. reflexivity. Qed.

#[export] Hint Rewrite length_dots : tron_rw.

(** The output length for the default pad. *)
Lemma ellipsify_default_length str :
  length (ellipsify str None) =
  (2 * Z.to_nat (effective_pad (Z.of_nat (length str)) None) + 3)%nat.
Proof.
  pose proof (default_pad_bounds (Z.of_nat (length str)) ltac:(lia)).
  rewrite ellipsify_in_range by lia.
  rewrite !length_app, length_firstn, length_skipn, length_dots. lia.
Qed.

Lemma default_pad_large len :
  25 <= len -> effective_pad len None = math_ceil_div len 3 - 3.
Proof.
  intros Hl. pose proof (math_ceil_div_bounds len ltac:(lia)).
  unfold effective_pad. zbool; lia.
Qed.

Lemma default_pad_small len :
  0 <= len <= 24 -> effective_pad len None = math_ceil_div len 3.
Proof.
  intros Hl. pose proof (math_ceil_div_bounds len ltac:(lia)).
  unfold effective_pad. zbool; lia.
Qed.

(** ** Properties *)

(** For every pad, absent, zero, negative or larger than the string,
    the output of [ellipsify] is a prefix of the string, the three dots,
    and a suffix of the string. *)
Theorem ellipsify_shape str strPad :
  exists pre suf,
    ellipsify str strPad = pre ++ dots ++ suf /\
    (exists rest, str = pre ++ rest) /\ (exists rest, str = rest ++ suf).
Proof.
  unfold ellipsify. cbv zeta.
  eexists _, _. split; [reflexivity|].
  split; [apply js_slice_is_prefix | apply js_slice_is_suffix].
Qed.

(** C31: with the default pad (the only call, line 84), the output is the
    first [p] and the last [p] code units of the string around the dots,
    and has length [2p + 3], where [p] is [ceil(len/3)], reduced by 3
    when it exceeds 8. *)
Theorem ellipsify_default str :
  let len := Z.of_nat (length str) in
  let p := effective_pad len None in
  ellipsify str None = firstn (Z.to_nat p) str ++ dots ++ skipn (Z.to_nat (len - p)) str /\
  length (ellipsify str None) = (2 * Z.to_nat p + 3)%nat /\
  p = (if 8 <? math_ceil_div len 3 then math_ceil_div len 3 - 3 else math_ceil_div len 3).
Proof.
  intros len p. subst len p.
  pose proof (default_pad_bounds (Z.of_nat (length str)) ltac:(lia)).
  split; [apply ellipsify_in_range; lia|].
  split; [apply ellipsify_default_length | reflexivity].
Qed.

(** C32: the comment of line 30 says the pad is at most 8, but the
    reduction by 3 is applied once: from 34 code units on, each side of
    the dots keeps more than 8 (a 64-unit TRON transaction hash keeps
    19 on each side, 41 units in all). *)
Theorem ellipsify_pad_exceeds_8 str :
  (34 <= length str)%nat ->
  8 < effective_pad (Z.of_nat (length str)) None /\
  (19 < length (ellipsify str None))%nat.
Proof.
  intros Hl. pose proof (math_ceil_div_bounds (Z.of_nat (length str)) ltac:(lia)).
  rewrite ellipsify_default_length, default_pad_large by lia. lia.
Qed.

Lemma ellipsify_pad_exceeds_8_witness :
  (34 <= length (repeat 97%Z 64))%nat /\
  8 < effective_pad (Z.of_nat (length (repeat 97%Z 64))) None /\
  (19 < length (ellipsify (repeat 97%Z 64) None))%nat /\
  length (ellipsify (repeat 97%Z 64) None) = 41%nat.
Proof.
  split; [simpl; lia|]. split; [apply ellipsify_pad_exceeds_8; simpl; lia|].
  split; [apply ellipsify_pad_exceeds_8; simpl; lia | reflexivity].
Defined.

(** From 14 code units on, the default [ellipsify] shortens the
    string; below that it can lengthen it (one unit becomes five). *)
Theorem ellipsify_shortens str :
  (14 <= length str)%nat -> (length (ellipsify str None) < length str)%nat.
Proof.
  intros Hl. rewrite ellipsify_default_length.
  pose proof (math_ceil_div_bounds (Z.of_nat (length str)) ltac:(lia)).
  destruct (Z.le_gt_cases 25 (Z.of_nat (length str))).
  - rewrite default_pad_large by lia. lia.
  - rewrite default_pad_small by lia. lia.
Qed.

Lemma ellipsify_shortens_witness :
  (14 <= length (js "abcdefghijklmno"))%nat /\
  (length (ellipsify (js "abcdefghijklmno") None) < length (js "abcdefghijklmno"))%nat /\
  ellipsify (js "abcdefghijklmno") None = js "abcde...klmno".
Proof.
  split; [simpl; lia|]. split; [apply ellipsify_shortens; simpl; lia | reflexivity].
Defined.

(** A one-unit string is repeated on both sides of the dots. *)
Example ellipsify_single_unit c : ellipsify [c] None = [c] ++ dots ++ [c].
Proof. reflexivity. Qed.

(** C33: an explicit pad [p] with [len < p <= 8] keeps the whole string
    before the dots but, after them, only the last [p - len] units (the
    start index [len - p] is negative and counts from the end); a pad of
    twice the length or more keeps the whole string on both sides. *)
Theorem ellipsify_pad_past_end str p :
  0 < p <= 8 -> Z.of_nat (length str) < p ->
  ellipsify str (Some p) =
  str ++ dots ++ skipn (Z.to_nat (2 * Z.of_nat (length str) - p)) str.
Proof.
  intros Hp Hl. unfold ellipsify, effective_pad. cbv zeta.
  destruct (Z.eqb_spec p 0); [lia|]. destruct (Z.ltb_spec 8 p); [lia|].
  rewrite js_slice_prefix, firstn_all2 by lia. unfold js_slice.
  rewrite (rel_index_nonneg _ (Z.of_nat _)), Z.min_id by lia.
  unfold rel_index. destruct (Z.ltb_spec (Z.of_nat (length str) - p) 0); [|lia].
  rewrite firstn_all2; [do 3 f_equal; lia|]. rewrite length_skipn. lia.
Qed.

Lemma ellipsify_pad_past_end_witness :
  ellipsify (js "abc") (Some 4) = js "abc...c".
Proof.
  rewrite (ellipsify_pad_past_end (js "abc") 4); [reflexivity | lia | simpl; lia].
Defined.
