(* ===== verification/JsValue.v ===== *)
(** * JavaScript values, exceptions and the operations index.ts applies

    The response body that axios hands back ([data], line 62) is a parsed
    JSON document; [jsval] models it as a JavaScript value (undefined is
    included because missing properties read as undefined).  Numbers are
    integers here: every number the code reads (an amount, a timestamp)
    is an integer in TronGrid's responses; fractional values and NaN are
    outside the model.

    [exn] is what the code can throw: a TypeError of the engine (the three
    kinds the code can raise), an [Error] built by line 72, and the
    rejection of axios.  [get_prop] is property access ([v.k] and
    [v[0]]), throwing on undefined and null; [truthy] is ToBoolean
    (line 70); [to_js_string] is ToString (the message of [new Error]
    and template literals).  Prototype properties are not modelled: none
    of the names the code reads is one. *)

From Stdlib Require Import String ZArith List Lia Bool.
From S2P Require Import Prelude JsString.
Import ListNotations.
Open Scope Z_scope.

Inductive jsval : Type :=
| JUndefined
| JNull
| JBool (b : bool)
| JNumber (n : Z)
| JString (s : jsstr)
| JArray (xs : list jsval)
| JObject (fields : list (jsstr * jsval)).

(** A property key: a name ([v.name]) or an array index ([v[n]]). *)
Inductive key : Type :=
| KName (name : jsstr)
| KIndex (n : nat).

(** The TypeErrors the code can raise. *)
Inductive type_error : Type :=
| ReadOfNullish (k : key)        (** reading a property of undefined or null *)
| DestructureNullish             (** [const { ... } = undefined] *)
| NotAFunction (name : jsstr).   (** calling a method the value lacks *)

Inductive exn : Type :=
| JsTypeError (e : type_error)
| JsError (message : jsstr)      (** [new Error(message)] *)
| AxiosError (message : jsstr).  (** a rejected [axios.post] *)

(** [e.message], line 103; a TypeError's text is the engine's. *)
Definition exn_message (e : exn) : option jsstr :=
  match e with
  | JsTypeError _ => None
  | JsError m | AxiosError m => Some m
  end.

(** ToBoolean. *)
Definition truthy (v : jsval) : bool :=
  match v with
  | JUndefined | JNull => false
  | JBool b => b
  | JNumber n => negb (n =? 0)
  | JString s => match s with [] => false | _ => true end
  | JArray _ | JObject _ => true
  end.

Definition is_nullish (v : jsval) : bool :=
  match v with JUndefined | JNull => true | _ => false end.

Definition key_name (k : key) : jsstr :=
  match k with KName s => s | KIndex n => Z_to_dec (Z.of_nat n) end.

(** The value bound to a name in a parsed object: JSON.parse keeps the
    last of duplicate keys. *)
Fixpoint assoc_last (k : jsstr) (fs : list (jsstr * jsval)) : option jsval :=
  match fs with
  | [] => None
  | (k', v) :: rest =>
      match assoc_last k rest with
      | Some v' => Some v'
      | None => if list_eq_dec Z.eq_dec k k' then Some v else None
      end
  end.

Definition length_key : jsstr := js "length"%string.

Definition of_option (o : option jsval) : jsval :=
  match o with Some v => v | None => JUndefined end.

(** [v.k] / [v[n]]. *)
Definition get_prop (v : jsval) (k : key) : res exn jsval :=
  match v with
  | JUndefined | JNull => Throw (JsTypeError (ReadOfNullish k))
  | JBool _ | JNumber _ => Ok JUndefined
  | JString s =>
      Ok (match k with
          | KIndex n => match nth_error s n with Some c => JString [c] | None => JUndefined end
          | KName name => if list_eq_dec Z.eq_dec name length_key
                          then JNumber (Z.of_nat (length s)) else JUndefined
          end)
  | JArray xs =>
      Ok (match k with
          | KIndex n => of_option (nth_error xs n)
          | KName name => if list_eq_dec Z.eq_dec name length_key
                          then JNumber (Z.of_nat (length xs)) else JUndefined
          end)
  | JObject fs => Ok (of_option (assoc_last (key_name k) fs))
  end.

(** ToString; array elements that are undefined or null print empty. *)
Fixpoint to_js_string (v : jsval) : jsstr :=
  match v with
  | JUndefined => js "undefined"
  | JNull => js "null"
  | JBool true => js "true"
  | JBool false => js "false"
  | JNumber n => Z_to_dec n
  | JString s => s
  | JArray xs =>
      join_with comma
        ((fix elems (l : list jsval) : list jsstr :=
            match l with
            | [] => []
            | x :: r => (if is_nullish x then [] else to_js_string x) :: elems r
            end) xs)
  | JObject _ => js "[object Object]"
  end.

(** ** Lemmas *)

Lemma get_prop_not_nullish v k : is_nullish v = false -> exists r, get_prop v k = Ok r.
Proof. destruct v; simpl; try discriminate; eauto. Qed.

Lemma get_prop_object fs k : get_prop (JObject fs) k = Ok (of_option (assoc_last (key_name k) fs)).
Proof. reflexivity. Qed.

Lemma assoc_last_app_fresh k fs k' v :
  k <> k' -> assoc_last k (fs ++ [(k', v)]) = assoc_last k fs.
Proof.
  intros Hne. induction fs as [|[k0 v0] rest IH]; simpl.
  - destruct (list_eq_dec Z.eq_dec k k'); [contradiction | reflexivity].
  - rewrite IH. reflexivity.
Qed.

Lemma assoc_last_app_last k fs v :
  assoc_last k (fs ++ [(k, v)]) = Some v.
Proof.
  induction fs as [|[k0 v0] rest IH]; simpl.
  - destruct (list_eq_dec Z.eq_dec k k); [reflexivity | contradiction].
  - rewrite IH. reflexivity.
Qed.

#[export] Hint Rewrite get_prop_object : tron_rw.
