(* ===== verification/DateFormat.v ===== *)
(** * formatDate (index.ts lines 5-19 and 39-44)

    [formatDate(timestamp)] builds [new Date(timestamp)] and prints
    [DAYS_OF_THE_WEEK[getDay()]], [MONTH_OF_THE_YEAR[getMonth()]],
    [getDate()] and [getFullYear()].  The date arithmetic is the
    ECMAScript runtime's, modelled from ECMA-262 section 21.4.1 (Day,
    DayFromYear, YearFromTime, InLeapYear, MonthFromTime, DateFromTime,
    WeekDay, LocalTime, TimeClip); the local time zone is the section
    variable [local_tza] (LocalTZA(t, true), the offset in milliseconds,
    which may depend on [t] for daylight saving time).

    [YearFromTime] is specified as "the largest y with TimeFromYear(y) <= t";
    [year_from_day] computes it from an estimate and one correction step,
    and [year_from_day_spec] proves it meets the specification.  The
    remaining theorems bound every field ([getDay] in 0..6, [getMonth] in
    0..11, [getDate] in 1..31), so that the table lookups of line 41-42
    never print "undefined" for a valid date, give the round trip from
    (year, month, date) back to the day number, and evaluate the spec's
    example, which shows that the table prints "Sept" where the spec
    says "Sep". *)

From Stdlib Require Import String ZArith List Lia Bool.
From S2P Require Import Prelude JsValue.
Import ListNotations.
Open Scope Z_scope.

Definition ms_per_day : Z := 86400000.

(** ** ECMA-262 date arithmetic *)

Definition day_of (t : Z) : Z := t / ms_per_day.

Definition day_from_year (y : Z) : Z :=
  365 * (y - 1970) + (y - 1969) / 4 - (y - 1901) / 100 + (y - 1601) / 400.

Definition days_in_year (y : Z) : Z :=
  if negb (y mod 4 =? 0) then 365
  else if negb (y mod 100 =? 0) then 366
  else if negb (y mod 400 =? 0) then 365
  else 366.

(** YearFromTime on the day number: [146097] days make 400 years, so
    the estimate is off by at most one year either way. *)
Definition year_from_day (d : Z) : Z :=
  let y := 1970 + (400 * d) / 146097 in
  if day_from_year (y + 1) <=? d then y + 1
  else if d <? day_from_year y then y - 1
  else y.

Definition in_leap_year (y : Z) : Z := days_in_year y - 365.

(** The first day within the year of month [m] (0-based), and 365 plus
    the leap day for [m = 12]. *)
Definition month_start (leap : Z) (m : Z) : Z :=
  nth (Z.to_nat m)
    [0; 31; 59 + leap; 90 + leap; 120 + leap; 151 + leap; 181 + leap;
     212 + leap; 243 + leap; 273 + leap; 304 + leap; 334 + leap; 365 + leap] 0.

(** MonthFromTime, on the day within the year. *)
Definition month_from_dwy (leap d : Z) : Z :=
  if d <? 31 then 0
  else if d <? 59 + leap then 1
  else if d <? 90 + leap then 2
  else if d <? 120 + leap then 3
  else if d <? 151 + leap then 4
  else if d <? 181 + leap then 5
  else if d <? 212 + leap then 6
  else if d <? 243 + leap then 7
  else if d <? 273 + leap then 8
  else if d <? 304 + leap then 9
  else if d <? 334 + leap then 10
  else 11.

(** DateFromTime, on the day within the year. *)
Definition date_from_dwy (leap d : Z) : Z :=
  d - month_start leap (month_from_dwy leap d) + 1.

Definition week_day (t : Z) : Z := (day_of t + 4) mod 7.

(** TimeClip on an integral time value; [None] is NaN. *)
Definition time_clip (t : Z) : option Z :=
  if 8640000000000000 <? Z.abs t then None else Some t.

(** ** The Date object as index.ts uses it *)

Section WithTimeZone.

(** LocalTZA(t, true): the local time-zone offset at UTC time [t]. *)
Variable local_tza : Z -> Z.

Definition local_time (t : Z) : Z := t + local_tza t.

Definition full_year (t : Z) : Z := year_from_day (day_of (local_time t)).

Definition day_within_year (t : Z) : Z :=
  day_of (local_time t) - day_from_year (full_year t).

Definition month_of (t : Z) : Z :=
  month_from_dwy (in_leap_year (full_year t)) (day_within_year t).

Definition date_of (t : Z) : Z :=
  date_from_dwy (in_leap_year (full_year t)) (day_within_year t).

Definition day_of_week (t : Z) : Z := week_day (local_time t).

(** [new Date(value)] with one argument: the time value, [None] for NaN. *)
Definition date_value (v : jsval) : res exn (option Z) :=
  match v with
  | JNumber n => Ok (time_clip n)
  | JUndefined => Ok None
  | JNull => Ok (time_clip 0)
  | JBool b => Ok (time_clip (if b then 1 else 0))
  | JString _ | JArray _ | JObject _ => Unmodelled "Date.parse"%string
  end.

End WithTimeZone.

Definition DAYS_OF_THE_WEEK : list jsstr :=
  map js ["Sun"; "Mon"; "Tue"; "Wed"; "Thur"; "Fri"; "Sat"]%string.

Definition MONTH_OF_THE_YEAR : list jsstr :=
  map js ["Jan"; "Feb"; "Mar"; "Apr"; "May"; "Jun"; "Jul"; "Aug"; "Sept";
          "Oct"; "Nov"; "Dec"]%string.

(** [table[i]] in a template literal: an index past the end, or NaN,
    reads undefined, which prints as "undefined". *)
Definition lookup_name (tbl : list jsstr) (i : option Z) : jsstr :=
  match i with
  | Some i => match nth_error tbl (Z.to_nat i) with
              | Some s => s
              | None => js "undefined"
              end
  | None => js "undefined"
  end.

(** A number in a template literal; NaN prints as "NaN". *)
Definition number_text (n : option Z) : jsstr :=
  match n with Some n => Z_to_dec n | None => js "NaN" end.

Definition comma_space : jsstr := [44; 32].
Definition space : jsstr := [32].

Section Format.

Variable local_tza : Z -> Z.

Definition format_time_value (tv : option Z) : jsstr :=
  let getDay := option_map (day_of_week local_tza) tv in
  let getMonth := option_map (month_of local_tza) tv in
  let getDate := option_map (date_of local_tza) tv in
  let getFullYear := option_map (full_year local_tza) tv in
  lookup_name DAYS_OF_THE_WEEK getDay ++ comma_space
  ++ lookup_name MONTH_OF_THE_YEAR getMonth ++ space
  ++ number_text getDate ++ comma_space ++ number_text getFullYear.

(** [formatDate(timestamp)]. *)
Definition formatDate (timestamp : jsval) : res exn jsstr :=
  res_map format_time_value (date_value timestamp).

End Format.

(** ** Lemmas on the year *)

Lemma div_succ x k : 0 < k -> (x + 1) / k = x / k + (if (x + 1) mod k =? 0 then 1 else 0).
Proof. intros Hk. destruct (Z.eqb_spec ((x + 1) mod k) 0); Z.div_mod_to_equations; nia. Qed.

Lemma mod_shift y c k : 0 < k -> (y - c * k) mod k = y mod k.
Proof.
  intros Hk. replace (y - c * k) with (y + (- c) * k) by ring. apply Z.mod_add. lia.
Qed.

Lemma day_from_year_step y : day_from_year (y + 1) = day_from_year y + days_in_year y.
Proof.
  unfold day_from_year, days_in_year.
  replace (y + 1 - 1969) with (y - 1969 + 1) by lia.
  replace (y + 1 - 1901) with (y - 1901 + 1) by lia.
  replace (y + 1 - 1601) with (y - 1601 + 1) by lia.
  rewrite !div_succ by lia.
  replace (y - 1969 + 1) with (y - 492 * 4) by lia.
  replace (y - 1901 + 1) with (y - 19 * 100) by lia.
  replace (y - 1601 + 1) with (y - 4 * 400) by lia.
  rewrite !mod_shift by lia.
  assert (y mod 100 = 0 -> y mod 4 = 0) by zdiv_lia.
  assert (y mod 400 = 0 -> y mod 100 = 0) by zdiv_lia.
  destruct (Z.eqb_spec (y mod 4) 0), (Z.eqb_spec (y mod 100) 0), (Z.eqb_spec (y mod 400) 0);
    cbn [negb]; lia.
Qed.

Lemma days_in_year_range y : 365 <= days_in_year y <= 366.
Proof. unfold days_in_year. repeat (destruct (_ =? _)); cbn [negb]; lia. Qed.

Lemma day_from_year_bounds y :
  146097 * (y - 1970) - 506 <= 400 * day_from_year y <= 146097 * (y - 1970) + 589.
Proof. unfold day_from_year. zdiv_lia. Qed.

Lemma day_from_year_lt y : day_from_year y < day_from_year (y + 1).
Proof. rewrite day_from_year_step. pose proof (days_in_year_range y). lia. Qed.

Lemma day_from_year_mono y1 y2 : y1 <= y2 -> day_from_year y1 <= day_from_year y2.
Proof.
  intros H. replace y2 with (y1 + Z.of_nat (Z.to_nat (y2 - y1))) by lia.
  induction (Z.to_nat (y2 - y1)) as [|k IH]; [rewrite Z.add_0_r; lia|].
  rewrite Nat2Z.inj_succ, Z.add_succ_r, <- Z.add_1_r.
  pose proof (day_from_year_lt (y1 + Z.of_nat k)). lia.
Qed.

Lemma year_from_day_between d :
  day_from_year (year_from_day d) <= d < day_from_year (year_from_day d + 1).
Proof.
  unfold year_from_day. set (u := (400 * d) / 146097).
  assert (Hu : 146097 * u <= 400 * d < 146097 * (u + 1)) by (unfold u; zdiv_lia).
  pose proof (day_from_year_bounds (1970 + u - 1)).
  pose proof (day_from_year_bounds (1970 + u)).
  pose proof (day_from_year_bounds (1970 + u + 1)).
  pose proof (day_from_year_bounds (1970 + u + 2)).
  destruct (Z.leb_spec (day_from_year (1970 + u + 1)) d).
  - split; [lia|]. replace (1970 + u + 1 + 1) with (1970 + u + 2) by lia. lia.
  - destruct (Z.ltb_spec d (day_from_year (1970 + u))).
    + replace (1970 + u - 1 + 1) with (1970 + u) by lia. lia.
    + lia.
Qed.

Lemma year_from_day_unique d y :
  day_from_year y <= d < day_from_year (y + 1) -> year_from_day d = y.
Proof.
  intros Hy. pose proof (year_from_day_between d) as Hb.
  destruct (Z.lt_total (year_from_day d) y) as [Hlt|[Heq|Hgt]]; [|exact Heq|].
  - pose proof (day_from_year_mono (year_from_day d + 1) y ltac:(lia)). lia.
  - pose proof (day_from_year_mono (y + 1) (year_from_day d) ltac:(lia)). lia.
Qed.

(** ** Lemmas on months and dates *)

Lemma in_leap_year_range y : 0 <= in_leap_year y <= 1.
Proof. unfold in_leap_year. pose proof (days_in_year_range y). lia. Qed.

(** [eval_month_start] evaluates the table at concrete arguments. *)
Ltac eval_month_start :=
  repeat match goal with
  | |- context [month_start ?l ?k] =>
      let v := eval vm_compute in (month_start l k) in change (month_start l k) with v
  | H : context [month_start ?l ?k] |- _ =>
      let v := eval vm_compute in (month_start l k) in change (month_start l k) with v in H
  end.

(** [leap_month_cases] splits on the leap-year flag and the month. *)
Ltac leap_month_cases leap m :=
  assert (leap = 0 \/ leap = 1) as [->| ->] by lia;
  assert (m = 0 \/ m = 1 \/ m = 2 \/ m = 3 \/ m = 4 \/ m = 5 \/ m = 6 \/ m = 7 \/
          m = 8 \/ m = 9 \/ m = 10 \/ m = 11) as Hcases by lia;
  repeat destruct Hcases as [->|Hcases]; try subst m.

Lemma month_from_dwy_bounds leap d :
  0 <= leap <= 1 -> 0 <= d < 365 + leap ->
  0 <= month_from_dwy leap d <= 11 /\
  month_start leap (month_from_dwy leap d) <= d < month_start leap (month_from_dwy leap d + 1).
Proof.
  intros Hl Hd. assert (leap = 0 \/ leap = 1) as [->| ->] by lia;
  unfold month_from_dwy;
  repeat match goal with |- context [if ?a <? ?b then _ else _] => destruct (Z.ltb_spec a b) end;
  eval_month_start; lia.
Qed.

Lemma month_length_bounds leap m :
  0 <= leap <= 1 -> 0 <= m <= 11 ->
  28 <= month_start leap (m + 1) - month_start leap m <= 31.
Proof.
  intros Hl Hm. leap_month_cases leap m; eval_month_start; lia.
Qed.

Lemma month_from_dwy_start leap m dt :
  0 <= leap <= 1 -> 0 <= m <= 11 ->
  1 <= dt <= month_start leap (m + 1) - month_start leap m ->
  month_from_dwy leap (month_start leap m + dt - 1) = m.
Proof.
  intros Hl Hm Hdt.
  leap_month_cases leap m; eval_month_start; unfold month_from_dwy; zbool; lia.
Qed.

Lemma month_start_0 leap : month_start leap 0 = 0.
Proof. reflexivity. Qed.

Lemma month_start_12 leap : month_start leap 12 = 365 + leap.
Proof. reflexivity. Qed.

Lemma month_start_bounds leap m :
  0 <= leap <= 1 -> 0 <= m <= 11 ->
  0 <= month_start leap m /\ month_start leap (m + 1) <= 365 + leap.
Proof. intros Hl Hm. leap_month_cases leap m; eval_month_start; lia. Qed.

Lemma days_in_year_leap y : days_in_year y = 365 + in_leap_year y.
Proof. unfold in_leap_year. lia. Qed.

(** The day within the year lies in [0, 365 + leap). *)
Lemma day_within_year_bounds local_tza t :
  0 <= day_within_year local_tza t < 365 + in_leap_year (full_year local_tza t).
Proof.
  unfold day_within_year, full_year.
  pose proof (year_from_day_between (day_of (local_time local_tza t))).
  rewrite day_from_year_step, days_in_year_leap in H. lia.
Qed.

Lemma lookup_name_in tbl i :
  0 <= i < Z.of_nat (length tbl) -> In (lookup_name tbl (Some i)) tbl.
Proof.
  intros Hi. unfold lookup_name.
  destruct (nth_error tbl (Z.to_nat i)) as [s|] eqn:E.
  - eapply nth_error_In. exact E.
  - apply nth_error_None in E. lia.
Qed.

(** ** Properties *)

(** C34: the executable [year_from_day] is ECMA-262's YearFromTime on
    day numbers: the largest year whose first day is not after [d]. *)
Theorem year_from_day_spec d :
  day_from_year (year_from_day d) <= d /\
  (forall y, day_from_year y <= d -> y <= year_from_day d).
Proof.
  pose proof (year_from_day_between d) as [Hle Hlt]. split; [exact Hle|].
  intros y Hy. destruct (Z.le_gt_cases y (year_from_day d)) as [|Hgt]; [assumption|].
  pose proof (day_from_year_mono (year_from_day d + 1) y ltac:(lia)). lia.
Qed.

Lemma date_fields_in_range local_tza t :
  0 <= day_of_week local_tza t <= 6 /\
  0 <= month_of local_tza t <= 11 /\
  1 <= date_of local_tza t <= 31 /\
  In (lookup_name DAYS_OF_THE_WEEK (Some (day_of_week local_tza t))) DAYS_OF_THE_WEEK /\
  In (lookup_name MONTH_OF_THE_YEAR (Some (month_of local_tza t))) MONTH_OF_THE_YEAR.
Proof.
  pose proof (day_within_year_bounds local_tza t) as Hd.
  pose proof (in_leap_year_range (full_year local_tza t)) as Hl.
  pose proof (month_from_dwy_bounds _ _ Hl Hd) as [Hm Hms].
  pose proof (month_length_bounds _ _ Hl Hm) as Hlen.
  assert (Hw : 0 <= day_of_week local_tza t <= 6)
    by (unfold day_of_week, week_day; pose proof (Z.mod_pos_bound (day_of (local_time local_tza t) + 4) 7); lia).
  unfold month_of, date_of, date_from_dwy. split; [exact Hw|]. split; [exact Hm|]. split; [lia|].
  split; apply lookup_name_in; simpl; lia.
Qed.

(** C35: for every time value and every time zone, [getDay] is in
    0..6, [getMonth] in 0..11 and [getDate] in 1..31, so the lookups
    [DAYS_OF_THE_WEEK[...]] and [MONTH_OF_THE_YEAR[...]] of lines 41-42
    always hit an entry of the tables. *)
Theorem date_fields_bounds local_tza t :
  0 <= day_of_week local_tza t <= 6 /\
  0 <= month_of local_tza t <= 11 /\
  1 <= date_of local_tza t <= 31 /\
  In (lookup_name DAYS_OF_THE_WEEK (Some (day_of_week local_tza t))) DAYS_OF_THE_WEEK /\
  In (lookup_name MONTH_OF_THE_YEAR (Some (month_of local_tza t))) MONTH_OF_THE_YEAR.
Proof. apply date_fields_in_range. Qed.

(** The day number of a calendar date (ECMA-262 MakeDay for a month in
    0..11). *)
Definition make_day (y m dt : Z) : Z :=
  day_from_year y + month_start (in_leap_year y) m + dt - 1.

(** C36: round trip: a time whose local day is the calendar date
    (y, m, dt) reads back as that year, month and date through
    [getFullYear], [getMonth] and [getDate]. *)
Theorem date_getters_make_day local_tza t y m dt :
  0 <= m <= 11 ->
  1 <= dt <= month_start (in_leap_year y) (m + 1) - month_start (in_leap_year y) m ->
  day_of (local_time local_tza t) = make_day y m dt ->
  full_year local_tza t = y /\ month_of local_tza t = m /\ date_of local_tza t = dt.
Proof.
  intros Hm Hdt Hday.
  pose proof (in_leap_year_range y) as Hl.
  pose proof (month_start_bounds _ _ Hl Hm).
  assert (Hy : full_year local_tza t = y).
  { unfold full_year. rewrite Hday. apply year_from_day_unique.
    unfold make_day. rewrite day_from_year_step, days_in_year_leap. lia. }
  assert (Hdwy : day_within_year local_tza t = month_start (in_leap_year y) m + dt - 1).
  { unfold day_within_year. rewrite Hy, Hday. unfold make_day. lia. }
  unfold month_of, date_of, date_from_dwy. rewrite Hdwy, Hy.
  rewrite month_from_dwy_start by assumption. repeat split; lia.
Qed.

Lemma date_getters_make_day_witness :
  full_year (fun _ => 0) 1631923200000 = 2021 /\
  month_of (fun _ => 0) 1631923200000 = 8 /\
  date_of (fun _ => 0) 1631923200000 = 18.
Proof.
  apply date_getters_make_day; [lia | vm_compute; split; discriminate | vm_compute; reflexivity].
Defined.

(** C37: every valid date in September prints the month as "Sept",
    never as "Sep": for every time zone and every time value whose
    local month is September, [formatDate] prints the weekday name of
    the table, ", Sept ", the date, ", " and the year.  The spec's example
    (2021-09-18 at UTC, "Sat, Sep 18, 2021") is one of them and prints
    "Sat, Sept 18, 2021" (the table of line 15; Thursday is "Thur",
    line 5). *)
Theorem formatDate_spec_example local_tza n :
  Z.abs n <= 8640000000000000 -> month_of local_tza n = 8 ->
  In (lookup_name DAYS_OF_THE_WEEK (Some (day_of_week local_tza n))) DAYS_OF_THE_WEEK /\
  formatDate local_tza (JNumber n) =
  Ok (lookup_name DAYS_OF_THE_WEEK (Some (day_of_week local_tza n)) ++ js ", Sept "
      ++ Z_to_dec (date_of local_tza n) ++ comma_space ++ Z_to_dec (full_year local_tza n)).
Proof.
  intros Hn Hm. pose proof (date_fields_in_range local_tza n) as (_ & _ & _ & Hd & _).
  split; [exact Hd|].
  unfold formatDate, date_value, time_clip.
  destruct (Z.ltb_spec 8640000000000000 (Z.abs n)); [lia|].
  unfold format_time_value. cbn [res_map res_bind option_map]. rewrite Hm. reflexivity.
Qed.

Lemma formatDate_spec_example_witness :
  formatDate (fun _ => 0) (JNumber 1631923200000) = Ok (js "Sat, Sept 18, 2021").
Proof.
  rewrite (proj2 (formatDate_spec_example (fun _ => 0) 1631923200000 ltac:(lia) ltac:(vm_compute; reflexivity))).
  vm_compute. reflexivity.
Defined.

(** C38: a timestamp that is not a valid time value (undefined, or
    beyond 8.64e15 ms from the epoch) makes an Invalid Date, and
    [formatDate] prints "undefined, undefined NaN, NaN" instead of
    failing. *)
Theorem formatDate_invalid local_tza v :
  (v = JUndefined \/ exists n, v = JNumber n /\ 8640000000000000 < Z.abs n) ->
  formatDate local_tza v = Ok (js "undefined, undefined NaN, NaN").
Proof.
  intros [->|[n [-> Hn]]]; [reflexivity|].
  unfold formatDate, date_value, time_clip. destruct (Z.ltb_spec 8640000000000000 (Z.abs n)); [reflexivity | lia].
Qed.

Lemma formatDate_invalid_witness :
  formatDate (fun _ => 0) (JNumber 8640000000000001) = Ok (js "undefined, undefined NaN, NaN").
Proof. apply formatDate_invalid. right. exists 8640000000000001. split; [reflexivity | lia]. Defined.

(** On a valid time value [formatDate] prints a weekday name of
    the table, a month name of the table, the date and the year, in the
    template of line 41. *)
Theorem formatDate_valid local_tza n :
  Z.abs n <= 8640000000000000 ->
  exists dname mname,
    In dname DAYS_OF_THE_WEEK /\ In mname MONTH_OF_THE_YEAR /\
    formatDate local_tza (JNumber n) =
    Ok (dname ++ comma_space ++ mname ++ space ++ Z_to_dec (date_of local_tza n)
        ++ comma_space ++ Z_to_dec (full_year local_tza n)).
Proof.
  intros Hn. pose proof (date_fields_in_range local_tza n) as (_ & _ & _ & Hd & Hm).
  do 2 eexists. split; [exact Hd|]. split; [exact Hm|].
  unfold formatDate, date_value, time_clip.
  destruct (Z.ltb_spec 8640000000000000 (Z.abs n)); [lia | reflexivity].
Qed.

Lemma formatDate_valid_witness :
  exists dname mname,
    In dname DAYS_OF_THE_WEEK /\ In mname MONTH_OF_THE_YEAR /\
    formatDate (fun _ => 0) (JNumber 0) =
    Ok (dname ++ comma_space ++ mname ++ space ++ Z_to_dec (date_of (fun _ => 0) 0)
        ++ comma_space ++ Z_to_dec (full_year (fun _ => 0) 0)).
Proof. apply formatDate_valid. lia. Defined.
