(* ===== verification/BigDecimal.v ===== *)
(** * The amount without decimals (index.ts lines 82 and 88-90)

    [new bignumber(amount).dividedBy(new bignumber(10).exponentiatedBy(6))
    .toString()] with bignumber.js's default configuration
    (DECIMAL_PLACES 20, EXPONENTIAL_AT [-7, 20]).  A finite BigNumber is
    kept here as [BDec m k], the value [m / 10^k]; division by [10^6]
    adds 6 to [k] while the result has at most 20 decimal places (always
    for an integer amount) and rounds half up at the 20th place beyond
    ([round_half_up_div], ROUNDING_MODE 4).  [bn_to_string] follows bignumber.js's [toString]:
    strip the coefficient's trailing zeros, compute the exponent of the
    leading digit, and print it in fixed-point ([toFixedPoint]) or
    exponential ([toExponential]) notation.

    The construction from a JavaScript value covers numbers, strings in
    plain decimal notation [-?digits(.digits)?] (exactly, read by
    [decimal_value]) and the values whose string form is not numeric
    (NaN).  bignumber.js builds a BigNumber from a number [v] through
    [String(v)]: [number_string_value] is the value of that text, the
    shortest decimal that rounds to [v] (ECMA-262 Number::toString,
    nearest on a tie of lengths, even on a tie of distances), found by
    [shortest_search] over the decimal scales; it is [v] itself below
    2^53 ([number_string_value_small]) and may differ above (2^60 gives
    1152921504606847000).  bignumber.js's other string forms (exponent
    notation, [Infinity], hexadecimal prefixes, surrounding white
    space) are outside the model, the library's source not being in the
    repository.

    The readers [decimal_value] (fixed-point) and [number_value] (with
    an exponent) turn a text back into [v / 10^f]; the theorems show the
    text always reads back as exactly [String(amount) / 10^6].
    [round_double] is what [JSON.parse] makes of the integer TronGrid
    sends: exact below 2^53, rounded above; an amount comes out exact
    if and only if it is [String] of its double
    ([amount_no_decimals_wire_exact_iff]), and below 2^53 the same
    amount sent as a string gives the same text as the number. *)

From Stdlib Require Import String ZArith List Lia Bool.
From S2P Require Import Prelude JsString JsValue.
Import ListNotations.
Open Scope Z_scope.

Inductive bignum : Type :=
| BNaN
| BDec (m : Z) (k : nat).

Definition zero_char : Z := 48.
Definition dot_char : Z := 46.
Definition minus_char : Z := 45.

(** ** Reading a decimal text

    [decimal_value s] reads [-?digits(.digits)?] as the pair (v, f) of
    the value [v / 10^f]; it is the reader the round-trip theorems use,
    and the part of bignumber.js's string grammar the model covers. *)
Definition digits_ok (l : jsstr) : bool :=
  match l with [] => false | _ => forallb is_digit l end.

Definition decimal_body (body : jsstr) : option (Z * nat) :=
  match split_on dot_char body with
  | [i] => if digits_ok i then Some (dec_value i, 0%nat) else None
  | [i; f] => if digits_ok i && digits_ok f then Some (dec_value (i ++ f), length f) else None
  | _ => None
  end.

Definition decimal_value (s : jsstr) : option (Z * nat) :=
  match s with
  | c :: r => if c =? minus_char then option_map (fun vf => (- fst vf, snd vf)) (decimal_body r)
              else decimal_body s
  | [] => decimal_body s
  end.

(** ** Numbers as the response parser gives them

    axios parses the response with [JSON.parse], so the [amount] the code
    receives is the IEEE-754 double nearest to the integer TronGrid sent
    (round half to even on a 53-bit significand).  [round_double n] is
    that double for an integer [n] (amounts are int64, far below the
    overflow to Infinity, which is not modelled). *)
Definition round_double_pos (m : Z) : Z :=
  let e := Z.log2 m - 52 in
  if e <=? 0 then m
  else
    let q := Z.shiftr m e in
    let r := m - Z.shiftl q e in
    let half := Z.shiftl 1 (e - 1) in
    let q' := if (half <? r) || ((r =? half) && Z.odd q) then q + 1 else q in
    Z.shiftl q' e.

Definition round_double (n : Z) : Z :=
  if n <? 0 then - round_double_pos (- n) else round_double_pos n.

(** ** [String(v)] of an integer double

    bignumber.js builds a BigNumber from a number [v] through
    [String(v)] (its int32 fast path gives the same digits).
    [Number::toString] (ECMA-262, Number::toString step 5) writes the
    fewest digits [s], at a scale [10^q], such that [s * 10^q] rounds to
    [v]; among the values with that many digits V8 takes the nearest to
    [v], the one with even [s] on a tie.  [shortest_at q x] tries the
    scale [10^q] for [0 <= x]: the two multiples of [10^q] around [x];
    [shortest_search] goes from the scale of [x]'s leading digit down to
    [10^0], where [x] itself is found. *)
Definition shortest_at (q : nat) (x : Z) : option Z :=
  let u := 10 ^ Z.of_nat q in
  let s := x / u in
  let lo_ok := (0 <? s) && (round_double (s * u) =? x) in
  let hi_ok := round_double ((s + 1) * u) =? x in
  if lo_ok && hi_ok then
    Some (if x - s * u <? (s + 1) * u - x then s * u
          else if (s + 1) * u - x <? x - s * u then (s + 1) * u
          else if Z.even s then s * u else (s + 1) * u)
  else if lo_ok then Some (s * u)
  else if hi_ok then Some ((s + 1) * u)
  else None.

Fixpoint shortest_search (q : nat) (x : Z) : Z :=
  match q with
  | O => x
  | S q' => match shortest_at q x with Some v => v | None => shortest_search q' x end
  end.

(** The value of [String(n)] for an integer double [n]. *)
Definition number_string_value (n : Z) : Z :=
  if n <? 0 then - shortest_search (length (Z_to_dec (- n))) (- n)
  else shortest_search (length (Z_to_dec n)) n.

(** [new bignumber(v)]: a number through [String(v)]; strings in plain
    decimal notation exactly (bignumber.js keeps every digit of a
    string); other strings (exponent notation, [Infinity], hexadecimal
    prefixes, surrounding white space) are outside the model. *)
Definition bn_of_jsval (v : jsval) : res exn bignum :=
  match v with
  | JNumber n => Ok (BDec (number_string_value n) 0)
  | JUndefined | JNull | JBool _ => Ok BNaN
  | JString s =>
      match decimal_value s with
      | Some (m, k) => Ok (BDec m k)
      | None => Unmodelled "bignumber.js string parsing"%string
      end
  | JArray _ | JObject _ => Unmodelled "bignumber.js string parsing"%string
  end.

(** [m / 10^j] rounded to an integer, halves away from zero
    (bignumber.js's default ROUNDING_MODE 4, ROUND_HALF_UP). *)
Definition round_half_up_div (m : Z) (j : nat) : Z :=
  let d := 10 ^ Z.of_nat j in
  Z.sgn m * ((Z.abs m + d / 2) / d).

(** [x.dividedBy(10^k)] with DECIMAL_PLACES 20: exact when the quotient
    has at most 20 places, rounded half up at the 20th place otherwise. *)
Definition bn_div_pow10 (x : bignum) (k : nat) : bignum :=
  match x with
  | BNaN => BNaN
  | BDec m j =>
      if (j + k <=? 20)%nat then BDec m (j + k)
      else BDec (round_half_up_div m (j + k - 20)) 20
  end.

Fixpoint drop_leading_zeros (l : jsstr) : jsstr :=
  match l with
  | c :: r => if c =? zero_char then drop_leading_zeros r else l
  | [] => []
  end.

Definition strip_trailing_zeros (s : jsstr) : jsstr := rev (drop_leading_zeros (rev s)).

Definition zeros (n : nat) : jsstr := repeat zero_char n.

(** bignumber.js [toFixedPoint(str, e, '0')]. *)
Definition to_fixed_point (str : jsstr) (e : Z) : jsstr :=
  if e <? 0 then [zero_char; dot_char] ++ zeros (Z.to_nat (- e - 1)) ++ str
  else
    let len := Z.of_nat (length str) in
    if len <? e + 1 then str ++ zeros (Z.to_nat (e + 1 - len))
    else if e + 1 <? len then
      firstn (Z.to_nat (e + 1)) str ++ [dot_char] ++ skipn (Z.to_nat (e + 1)) str
    else str.

(** bignumber.js [toExponential(str, e)]. *)
Definition to_exponential (str : jsstr) (e : Z) : jsstr :=
  (match str with
   | c :: (_ :: _) as rest => c :: dot_char :: rest
   | _ => str
   end) ++ (if e <? 0 then js "e" else js "e+") ++ Z_to_dec e.

(** [x.toString()]. *)
Definition bn_to_string (x : bignum) : jsstr :=
  match x with
  | BNaN => js "NaN"
  | BDec m k =>
      if m =? 0 then js "0"
      else
        let digits := udigits (dec_fuel (Z.abs m)) (Z.abs m) in
        let e := Z.of_nat (length digits) - 1 - Z.of_nat k in
        let c := strip_trailing_zeros digits in
        let body := if (e <=? -7) || (21 <=? e) then to_exponential c e
                    else to_fixed_point c e in
        if m <? 0 then minus_char :: body else body
  end.

(** Line 82: [new bignumber(10).exponentiatedBy(6)]. *)
Definition decimals : nat := 6.

(** Lines 88-90: the field ['Amount (no decimals)'], [None] for
    undefined when the option is off. *)
Definition amount_no_decimals (includeNoDecimalAmount : bool) (amount : jsval)
  : res exn (option jsstr) :=
  if includeNoDecimalAmount then
    res_map (fun x => Some (bn_to_string (bn_div_pow10 x decimals))) (bn_of_jsval amount)
  else Ok None.

(** [number_value s] extends the reader to the exponent notation
    [-?d(.ddd)?e[+-]digits] of [toExponential]: the mantissa's value
    [v / 10^f] is scaled by [10^x] and normalised to the same pair. *)
Definition e_char : Z := 101.
Definition plus_char : Z := 43.

Definition exponent_value (x : jsstr) : option Z :=
  match x with
  | c :: r =>
      if c =? plus_char then (if digits_ok r then Some (dec_value r) else None)
      else if c =? minus_char then (if digits_ok r then Some (- dec_value r) else None)
      else if digits_ok x then Some (dec_value x) else None
  | [] => None
  end.

Definition scale_pow10 (vf : Z * nat) (x : Z) : Z * nat :=
  let '(v, f) := vf in
  if Z.of_nat f <=? x then (v * 10 ^ (x - Z.of_nat f), 0%nat)
  else (v, Z.to_nat (Z.of_nat f - x)).

Definition number_value (s : jsstr) : option (Z * nat) :=
  match split_on e_char s with
  | [m] => decimal_value m
  | [m; x] =>
      match decimal_value m, exponent_value x with
      | Some vf, Some e => Some (scale_pow10 vf e)
      | _, _ => None
      end
  | _ => None
  end.

Example amount_no_decimals_examples :
  amount_no_decimals true (JNumber 1000000) = Ok (Some (js "1")) /\
  amount_no_decimals true (JNumber 1500000) = Ok (Some (js "1.5")) /\
  amount_no_decimals true (JNumber 1) = Ok (Some (js "0.000001")) /\
  amount_no_decimals true (JNumber (-25000000)) = Ok (Some (js "-25")) /\
  amount_no_decimals true (JNumber (10 ^ 27)) = Ok (Some (js "1e+21")) /\
  amount_no_decimals true JUndefined = Ok (Some (js "NaN")) /\
  amount_no_decimals false (JNumber 5) = Ok None.
Proof. vm_compute. repeat split. Qed.

(** ** Lemmas on digit strings *)

Lemma drop_leading_zeros_spec l : exists t, l = zeros t ++ drop_leading_zeros l.
Proof.
  induction l as [|c r [t IH]]; [exists 0%nat; reflexivity|].
  cbn [drop_leading_zeros]. destruct (Z.eqb_spec c zero_char) as [->|_].
  - exists (S t). change (zeros (S t)) with (zero_char :: zeros t). cbn [app].
    rewrite <- IH. reflexivity.
  - exists 0%nat. reflexivity.
Qed.

Lemma rev_zeros t : rev (zeros t) = zeros t.
Proof. apply rev_repeat. Qed.

Lemma strip_trailing_zeros_spec s : exists t, s = strip_trailing_zeros s ++ zeros t.
Proof.
  destruct (drop_leading_zeros_spec (rev s)) as [t Ht]. exists t.
  unfold strip_trailing_zeros. rewrite <- (rev_zeros t), <- rev_app_distr, <- Ht.
  symmetry. apply rev_involutive.
Qed.

Lemma dec_value_zeros t : dec_value (zeros t) = 0.
Proof.
  induction t as [|t IH]; [reflexivity|].
  change (zeros (S t)) with ([zero_char] ++ zeros t). rewrite dec_value_app, IH. reflexivity.
Qed.

Lemma dec_value_zeros_app t c : dec_value (zeros t ++ c) = dec_value c.
Proof. rewrite dec_value_app, dec_value_zeros. lia. Qed.

Lemma forall_digits_zeros t : Forall (fun c => is_digit c = true) (zeros t).
Proof. apply Forall_forall. intros x Hx. apply repeat_spec in Hx. subst. reflexivity. Qed.

Lemma digits_ok_intro l : l <> [] -> Forall (fun c => is_digit c = true) l -> digits_ok l = true.
Proof.
  intros Hne Hf. destruct l as [|c r]; [contradiction|]. unfold digits_ok.
  apply forallb_forall. intros x Hx. rewrite Forall_forall in Hf. exact (Hf x Hx).
Qed.

Lemma digit_not_dot l : Forall (fun c => is_digit c = true) l -> ~ In dot_char l.
Proof.
  intros Hf Hin. rewrite Forall_forall in Hf. specialize (Hf _ Hin). discriminate.
Qed.

Abbreviation all_digits l := (Forall (fun c => is_digit c = true) l).

Lemma decimal_body_int i :
  i <> [] -> all_digits i -> decimal_body i = Some (dec_value i, 0%nat).
Proof.
  intros Hne Hf. unfold decimal_body.
  rewrite split_on_no_sep by (apply digit_not_dot; exact Hf).
  rewrite digits_ok_intro by assumption. reflexivity.
Qed.

Lemma decimal_body_frac i f :
  i <> [] -> f <> [] -> all_digits i -> all_digits f ->
  decimal_body (i ++ dot_char :: f) = Some (dec_value (i ++ f), length f).
Proof.
  intros Hi Hf Di Df. unfold decimal_body.
  rewrite split_on_app by (apply digit_not_dot; exact Di).
  rewrite split_on_no_sep by (apply digit_not_dot; exact Df).
  rewrite !digits_ok_intro by assumption. reflexivity.
Qed.

Lemma decimal_value_digit_head d rest :
  is_digit d = true -> decimal_value (d :: rest) = decimal_body (d :: rest).
Proof.
  intros Hd. unfold decimal_value. destruct (Z.eqb_spec d minus_char) as [->|]; [discriminate | reflexivity].
Qed.

Lemma decimal_value_minus s :
  decimal_value (minus_char :: s) = option_map (fun vf => (- fst vf, snd vf)) (decimal_body s).
Proof. unfold decimal_value. rewrite Z.eqb_refl. reflexivity. Qed.

Lemma pow10_add (a b : nat) : 10 ^ Z.of_nat (a + b) = 10 ^ Z.of_nat a * 10 ^ Z.of_nat b.
Proof. rewrite Nat2Z.inj_add. apply Z.pow_add_r; lia. Qed.

Lemma Forall_firstn_of (P : Z -> Prop) n l : Forall P l -> Forall P (firstn n l).
Proof. intros H. rewrite <- (firstn_skipn n l) in H. apply Forall_app in H. tauto. Qed.

Lemma Forall_skipn_of (P : Z -> Prop) n l : Forall P l -> Forall P (skipn n l).
Proof. intros H. rewrite <- (firstn_skipn n l) in H. apply Forall_app in H. tauto. Qed.

Lemma all_digits_firstn n l : all_digits l -> all_digits (firstn n l).
Proof. apply Forall_firstn_of. Qed.

Lemma all_digits_skipn n l : all_digits l -> all_digits (skipn n l).
Proof. apply Forall_skipn_of. Qed.

(** [toFixedPoint] of a coefficient [c] (the digits of [dec_value c * 10^t]
    without trailing zeros), at the exponent of [m / 10^6], reads back
    as [m / 10^6]. *)
Lemma to_fixed_point_exact c (t : nat) :
  c <> [] -> all_digits c -> (1 <= length c + t <= 27)%nat ->
  exists v f d rest,
    to_fixed_point c (Z.of_nat (length c + t) - 7) = d :: rest /\ is_digit d = true /\
    decimal_body (d :: rest) = Some (v, f) /\
    v * 10 ^ 6 = dec_value c * 10 ^ Z.of_nat t * 10 ^ Z.of_nat f.
Proof.
  intros Hne Hc Hlen. unfold to_fixed_point.
  destruct (Z.ltb_spec (Z.of_nat (length c + t) - 7) 0) as [Hneg|Hnn].
  - (* 0.000ddd *)
    set (k := Z.to_nat (- (Z.of_nat (length c + t) - 7) - 1)).
    exists (dec_value c), (S k + length c - 1)%nat, zero_char, (dot_char :: zeros k ++ c).
    split; [reflexivity|]. split; [reflexivity|].
    change (zero_char :: dot_char :: zeros k ++ c) with ([zero_char] ++ dot_char :: (zeros k ++ c)).
    rewrite decimal_body_frac; [| discriminate | destruct k; [destruct c; [contradiction|discriminate]|discriminate]
                                | repeat constructor | apply Forall_app; split; [apply forall_digits_zeros | exact Hc]].
    change ([zero_char] ++ zeros k ++ c) with (zeros (S k) ++ c).
    rewrite dec_value_zeros_app, length_app. unfold zeros. rewrite repeat_length.
    split; [do 2 f_equal; lia|].
    rewrite <- Z.mul_assoc, <- pow10_add. f_equal. f_equal. unfold k. lia.
  - destruct (Z.ltb_spec (Z.of_nat (length c)) (Z.of_nat (length c + t) - 7 + 1)) as [Hlt|Hge].
    + (* integer with trailing zeros *)
      destruct c as [|d r]; [contradiction|].
      exists (dec_value (d :: r) * 10 ^ Z.of_nat (t - 6)), 0%nat, d, (r ++ zeros (Z.to_nat (Z.of_nat (length (d :: r) + t) - 7 + 1 - Z.of_nat (length (d :: r))))).
      inversion Hc as [|? ? Hd Hr]; subst.
      split; [reflexivity|]. split; [exact Hd|]. split.
      * change (d :: r ++ zeros ?z) with ((d :: r) ++ zeros z).
        rewrite decimal_body_int by (try (apply Forall_app; split; [exact Hc | apply forall_digits_zeros]); discriminate).
        rewrite dec_value_app, dec_value_zeros. unfold zeros. rewrite repeat_length.
        rewrite Z.add_0_r. do 2 f_equal. f_equal. f_equal. simpl length in *. lia.
      * simpl (10 ^ Z.of_nat 0). rewrite Z.mul_1_r, <- Z.mul_assoc.
        replace (10 ^ 6) with (10 ^ Z.of_nat 6) by reflexivity. rewrite <- pow10_add.
        f_equal. f_equal. f_equal. simpl length in *. lia.
    + destruct (Z.ltb_spec (Z.of_nat (length c + t) - 7 + 1) (Z.of_nat (length c))) as [Hlt2|Hge2].
      * (* ddd.ddd *)
        set (j := Z.to_nat (Z.of_nat (length c + t) - 7 + 1)).
        assert (Hj : (0 < j < length c)%nat) by (unfold j; lia).
        destruct (firstn j c) as [|d r] eqn:Hfj.
        { apply (f_equal (@length Z)) in Hfj. rewrite length_firstn in Hfj. simpl in Hfj. lia. }
        exists (dec_value c), (length (skipn j c)), d, (r ++ dot_char :: skipn j c).
        assert (Hfc : all_digits (firstn j c)) by (apply all_digits_firstn; exact Hc).
        rewrite Hfj in Hfc. inversion Hfc as [|? ? Hd _]; subst.
        split; [reflexivity|]. split; [exact Hd|].
        change (d :: r ++ dot_char :: skipn j c) with ((d :: r) ++ dot_char :: skipn j c).
        rewrite decimal_body_frac.
        -- rewrite <- Hfj, firstn_skipn. split; [reflexivity|].
           rewrite <- Z.mul_assoc, <- pow10_add. f_equal. f_equal. f_equal.
           rewrite length_skipn. unfold j. lia.
        -- discriminate.
        -- intros Hs. apply (f_equal (@length Z)) in Hs. rewrite length_skipn in Hs. simpl in Hs. lia.
        -- exact Hfc.
        -- apply all_digits_skipn. exact Hc.
      * (* ddd *)
        destruct c as [|d r]; [contradiction|]. inversion Hc as [|? ? Hd _]; subst.
        exists (dec_value (d :: r)), 0%nat, d, r.
        split; [reflexivity|]. split; [exact Hd|].
        rewrite decimal_body_int by (discriminate || exact Hc). split; [reflexivity|].
        simpl (10 ^ Z.of_nat 0). rewrite Z.mul_1_r. f_equal. f_equal.
        simpl length in *. lia.
Qed.

Lemma dec_value_bound l : all_digits l -> 0 <= dec_value l < 10 ^ Z.of_nat (length l).
Proof.
  induction l as [|d l IH] using rev_ind; intros H; [unfold dec_value; simpl; lia|].
  apply Forall_app in H as [Hl Hd]. inversion Hd as [|? ? Hdd _]; subst.
  unfold is_digit in Hdd. apply andb_prop in Hdd as [H1 H2].
  apply Z.leb_le in H1. apply Z.leb_le in H2.
  rewrite dec_value_snoc, length_app, Nat2Z.inj_add, Z.pow_add_r by lia.
  specialize (IH Hl). simpl (10 ^ Z.of_nat (length [d])). lia.
Qed.

(** The digits of a positive integer, split into the coefficient without
    trailing zeros and the number of those zeros. *)
Lemma digits_split a :
  0 < a ->
  let D := udigits (dec_fuel a) a in
  exists t, D = strip_trailing_zeros D ++ zeros t /\ strip_trailing_zeros D <> [] /\
    all_digits (strip_trailing_zeros D) /\
    a = dec_value (strip_trailing_zeros D) * 10 ^ Z.of_nat t /\
    a < 10 ^ Z.of_nat (length D) /\ (1 <= length D)%nat.
Proof.
  intros Ha D.
  assert (Hv : dec_value D = a) by (apply udigits_value; split; [lia | apply dec_fuel_enough; lia]).
  assert (Hd : all_digits D) by (apply udigits_digits; lia).
  assert (Hl : a < 10 ^ Z.of_nat (length D)) by (rewrite <- Hv; apply dec_value_bound; exact Hd).
  assert (Hl1 : (1 <= length D)%nat).
  { destruct D as [|x l] eqn:E; [|simpl; lia].
    exfalso. apply (udigits_nonempty (dec_fuel a) a); [unfold dec_fuel; lia | exact E]. }
  destruct (strip_trailing_zeros_spec D) as [t Ht]. exists t.
  split; [exact Ht|].
  assert (Hc : a = dec_value (strip_trailing_zeros D) * 10 ^ Z.of_nat t).
  { rewrite <- Hv, Ht at 1. rewrite dec_value_app, dec_value_zeros. unfold zeros. rewrite repeat_length. lia. }
  split; [intros E; rewrite E in Hc; simpl in Hc; lia|].
  split; [rewrite Ht in Hd; apply Forall_app in Hd; tauto|].
  split; [exact Hc | split; assumption].
Qed.

(** The text of [amount / 10^6]: an optional minus sign, then the
    coefficient [c] (the digits of [|amount|] without their [t] trailing
    zeros) in fixed-point notation up to 27 digits and in exponent
    notation beyond. *)
Lemma bn_to_string_shape amount :
  amount <> 0 ->
  exists c t sgn,
    c <> [] /\ all_digits c /\ Z.abs amount = dec_value c * 10 ^ Z.of_nat t /\
    Z.abs amount < 10 ^ Z.of_nat (length c + t) /\ (1 <= length c + t)%nat /\
    ((length c + t <= 27)%nat <-> Z.abs amount < 10 ^ 27) /\
    (sgn = [] /\ 0 < amount \/ sgn = [minus_char] /\ amount < 0) /\
    bn_to_string (BDec amount 6) =
      sgn ++ (if (length c + t <=? 27)%nat then to_fixed_point c (Z.of_nat (length c + t) - 7)
              else to_exponential c (Z.of_nat (length c + t) - 7)).
Proof.
  intros Hne. unfold bn_to_string. destruct (Z.eqb_spec amount 0) as [|_]; [contradiction|].
  destruct (digits_split (Z.abs amount) ltac:(lia)) as (t & HD & Hne' & Hc & Ha & Hlt & Hlen).
  set (D := udigits (dec_fuel (Z.abs amount)) (Z.abs amount)) in *.
  set (c := strip_trailing_zeros D) in *.
  assert (HlD : length D = (length c + t)%nat)
    by (rewrite HD at 1; rewrite length_app; unfold zeros; rewrite repeat_length; reflexivity).
  exists c, t, (if amount <? 0 then [minus_char] else []).
  assert (H27 : (length D <= 27)%nat <-> Z.abs amount < 10 ^ 27).
  { split; intros H.
    - eapply Z.lt_le_trans; [exact Hlt|]. apply Z.pow_le_mono_r; lia.
    - apply udigits_length; [lia | lia]. }
  rewrite HlD in Hlt, Hlen, H27. do 6 (split; [assumption|]).
  split; [destruct (Z.ltb_spec amount 0); [right | left]; split; reflexivity || lia|].
  cbv zeta. rewrite HlD.
  replace (Z.of_nat (length c + t) - 1 - Z.of_nat 6) with (Z.of_nat (length c + t) - 7) by lia.
  assert (Hb : ((Z.of_nat (length c + t) - 7 <=? -7) || (21 <=? Z.of_nat (length c + t) - 7))
               = negb (length c + t <=? 27)%nat).
  { destruct (Nat.leb_spec (length c + t) 27); zbool; cbn; reflexivity || lia. }
  rewrite Hb. destruct (length c + t <=? 27)%nat, (amount <? 0); reflexivity.
Qed.

(** The fixed-point text reads back as [amount / 10^6]. *)
Lemma fixed_text_exact amount c t sgn :
  c <> [] -> all_digits c -> Z.abs amount = dec_value c * 10 ^ Z.of_nat t ->
  (1 <= length c + t <= 27)%nat ->
  (sgn = [] /\ 0 < amount \/ sgn = [minus_char] /\ amount < 0) ->
  exists v f, decimal_value (sgn ++ to_fixed_point c (Z.of_nat (length c + t) - 7)) = Some (v, f) /\
    v * 10 ^ 6 = amount * 10 ^ Z.of_nat f.
Proof.
  intros Hne Hc Ha Hlen Hs.
  destruct (to_fixed_point_exact c t Hne Hc Hlen) as (v & f & d & rest & Hfp & Hd & Hbody & Hvf).
  rewrite Hfp. destruct Hs as [[-> Hpos] | [-> Hneg]].
  - exists v, f. rewrite app_nil_l, decimal_value_digit_head by exact Hd.
    split; [exact Hbody|]. rewrite Z.abs_eq in Ha by lia. nia.
  - exists (- v), f. cbn [app]. rewrite decimal_value_minus, Hbody. split; [reflexivity|].
    rewrite Z.abs_neq in Ha by lia. nia.
Qed.

(** The characters of [toFixedPoint] and [toExponential] output. *)
Lemma zeros_Forall (P : Z -> Prop) n : P zero_char -> Forall P (zeros n).
Proof. intros Hz. apply Forall_forall. intros x Hx. apply repeat_spec in Hx. subst. exact Hz. Qed.

Lemma to_fixed_point_Forall (P : Z -> Prop) c e :
  P zero_char -> P dot_char -> Forall P c -> Forall P (to_fixed_point c e).
Proof.
  intros Hz Hd Hc. unfold to_fixed_point.
  pose proof (zeros_Forall P) as HZ.
  destruct (_ <? 0); [|destruct (_ <? _); [|destruct (_ <? _)]];
    repeat (apply Forall_app; split); auto using Forall_cons, Forall_firstn_of, Forall_skipn_of.
Qed.

Lemma no_e_in_digits l : Forall (fun x => x <> e_char) l -> ~ In e_char l.
Proof. intros H Hin. rewrite Forall_forall in H. exact (H _ Hin eq_refl). Qed.

Lemma digits_not_e l : all_digits l -> Forall (fun x => x <> e_char) l.
Proof. apply Forall_impl. intros x Hx ->. discriminate. Qed.

Lemma number_value_plain s :
  Forall (fun x => x <> e_char) s -> number_value s = decimal_value s.
Proof. intros H. unfold number_value. rewrite split_on_no_sep by (apply no_e_in_digits; exact H). reflexivity. Qed.

(** The mantissa [toExponential] prints reads as the coefficient over
    [10^(length - 1)]. *)
Definition mantissa (c : jsstr) : jsstr :=
  match c with
  | d :: (_ :: _) as rest => d :: dot_char :: rest
  | _ => c
  end.

Lemma mantissa_body c :
  c <> [] -> all_digits c ->
  decimal_body (mantissa c) = Some (dec_value c, (length c - 1)%nat) /\
  Forall (fun x => x <> e_char) (mantissa c) /\
  exists d rest, mantissa c = d :: rest /\ is_digit d = true.
Proof.
  intros Hne Hc. destruct c as [|d r]; [contradiction|].
  pose proof (digits_not_e _ Hc) as He.
  inversion Hc as [|? ? Hd Hr]; subst. split; [|split].
  - destruct r as [|d' r'].
    + apply decimal_body_int; [discriminate | exact Hc].
    + change (mantissa (d :: d' :: r')) with ([d] ++ dot_char :: d' :: r').
      rewrite decimal_body_frac by first [discriminate | exact Hr | constructor; [exact Hd | constructor]].
      reflexivity.
  - destruct r as [|d' r']; [exact He|]. cbn [mantissa].
    inversion He; subst. constructor; [assumption | constructor; [discriminate | assumption]].
  - destruct r; eexists _, _; (split; [reflexivity | exact Hd]).
Qed.

Lemma to_exponential_mantissa c e :
  0 <= e -> to_exponential c e = mantissa c ++ e_char :: plus_char :: Z_to_dec e.
Proof. intros He. unfold to_exponential. destruct (Z.ltb_spec e 0); [lia|]. reflexivity. Qed.

Lemma number_value_exponential sgn c e :
  c <> [] -> all_digits c -> 0 <= e -> (sgn = [] \/ sgn = [minus_char]) ->
  number_value (sgn ++ to_exponential c e) =
    Some (scale_pow10 ((if list_eq_dec Z.eq_dec sgn [] then 1 else -1) * dec_value c,
                       (length c - 1)%nat) e).
Proof.
  intros Hne Hc He Hs. destruct (mantissa_body c Hne Hc) as (Hb & Hm & d & rest & Hdr & Hd).
  rewrite to_exponential_mantissa by exact He. unfold number_value.
  assert (Hsplit : forall p, ~ In e_char p ->
            split_on e_char (p ++ e_char :: plus_char :: Z_to_dec e) = [p; plus_char :: Z_to_dec e]).
  { intros p Hp. rewrite split_on_app by exact Hp. f_equal.
    apply split_on_no_sep. intros [H|H]; [discriminate|].
    apply (no_e_in_digits _ (digits_not_e _ (Z_to_dec_digits e He))). exact H. }
  assert (Hx : exponent_value (plus_char :: Z_to_dec e) = Some e).
  { cbn [exponent_value]. rewrite Z.eqb_refl.
    destruct (Z_to_dec e) as [|x l] eqn:E; [exfalso; exact (Z_to_dec_nonempty e He E)|].
    rewrite digits_ok_intro by (discriminate || (rewrite <- E; apply Z_to_dec_digits; exact He)).
    rewrite <- E, Z_to_dec_value by exact He. reflexivity. }
  destruct Hs as [-> | ->].
  - cbn [app]. rewrite Hsplit by exact (no_e_in_digits _ Hm). rewrite Hx, Hdr.
    rewrite decimal_value_digit_head by exact Hd. rewrite <- Hdr, Hb.
    destruct (list_eq_dec Z.eq_dec [] []) as [_|Hn]; [|congruence].
    rewrite Z.mul_1_l. reflexivity.
  - change ([minus_char] ++ ?x) with (minus_char :: x). rewrite app_comm_cons.
    rewrite Hsplit by (intros [H|H]; [discriminate | exact (no_e_in_digits _ Hm H)]).
    rewrite Hx, decimal_value_minus, Hb.
    destruct (list_eq_dec Z.eq_dec [minus_char] []) as [Hn|_]; [discriminate|].
    cbn [option_map fst snd]. reflexivity.
Qed.

(** Scaling the mantissa [w / 10^(n-1)] by the exponent of [w * 10^t / 10^6]
    gives back [w * 10^t / 10^6]. *)
Lemma scale_pow10_exact w (n t : nat) :
  (1 <= n)%nat ->
  exists v f, scale_pow10 (w, (n - 1)%nat) (Z.of_nat (n + t) - 7) = (v, f) /\
    v * 10 ^ 6 = w * 10 ^ Z.of_nat t * 10 ^ Z.of_nat f.
Proof.
  intros Hn. unfold scale_pow10.
  destruct (Z.leb_spec (Z.of_nat (n - 1)) (Z.of_nat (n + t) - 7)).
  - eexists _, 0%nat. split; [reflexivity|].
    replace (Z.of_nat (n + t) - 7 - Z.of_nat (n - 1)) with (Z.of_nat t - 6) by lia.
    rewrite <- Z.mul_assoc, <- Z.pow_add_r by lia.
    replace (Z.of_nat t - 6 + 6) with (Z.of_nat t) by lia. change (10 ^ Z.of_nat 0) with 1. lia.
  - eexists _, _. split; [reflexivity|].
    rewrite Z2Nat.id by lia. rewrite <- !Z.mul_assoc, <- Z.pow_add_r by lia.
    f_equal. f_equal. lia.
Qed.

Lemma sign_no_e sgn : sgn = [] \/ sgn = [minus_char] -> Forall (fun x => x <> e_char) sgn.
Proof. intros [-> | ->]; repeat constructor. discriminate. Qed.

(** Below [10^27] in absolute value the text of [m / 10^6] is a plain
    decimal that reads back as exactly [m / 10^6]. *)
Lemma bdec6_text_exact m :
  Z.abs m < 10 ^ 27 ->
  exists v f, decimal_value (bn_to_string (BDec m 6)) = Some (v, f) /\ v * 10 ^ 6 = m * 10 ^ Z.of_nat f.
Proof.
  intros Hbound.
  destruct (Z.eqb_spec m 0) as [->|Hne]; [exists 0, 0%nat; split; reflexivity|].
  destruct (bn_to_string_shape m Hne) as (c & t & sgn & Hc & Hd & Ha & Hlt & H1 & H27 & Hs & ->).
  assert (Hle : (length c + t <= 27)%nat) by (apply H27; lia).
  apply Nat.leb_le in Hle. rewrite Hle. apply Nat.leb_le in Hle.
  exact (fixed_text_exact m c t sgn Hc Hd Ha ltac:(lia) Hs).
Qed.

(** For every integer [m], the text of [m / 10^6], in fixed-point
    notation below [10^27] and in exponent notation from there on, reads
    back as exactly [m / 10^6]. *)
Lemma bdec6_reads_back m :
  exists v f, number_value (bn_to_string (BDec m 6)) = Some (v, f) /\ v * 10 ^ 6 = m * 10 ^ Z.of_nat f.
Proof.
  destruct (Z.eqb_spec m 0) as [->|Hne]; [exists 0, 0%nat; split; reflexivity|].
  destruct (bn_to_string_shape m Hne) as (c & t & sgn & Hc & Hd & Ha & Hlt & H1 & H27 & Hs & ->).
  assert (Hsg : sgn = [] \/ sgn = [minus_char]) by (destruct Hs as [[-> _] | [-> _]]; auto).
  destruct (Nat.leb_spec (length c + t) 27) as [Hle|Hgt].
  - rewrite number_value_plain.
    + exact (fixed_text_exact m c t sgn Hc Hd Ha ltac:(lia) Hs).
    + apply Forall_app. split; [apply sign_no_e; exact Hsg|].
      apply to_fixed_point_Forall; [discriminate | discriminate | apply digits_not_e; exact Hd].
  - rewrite number_value_exponential by (assumption || lia).
    destruct (scale_pow10_exact ((if list_eq_dec Z.eq_dec sgn [] then 1 else -1) * dec_value c)
                (length c) t ltac:(destruct c; [contradiction | simpl; lia])) as (v & f & Hvf & Heq).
    rewrite Hvf. exists v, f. split; [reflexivity|]. rewrite Heq.
    destruct Hs as [[-> Hp] | [-> Hn]]; cbn [list_eq_dec list_rec list_rect];
      [rewrite Z.abs_eq in Ha | rewrite Z.abs_neq in Ha]; lia.
Qed.

(** The text of a number amount is the text of [String(amount) / 10^6]. *)
Lemma amount_no_decimals_number amount :
  amount_no_decimals true (JNumber amount) = Ok (Some (bn_to_string (BDec (number_string_value amount) 6))).
Proof. reflexivity. Qed.

(** The amount as bignumber.js reads it, over [10^6]. *)
Lemma amount_reads_back amount :
  exists text v f,
    amount_no_decimals true (JNumber amount) = Ok (Some text) /\
    number_value text = Some (v, f) /\ v * 10 ^ 6 = number_string_value amount * 10 ^ Z.of_nat f.
Proof.
  destruct (bdec6_reads_back (number_string_value amount)) as (v & f & H1 & H2).
  exists (bn_to_string (BDec (number_string_value amount) 6)), v, f. auto.
Qed.

Lemma round_double_pos_small m : 0 <= m < 2 ^ 53 -> round_double_pos m = m.
Proof.
  intros Hm. unfold round_double_pos.
  destruct (Z.eq_dec m 0) as [->|Hne]; [reflexivity|].
  assert (Z.log2 m < 53) by (apply Z.log2_lt_pow2; lia).
  destruct (Z.leb_spec (Z.log2 m - 52) 0); [reflexivity | lia].
Qed.

(** Integers below [2^53] in absolute value are doubles. *)
Lemma round_double_exact n : Z.abs n < 2 ^ 53 -> round_double n = n.
Proof.
  intros Hn. unfold round_double. destruct (Z.ltb_spec n 0).
  - rewrite round_double_pos_small by lia. lia.
  - apply round_double_pos_small. lia.
Qed.

(** From [2^53] on, a rounded integer stays at least [2^53]. *)
Lemma round_double_pos_large m : 2 ^ 53 <= m -> 2 ^ 53 <= round_double_pos m.
Proof.
  intros Hm. unfold round_double_pos.
  assert (Hl : 53 <= Z.log2 m) by (rewrite <- (Z.log2_pow2 53) by lia; apply Z.log2_le_mono; lia).
  pose proof (Z.log2_spec m ltac:(lia)) as [Hlo _].
  destruct (Z.leb_spec (Z.log2 m - 52) 0) as [|He]; [lia|].
  set (e := Z.log2 m - 52) in *.
  assert (Hq : 2 ^ 52 <= Z.shiftr m e).
  { rewrite Z.shiftr_div_pow2 by lia. apply Z.div_le_lower_bound; [apply Z.pow_pos_nonneg; lia|].
    rewrite <- Z.pow_add_r by lia. replace (e + 52) with (Z.log2 m) by (unfold e; lia). exact Hlo. }
  rewrite Z.shiftl_mul_pow2 by lia.
  assert (H52 : 2 ^ 53 <= 2 ^ 52 * 2 ^ e)
    by (rewrite <- Z.pow_add_r by lia; apply Z.pow_le_mono_r; lia).
  assert (2 ^ 52 * 2 ^ e <= Z.shiftr m e * 2 ^ e) by (apply Z.mul_le_mono_nonneg_r; [apply Z.pow_nonneg | ]; lia).
  destruct (_ || _); nia.
Qed.

Lemma shortest_at_round q x v :
  0 <= x -> shortest_at q x = Some v -> 0 < v /\ round_double v = x.
Proof.
  intros Hx. unfold shortest_at.
  set (u := 10 ^ Z.of_nat q). assert (Hu : 0 < u) by (apply Z.pow_pos_nonneg; lia).
  assert (Hs : 0 <= x / u) by (apply Z.div_pos; lia).
  destruct (0 <? x / u) eqn:E0; [apply Z.ltb_lt in E0|];
    destruct (round_double (x / u * u) =? x) eqn:E1; destruct (round_double ((x / u + 1) * u) =? x) eqn:E2;
    simpl; intros H; try discriminate; injection H as <-;
    repeat match goal with
    | |- context [if ?b then _ else _] => destruct b
    | E : (_ =? _) = true |- _ => apply Z.eqb_eq in E
    end; split; try assumption; nia.
Qed.

(** Below [2^53], [String(x)] is the digits of [x]. *)
Lemma shortest_search_small q x : 0 <= x < 2 ^ 53 -> shortest_search q x = x.
Proof.
  intros Hx. induction q as [|q IH]; [reflexivity|]. cbn [shortest_search].
  destruct (shortest_at (S q) x) as [v|] eqn:E; [|exact IH].
  destruct (shortest_at_round (S q) x v ltac:(lia) E) as [Hv Hr].
  destruct (Z.ltb_spec v (2 ^ 53)).
  - rewrite round_double_exact in Hr by lia. exact Hr.
  - unfold round_double in Hr. destruct (Z.ltb_spec v 0); [lia|].
    pose proof (round_double_pos_large v ltac:(lia)). lia.
Qed.

Lemma number_string_value_small n : Z.abs n < 2 ^ 53 -> number_string_value n = n.
Proof.
  intros Hn. unfold number_string_value. destruct (Z.ltb_spec n 0).
  - rewrite shortest_search_small by lia. lia.
  - apply shortest_search_small. lia.
Qed.

(** The decimal text of an integer is read as that integer. *)
Lemma decimal_value_Z_to_dec n : decimal_value (Z_to_dec n) = Some (n, 0%nat).
Proof.
  assert (Hpos : forall a, 0 <= a -> decimal_body (udigits (dec_fuel a) a) = Some (a, 0%nat)).
  { intros a Ha. rewrite decimal_body_int.
    - rewrite udigits_value; [reflexivity | split; [lia | apply dec_fuel_enough; lia]].
    - apply udigits_nonempty. unfold dec_fuel. lia.
    - apply udigits_digits. exact Ha. }
  unfold Z_to_dec. destruct (Z.ltb_spec n 0).
  - rewrite decimal_value_minus, Hpos by lia. cbn. f_equal. f_equal. lia.
  - destruct (udigits (dec_fuel n) n) as [|d rest] eqn:E.
    + exfalso. apply (udigits_nonempty (dec_fuel n) n); [unfold dec_fuel; lia | exact E].
    + pose proof (udigits_digits (dec_fuel n) n ltac:(lia)) as Hd. rewrite E in Hd.
      inversion Hd as [|? ? Hd0 _]; subst.
      rewrite decimal_value_digit_head by exact Hd0. rewrite <- E. apply Hpos. lia.
Qed.

(** Rounding half away from zero is within half a unit. *)
Lemma round_half_up_div_bound m (j : nat) :
  (1 <= j)%nat -> 2 * Z.abs (round_half_up_div m j * 10 ^ Z.of_nat j - m) <= 10 ^ Z.of_nat j.
Proof.
  intros Hj. unfold round_half_up_div.
  replace (10 ^ Z.of_nat j) with (10 * 10 ^ Z.of_nat (j - 1))
    by (rewrite <- Z.pow_succ_r by lia; f_equal; lia).
  set (e := 10 ^ Z.of_nat (j - 1)).
  assert (He : 0 < e) by (apply Z.pow_pos_nonneg; lia).
  replace (10 * e / 2) with (5 * e) by (rewrite (Z.mul_comm 10 e); replace (e * 10) with ((5 * e) * 2) by ring;
                                           rewrite Z.div_mul; lia).
  pose proof (Z.div_mod (Z.abs m + 5 * e) (10 * e) ltac:(lia)) as Hdm.
  pose proof (Z.mod_pos_bound (Z.abs m + 5 * e) (10 * e) ltac:(lia)) as Hb.
  set (q := (Z.abs m + 5 * e) / (10 * e)) in *. set (r := (Z.abs m + 5 * e) mod (10 * e)) in *.
  destruct (Z.sgn_spec m) as [[Hm ->]|[[Hm ->]|[Hm ->]]].
  - rewrite Z.abs_eq in * by lia. nia.
  - subst m. lia.
  - rewrite Z.abs_neq in * by lia. nia.
Qed.

(** ** Properties *)

(** C21: exactness of ['Amount (no decimals)'] for every number amount:
    bignumber.js reads the amount as [String(amount)], and the text, in
    fixed-point notation below [10^27] and in bignumber.js's exponent
    notation from there on, reads back as exactly that value over
    [10^6]: the division and the printing lose nothing. *)
Theorem amount_no_decimals_reads_back amount :
  exists text v f,
    amount_no_decimals true (JNumber amount) = Ok (Some text) /\
    number_value text = Some (v, f) /\ v * 10 ^ 6 = number_string_value amount * 10 ^ Z.of_nat f.
Proof. apply amount_reads_back. Qed.

(** From [10^27] in absolute value (more than [10^21] after the
    division) a value is printed in exponent notation, with an [e]. *)
Lemma bdec6_exponent_form m :
  10 ^ 27 <= Z.abs m -> In e_char (bn_to_string (BDec m 6)).
Proof.
  intros Hbig.
  destruct (bn_to_string_shape m ltac:(lia)) as (c & t & sgn & Hc & Hd & Ha & Hlt & H1 & H27 & Hs & ->).
  destruct (Nat.leb_spec (length c + t) 27) as [Hle|Hgt]; [apply H27 in Hle; lia|].
  rewrite to_exponential_mantissa by lia.
  apply in_or_app. right. apply in_or_app. right. left. reflexivity.
Qed.

Example amount_no_decimals_exponent_example :
  amount_no_decimals true (JNumber (- 10 ^ 28)) = Ok (Some (js "-1e+22"%string)) /\
  amount_no_decimals true (JNumber (123 * 10 ^ 30)) = Ok (Some (js "1.23e+26"%string)).
Proof. vm_compute. split; reflexivity. Qed.

(** C19: exactness on the amounts TronGrid sends: an amount below [2^53]
    in absolute value survives [JSON.parse], and its text reads back as
    exactly [amount / 10^6]. *)
Theorem amount_no_decimals_wire_exact amount :
  Z.abs amount < 2 ^ 53 ->
  exists text v f,
    amount_no_decimals true (JNumber (round_double amount)) = Ok (Some text) /\
    decimal_value text = Some (v, f) /\ v * 10 ^ 6 = amount * 10 ^ Z.of_nat f.
Proof.
  intros H. rewrite round_double_exact, amount_no_decimals_number, number_string_value_small by exact H.
  destruct (bdec6_text_exact amount ltac:(eapply Z.lt_trans; [exact H | reflexivity])) as (v & f & H1 & H2).
  exists (bn_to_string (BDec amount 6)), v, f. auto.
Qed.

Lemma amount_no_decimals_wire_exact_witness :
  Z.abs 1500000 < 2 ^ 53 /\
  exists text v f,
    amount_no_decimals true (JNumber (round_double 1500000)) = Ok (Some text) /\
    decimal_value text = Some (v, f) /\ v * 10 ^ 6 = 1500000 * 10 ^ Z.of_nat f.
Proof. split; [vm_compute; reflexivity | apply amount_no_decimals_wire_exact; vm_compute; reflexivity]. Defined.



(** C22: equivalence of the two encodings of an amount below [2^53]:
    the JSON string of the integer gives the same ['Amount (no
    decimals)'] as the integer sent as a number.  Above, they part: a
    string keeps every digit, a number goes through [String(v)]
    ([amount_no_decimals_string_examples]). *)
Theorem amount_no_decimals_string_number b n :
  Z.abs n < 2 ^ 53 ->
  amount_no_decimals b (JString (Z_to_dec n)) = amount_no_decimals b (JNumber n).
Proof.
  intros Hn. unfold amount_no_decimals, bn_of_jsval.
  rewrite decimal_value_Z_to_dec, number_string_value_small by exact Hn. reflexivity.
Qed.

Lemma amount_no_decimals_string_number_witness :
  Z.abs (2 ^ 53 - 1) < 2 ^ 53 /\
  amount_no_decimals true (JString (Z_to_dec (2 ^ 53 - 1))) = Ok (Some (js "9007199254.740991"%string)).
Proof.
  split; [vm_compute; reflexivity|].
  rewrite (amount_no_decimals_string_number true (2 ^ 53 - 1) ltac:(vm_compute; reflexivity)).
  vm_compute. reflexivity.
Defined.

(** Division of a decimal string amount: with at most 14 decimals
    the quotient by 10^6 is exact; with more, bignumber.js rounds it at
    the 20th decimal place, to within half a unit of that place. *)
Theorem amount_no_decimals_string_rounding s m k :
  decimal_value s = Some (m, k) ->
  ((k <= 14)%nat -> amount_no_decimals true (JString s) = Ok (Some (bn_to_string (BDec m (k + 6))))) /\
  ((14 < k)%nat -> exists m',
      amount_no_decimals true (JString s) = Ok (Some (bn_to_string (BDec m' 20))) /\
      2 * Z.abs (m' * 10 ^ Z.of_nat (k - 14) - m) <= 10 ^ Z.of_nat (k - 14)).
Proof.
  intros Hs. unfold amount_no_decimals, bn_of_jsval. rewrite Hs. cbn [res_map res_bind bn_div_pow10]. unfold decimals.
  split; intros Hk.
  - destruct (Nat.leb_spec (k + 6) 20); [reflexivity | lia].
  - destruct (Nat.leb_spec (k + 6) 20); [lia|].
    eexists. split; [reflexivity|]. replace (k + 6 - 20)%nat with (k - 14)%nat by lia.
    apply round_half_up_div_bound. lia.
Qed.

(** A string keeps every digit; the number [2^60] and the string of
    its digits part. *)
Example amount_no_decimals_string_examples :
  amount_no_decimals true (JString (Z_to_dec (2 ^ 53 + 1))) = Ok (Some (js "9007199254.740993"%string)) /\
  amount_no_decimals true (JString (js "0.000000000000005"%string)) = Ok (Some (js "1e-20"%string)) /\
  amount_no_decimals true (JString (js "-1500000.5"%string)) = Ok (Some (js "-1.5000005"%string)) /\
  amount_no_decimals true (JString (Z_to_dec (2 ^ 60))) = Ok (Some (js "1152921504606.846976"%string)) /\
  amount_no_decimals true (JNumber (2 ^ 60)) = Ok (Some (js "1152921504606.847"%string)).
Proof. vm_compute. repeat split. Qed.
