(* ===== verification/JsonBody.v ===== *)
(** * The request body (index.ts lines 62-67)

    [axios.post(API_URL, JSON.stringify({ value: txId }))] sends the id
    as a JSON string.  [json_escape] is QuoteJSONString of ECMA-262
    (well-formed JSON.stringify: the short escapes, [\uXXXX] for control
    characters and lone surrogates, everything else as is) and
    [request_body] the text of the object.

    [json_unescape] and [decode_body] read such a body back the way a
    JSON parser does; [request_body_roundtrip] shows that every id made
    of UTF-16 code units is recovered exactly, so two different ids
    never produce the same request, and [request_body_well_formed] that
    every body is well-formed UTF-16 with no raw control character.
    [json_escape_rect] is the induction principle of [json_escape]'s
    recursion (a surrogate pair at once, any other unit on its own). *)

From Stdlib Require Import String ZArith List Lia Bool.
From S2P Require Import Prelude.
Import ListNotations.
Open Scope Z_scope.

Definition hex_digit (n : Z) : Z := if n <? 10 then 48 + n else 87 + n.

(** [\uXXXX] with lower-case hexadecimal digits. *)
Definition unicode_escape (c : Z) : jsstr :=
  [92; 117; hex_digit (c / 4096 mod 16); hex_digit (c / 256 mod 16);
   hex_digit (c / 16 mod 16); hex_digit (c mod 16)].

Definition is_high_surrogate (c : Z) : bool := (55296 <=? c) && (c <=? 56319).
Definition is_low_surrogate (c : Z) : bool := (56320 <=? c) && (c <=? 57343).

(** QuoteJSONString's table for one code unit that is not a surrogate. *)
Definition escape_unit (c : Z) : jsstr :=
  if c =? 8 then [92; 98] else if c =? 9 then [92; 116]
  else if c =? 10 then [92; 110] else if c =? 12 then [92; 102]
  else if c =? 13 then [92; 114] else if c =? 34 then [92; 34]
  else if c =? 92 then [92; 92] else if c <? 32 then unicode_escape c
  else [c].

(** The escaped contents of a JSON string: surrogate pairs pass through,
    lone surrogates are escaped (well-formed JSON.stringify). *)
Fixpoint json_escape (s : jsstr) : jsstr :=
  match s with
  | [] => []
  | c :: rest =>
      if is_high_surrogate c then
        match rest with
        | d :: rest' =>
            if is_low_surrogate d then c :: d :: json_escape rest'
            else unicode_escape c ++ json_escape rest
        | [] => unicode_escape c
        end
      else if is_low_surrogate c then unicode_escape c ++ json_escape rest
      else escape_unit c ++ json_escape rest
  end.

(** [JSON.stringify({ value: txId })]: {"value":"..."}. *)
Definition request_body (txId : jsstr) : jsstr :=
  [123; 34] ++ js "value"%string ++ [34; 58; 34] ++ json_escape txId ++ [34; 125].

(** ** Reading the body back

    What the receiving end's JSON parser does with the body: the string
    grammar of RFC 8259 (the eight short escapes, [\uXXXX] with either
    case of hexadecimal digit, any other unit from U+0020 up as itself,
    control characters refused).  [json_unescape] reads the contents of
    a string up to its closing quote and returns them with the text that
    follows. *)

Definition is_code_unit (c : Z) : bool := (0 <=? c) && (c <? 65536).

Definition hex_value (c : Z) : option Z :=
  if (48 <=? c) && (c <=? 57) then Some (c - 48)
  else if (97 <=? c) && (c <=? 102) then Some (c - 87)
  else if (65 <=? c) && (c <=? 70) then Some (c - 55)
  else None.

Definition hex4 (a b c d : Z) : option Z :=
  match hex_value a, hex_value b, hex_value c, hex_value d with
  | Some w, Some x, Some y, Some z => Some (((w * 16 + x) * 16 + y) * 16 + z)
  | _, _, _, _ => None
  end.

(** The unit a two-character escape [\e] stands for. *)
Definition simple_escape (e : Z) : option Z :=
  if e =? 34 then Some 34 else if e =? 92 then Some 92
  else if e =? 47 then Some 47 else if e =? 98 then Some 8
  else if e =? 102 then Some 12 else if e =? 110 then Some 10
  else if e =? 114 then Some 13 else if e =? 116 then Some 9
  else None.

Definition cons_fst (c : Z) (o : option (jsstr * jsstr)) : option (jsstr * jsstr) :=
  match o with Some (x, r) => Some (c :: x, r) | None => None end.

Fixpoint json_unescape (s : jsstr) : option (jsstr * jsstr) :=
  match s with
  | [] => None
  | c :: rest =>
      if c =? 34 then Some ([], rest)
      else if c =? 92 then
        match rest with
        | [] => None
        | e :: rest1 =>
            if e =? 117 then
              match rest1 with
              | a :: b :: c' :: d :: rest2 =>
                  match hex4 a b c' d with
                  | Some v => cons_fst v (json_unescape rest2)
                  | None => None
                  end
              | _ => None
              end
            else
              match simple_escape e with
              | Some v => cons_fst v (json_unescape rest1)
              | None => None
              end
        end
      else if c <? 32 then None
      else cons_fst c (json_unescape rest)
  end.

Fixpoint strip_prefix (p s : jsstr) : option jsstr :=
  match p, s with
  | [], _ => Some s
  | x :: p', y :: s' => if x =? y then strip_prefix p' s' else None
  | _ :: _, [] => None
  end.

Definition body_prefix : jsstr := [123; 34] ++ js "value"%string ++ [34; 58; 34].

(** The [value] of a body of the shape [{"value":"..."}]. *)
Definition decode_body (b : jsstr) : option jsstr :=
  match strip_prefix body_prefix b with
  | Some r =>
      match json_unescape r with
      | Some (v, rest) => if list_eq_dec Z.eq_dec rest [125] then Some v else None
      | None => None
      end
  | None => None
  end.

(** Well-formed UTF-16: every high surrogate is followed by a low one
    and every low one follows a high one (what ES2019's well-formed
    JSON.stringify guarantees of its output). *)
Fixpoint well_formed_utf16 (s : jsstr) : bool :=
  match s with
  | [] => true
  | c :: rest =>
      if is_high_surrogate c then
        match rest with
        | d :: rest' => is_low_surrogate d && well_formed_utf16 rest'
        | [] => false
        end
      else negb (is_low_surrogate c) && well_formed_utf16 rest
  end.

(** A unit that may stand alone in JSON text: not a control character
    and not a surrogate. *)
Definition json_safe_unit (c : Z) : bool :=
  (32 <=? c) && negb (is_high_surrogate c) && negb (is_low_surrogate c).

(** ** QuoteJSONString as ECMA-262 states it

    The standard states [JSON.stringify] of a string over code points:
    [StringToCodePoints] reads a surrogate pair as one code point, each
    code point is escaped on its own (the table of short escapes, then
    [UnicodeEscape] for controls and lone surrogates), and
    [UTF16EncodeCodePoint] writes the others back.  [quote_json_string]
    is that text; [json_escape] is the unit-by-unit form the model
    uses. *)
Definition code_point_of_pair (c d : Z) : Z := (c - 55296) * 1024 + (d - 56320) + 65536.

Fixpoint string_to_code_points (s : jsstr) : list Z :=
  match s with
  | [] => []
  | c :: rest =>
      if is_high_surrogate c then
        match rest with
        | d :: rest' =>
            if is_low_surrogate d then code_point_of_pair c d :: string_to_code_points rest'
            else c :: string_to_code_points rest
        | [] => [c]
        end
      else c :: string_to_code_points rest
  end.

Definition utf16_encode_code_point (cp : Z) : jsstr :=
  if cp <? 65536 then [cp]
  else [(cp - 65536) / 1024 + 55296; (cp - 65536) mod 1024 + 56320].

Definition quote_code_point (cp : Z) : jsstr :=
  if cp =? 8 then [92; 98] else if cp =? 9 then [92; 116]
  else if cp =? 10 then [92; 110] else if cp =? 12 then [92; 102]
  else if cp =? 13 then [92; 114] else if cp =? 34 then [92; 34]
  else if cp =? 92 then [92; 92]
  else if (cp <? 32) || is_high_surrogate cp || is_low_surrogate cp then unicode_escape cp
  else utf16_encode_code_point cp.

Definition quote_json_string (s : jsstr) : jsstr :=
  [34] ++ flat_map quote_code_point (string_to_code_points s) ++ [34].

(** ** Lemmas *)

Lemma hex_value_digit n : 0 <= n < 16 -> hex_value (hex_digit n) = Some n.
Proof.
  intros H. unfold hex_digit, hex_value.
  destruct (Z.ltb_spec n 10); zbool; cbn [andb]; first [lia | f_equal; lia].
Qed.

Lemma hex4_unicode_escape c :
  0 <= c < 65536 ->
  hex4 (hex_digit (c / 4096 mod 16)) (hex_digit (c / 256 mod 16))
       (hex_digit (c / 16 mod 16)) (hex_digit (c mod 16)) = Some c.
Proof.
  intros H. unfold hex4.
  rewrite !hex_value_digit by (apply Z.mod_pos_bound; lia).
  f_equal. zdiv_lia.
Qed.

Lemma json_unescape_u a b c d t :
  json_unescape (92 :: 117 :: a :: b :: c :: d :: t) =
  match hex4 a b c d with Some v => cons_fst v (json_unescape t) | None => None end.
Proof. reflexivity. Qed.

Lemma json_unescape_plain c t :
  c <> 34 -> c <> 92 -> 32 <= c ->
  json_unescape (c :: t) = cons_fst c (json_unescape t).
Proof. intros. cbn [json_unescape]. zbool; lia || reflexivity. Qed.

Lemma json_unescape_unicode c t :
  0 <= c < 65536 ->
  json_unescape (unicode_escape c ++ t) = cons_fst c (json_unescape t).
Proof.
  intros H. unfold unicode_escape. cbn [app].
  rewrite json_unescape_u, hex4_unicode_escape by exact H. reflexivity.
Qed.

Lemma json_unescape_escape_unit c t :
  0 <= c < 65536 ->
  json_unescape (escape_unit c ++ t) = cons_fst c (json_unescape t).
Proof.
  intros H. unfold escape_unit.
  repeat match goal with
  | |- context [if ?c =? ?k then _ else _] => destruct (Z.eqb_spec c k); [subst; reflexivity|]
  end.
  destruct (Z.ltb_spec c 32).
  - apply json_unescape_unicode; exact H.
  - apply json_unescape_plain; assumption.
Qed.

(** ** The recursion of [json_escape]

    [json_escape] copies a surrogate pair as it is and escapes any other
    unit on its own ([escape_single]); [json_escape_rect] is induction
    along that recursion. *)
Definition escape_single (c : Z) : jsstr :=
  if is_high_surrogate c || is_low_surrogate c then unicode_escape c else escape_unit c.

Lemma json_escape_cons c r :
  json_escape (c :: r) =
  if is_high_surrogate c then
    match r with
    | d :: r' => if is_low_surrogate d then c :: d :: json_escape r'
                 else unicode_escape c ++ json_escape r
    | [] => unicode_escape c
    end
  else if is_low_surrogate c then unicode_escape c ++ json_escape r
  else escape_unit c ++ json_escape r.
Proof. reflexivity. Qed.

(** Whether a unit and its successor form a surrogate pair. *)
Definition starts_pair (c : Z) (r : jsstr) : bool :=
  is_high_surrogate c && match r with d :: _ => is_low_surrogate d | [] => false end.

Lemma json_escape_rect (P : jsstr -> Prop) :
  P [] ->
  (forall c d r, is_high_surrogate c = true -> is_low_surrogate d = true -> P r -> P (c :: d :: r)) ->
  (forall c r, starts_pair c r = false ->
     json_escape (c :: r) = escape_single c ++ json_escape r -> P r -> P (c :: r)) ->
  forall s, P s.
Proof.
  intros Hnil Hpair Hone s. remember (length s) as n eqn:Hn. revert s Hn.
  induction n as [n IH] using lt_wf_ind. intros [|c r] ->; [exact Hnil|].
  unfold escape_single, starts_pair in Hone.
  destruct (is_high_surrogate c) eqn:Hh; [destruct r as [|d r']|].
  - apply Hone; [rewrite ?Hh, ?Hl; reflexivity | |exact Hnil]. rewrite json_escape_cons, Hh, app_nil_r. reflexivity.
  - destruct (is_low_surrogate d) eqn:Hl.
    + apply Hpair; [exact Hh | exact Hl|]. apply (IH (length r')); [simpl; lia | reflexivity].
    + apply Hone; [rewrite ?Hh, ?Hl; reflexivity | rewrite json_escape_cons, Hh, Hl; reflexivity|].
      apply (IH (length (d :: r'))); [simpl; lia | reflexivity].
  - apply Hone; [rewrite ?Hh, ?Hl; reflexivity | rewrite json_escape_cons, Hh; destruct (is_low_surrogate c); reflexivity|].
    apply (IH (length r)); [simpl; lia | reflexivity].
Qed.

Lemma json_escape_pair c d r :
  is_high_surrogate c = true -> is_low_surrogate d = true ->
  json_escape (c :: d :: r) = c :: d :: json_escape r.
Proof. intros Hh Hl. rewrite json_escape_cons, Hh, Hl. reflexivity. Qed.

Lemma is_code_unit_range c : is_code_unit c = true -> 0 <= c < 65536.
Proof. unfold is_code_unit. rewrite andb_true_iff, Z.leb_le, Z.ltb_lt. lia. Qed.

Lemma surrogate_range c :
  is_high_surrogate c = true \/ is_low_surrogate c = true -> 55296 <= c <= 57343.
Proof. unfold is_high_surrogate, is_low_surrogate. rewrite !andb_true_iff, !Z.leb_le. lia. Qed.

Lemma json_unescape_escape_single c t :
  0 <= c < 65536 ->
  json_unescape (escape_single c ++ t) = cons_fst c (json_unescape t).
Proof.
  intros H. unfold escape_single.
  destruct (is_high_surrogate c || is_low_surrogate c);
    [apply json_unescape_unicode | apply json_unescape_escape_unit]; exact H.
Qed.

Lemma string_to_code_points_pair c d r :
  is_high_surrogate c = true -> is_low_surrogate d = true ->
  string_to_code_points (c :: d :: r) = code_point_of_pair c d :: string_to_code_points r.
Proof. intros Hh Hl. cbn [string_to_code_points]. rewrite Hh, Hl. reflexivity. Qed.

Lemma string_to_code_points_single c r :
  starts_pair c r = false -> string_to_code_points (c :: r) = c :: string_to_code_points r.
Proof.
  unfold starts_pair. intros H. cbn [string_to_code_points].
  destruct (is_high_surrogate c); [|reflexivity].
  destruct r as [|d r']; [reflexivity|]. cbn in H. rewrite H. reflexivity.
Qed.

Lemma quote_code_point_pair c d :
  is_high_surrogate c = true -> is_low_surrogate d = true ->
  quote_code_point (code_point_of_pair c d) = [c; d].
Proof.
  intros Hh Hl. pose proof (surrogate_range c (or_introl Hh)) as Hc.
  unfold is_low_surrogate in Hl. rewrite andb_true_iff, !Z.leb_le in Hl.
  unfold quote_code_point, utf16_encode_code_point, is_high_surrogate, is_low_surrogate, code_point_of_pair.
  zbool; cbn; try lia. f_equal; [|f_equal]; zdiv_lia.
Qed.

Lemma quote_code_point_unit c :
  0 <= c < 65536 -> quote_code_point c = escape_single c.
Proof.
  intros H. unfold quote_code_point, escape_single, escape_unit, utf16_encode_code_point.
  destruct (is_high_surrogate c) eqn:Hh, (is_low_surrogate c) eqn:Hl; cbn [orb];
    try first [pose proof (surrogate_range c (or_introl Hh)) | pose proof (surrogate_range c (or_intror Hl))];
    zbool; reflexivity || lia.
Qed.

Lemma json_escape_code_points s :
  forallb is_code_unit s = true ->
  flat_map quote_code_point (string_to_code_points s) = json_escape s.
Proof.
  induction s as [|c d r Hh Hl IH|c r Hnp Heq IH] using json_escape_rect; intros Hs; [reflexivity| |].
  - simpl in Hs. rewrite !andb_true_iff in Hs. destruct Hs as (_ & _ & Hs).
    rewrite string_to_code_points_pair, json_escape_pair by assumption.
    cbn [flat_map]. rewrite quote_code_point_pair, IH by assumption. reflexivity.
  - simpl in Hs. apply andb_prop in Hs as [Hc Hs]. apply is_code_unit_range in Hc.
    rewrite string_to_code_points_single, Heq by assumption. cbn [flat_map].
    rewrite quote_code_point_unit, IH by assumption. reflexivity.
Qed.

Lemma json_unescape_json_escape s t :
  forallb is_code_unit s = true ->
  json_unescape (json_escape s ++ 34 :: t) = Some (s, t).
Proof.
  revert t. induction s as [|c d r Hh Hl IH|c r Hnp Heq IH] using json_escape_rect; intros t Hs.
  - reflexivity.
  - simpl in Hs. rewrite !andb_true_iff in Hs. destruct Hs as (_ & _ & Hs).
    pose proof (surrogate_range c (or_introl Hh)). pose proof (surrogate_range d (or_intror Hl)).
    rewrite json_escape_pair by assumption. cbn [app].
    rewrite !json_unescape_plain, IH by (assumption || lia). reflexivity.
  - simpl in Hs. apply andb_prop in Hs as [Hc Hs]. apply is_code_unit_range in Hc.
    rewrite Heq, <- app_assoc, json_unescape_escape_single, IH by assumption. reflexivity.
Qed.

Lemma request_body_split tx : request_body tx = body_prefix ++ json_escape tx ++ [34; 125].
Proof. reflexivity. Qed.

Lemma strip_prefix_app p s : strip_prefix p (p ++ s) = Some s.
Proof. induction p as [|x p IH]; simpl; [reflexivity | rewrite Z.eqb_refl; exact IH]. Qed.

Lemma decode_request_body tx :
  forallb is_code_unit tx = true -> decode_body (request_body tx) = Some tx.
Proof.
  intros H.
  unfold decode_body. rewrite request_body_split, strip_prefix_app.
  rewrite json_unescape_json_escape by exact H. reflexivity.
Qed.

(** A unit that JSON.stringify copies as it is. *)
Definition is_plain_unit (c : Z) : bool :=
  (32 <=? c) && negb (c =? 34) && negb (c =? 92) && negb (is_high_surrogate c)
  && negb (is_low_surrogate c).

Lemma json_escape_plain_units tx :
  forallb is_plain_unit tx = true -> json_escape tx = tx.
Proof.
  induction tx as [|c rest IH]; intros H; [reflexivity|].
  simpl in H. apply andb_prop in H as [Hc H].
  unfold is_plain_unit in Hc. rewrite !andb_true_iff, !negb_true_iff in Hc.
  destruct Hc as [[[[Hc1 Hc2] Hc3] Hh] Hl].
  cbn [json_escape]. rewrite Hh, Hl, IH by exact H. unfold escape_unit.
  apply Z.leb_le in Hc1. apply Z.eqb_neq in Hc2. apply Z.eqb_neq in Hc3.
  zbool; lia || reflexivity.
Qed.

Lemma hex_digit_safe n : 0 <= n < 16 -> json_safe_unit (hex_digit n) = true.
Proof.
  intros H. unfold json_safe_unit, hex_digit, is_high_surrogate, is_low_surrogate.
  destruct (Z.ltb_spec n 10); zbool; cbn; first [reflexivity | lia].
Qed.

Lemma unicode_escape_safe c : forallb json_safe_unit (unicode_escape c) = true.
Proof.
  unfold unicode_escape. cbn [forallb].
  rewrite !hex_digit_safe by (apply Z.mod_pos_bound; lia). reflexivity.
Qed.

Lemma escape_single_safe c : forallb json_safe_unit (escape_single c) = true.
Proof.
  unfold escape_single. destruct (is_high_surrogate c) eqn:Hh; [apply unicode_escape_safe|].
  destruct (is_low_surrogate c) eqn:Hl; [apply unicode_escape_safe|]. cbn [orb].
  unfold escape_unit.
  repeat match goal with
  | |- context [if ?c =? ?k then _ else _] => destruct (Z.eqb_spec c k); [reflexivity|]
  end.
  destruct (Z.ltb_spec c 32); [apply unicode_escape_safe|].
  cbn [forallb]. unfold json_safe_unit. rewrite Hh, Hl.
  destruct (Z.leb_spec 32 c); [reflexivity | lia].
Qed.

Lemma well_formed_safe_app a b :
  forallb json_safe_unit a = true -> well_formed_utf16 (a ++ b) = well_formed_utf16 b.
Proof.
  induction a as [|c a IH]; intros H; [reflexivity|].
  simpl in H. apply andb_prop in H as [Hc H]. unfold json_safe_unit in Hc.
  rewrite !andb_true_iff, !negb_true_iff in Hc. destruct Hc as [[_ Hh] Hl].
  cbn [app well_formed_utf16]. rewrite Hh, Hl, IH by exact H. reflexivity.
Qed.

Lemma safe_ge32 a : forallb json_safe_unit a = true -> forallb (fun c => 32 <=? c) a = true.
Proof.
  intros H. apply forallb_forall. intros x Hx. eapply forallb_forall in H; [|exact Hx].
  unfold json_safe_unit in H. rewrite !andb_true_iff in H. tauto.
Qed.

Lemma json_escape_well_formed s t :
  well_formed_utf16 (json_escape s ++ t) = well_formed_utf16 t.
Proof.
  revert t. induction s as [|c d r Hh Hl IH|c r Hnp Heq IH] using json_escape_rect; intros t.
  - reflexivity.
  - rewrite json_escape_pair by assumption. cbn [app well_formed_utf16]. rewrite Hh, Hl, IH. reflexivity.
  - rewrite Heq, <- app_assoc, well_formed_safe_app by apply escape_single_safe. apply IH.
Qed.

Lemma json_escape_no_control s : forallb (fun c => 32 <=? c) (json_escape s) = true.
Proof.
  induction s as [|c d r Hh Hl IH|c r Hnp Heq IH] using json_escape_rect; [reflexivity| |].
  - rewrite json_escape_pair by assumption. cbn [forallb]. rewrite IH.
    pose proof (surrogate_range c (or_introl Hh)). pose proof (surrogate_range d (or_intror Hl)).
    destruct (Z.leb_spec 32 c), (Z.leb_spec 32 d); reflexivity || lia.
  - rewrite Heq, forallb_app, safe_ge32, IH by apply escape_single_safe. reflexivity.
Qed.

(** ** Properties *)

(** C23: Round trip of the request body: for every id made of UTF-16
    code units (lone surrogates and control characters included), a JSON
    parser reads back from [JSON.stringify({ value: txId })] exactly the
    id that was sent. *)
Theorem request_body_roundtrip tx :
  forallb is_code_unit tx = true -> decode_body (request_body tx) = Some tx.
Proof. apply decode_request_body. Qed.

(** Two different ids never produce the same request body. *)
Corollary request_body_injective tx1 tx2 :
  forallb is_code_unit tx1 = true -> forallb is_code_unit tx2 = true ->
  request_body tx1 = request_body tx2 -> tx1 = tx2.
Proof.
  intros H1 H2 Heq.
  apply decode_request_body in H1. apply decode_request_body in H2.
  congruence.
Qed.

(** An id of printable units other than the quote, the backslash and
    surrogates (a hexadecimal transaction hash in particular) is sent
    verbatim: the body is [{"value":"] followed by the id and ["}]. *)
Lemma request_body_plain tx :
  forallb is_plain_unit tx = true ->
  request_body tx = body_prefix ++ tx ++ [34; 125].
Proof. intros H. unfold request_body. rewrite json_escape_plain_units by exact H. reflexivity. Qed.

(** C25: the request body is well-formed JSON text for every id,
    whatever code units it holds: no raw control character (they are all
    escaped), and well-formed UTF-16 (lone surrogates are escaped, pairs
    are kept), so the server never receives text it cannot decode. *)
Theorem request_body_well_formed tx :
  forallb (fun c => 32 <=? c) (request_body tx) = true /\
  well_formed_utf16 (request_body tx) = true.
Proof.
  rewrite request_body_split. split.
  - rewrite !forallb_app, json_escape_no_control. reflexivity.
  - rewrite well_formed_safe_app, json_escape_well_formed by reflexivity. reflexivity.
Qed.

(** C24: equivalence with the standard's algorithm: the request body is
    [{"value":], then QuoteJSONString of the id as ECMA-262 states it
    (over code points: pairs decoded, each code point escaped on its
    own, re-encoded in UTF-16), then [}]; the unit-by-unit
    [json_escape] computes the same text for every id of code units. *)
Theorem request_body_quote_json_string tx :
  forallb is_code_unit tx = true ->
  request_body tx = [123; 34] ++ js "value"%string ++ [34; 58] ++ quote_json_string tx ++ [125].
Proof.
  intros H. unfold quote_json_string. rewrite json_escape_code_points by exact H.
  rewrite request_body_split. unfold body_prefix. rewrite <- !app_assoc. reflexivity.
Qed.

(** ** Witnesses *)

(** An id with a quote, a newline, a surrogate pair and a lone surrogate. *)
Definition tricky_id : jsstr := [97; 34; 10; 55357; 56832; 56320; 92].

Lemma request_body_roundtrip_witness :
  forallb is_code_unit tricky_id = true /\
  decode_body (request_body tricky_id) = Some tricky_id.
Proof. split; [reflexivity | apply request_body_roundtrip; reflexivity]. Defined.

Example request_body_tricky :
  request_body tricky_id =
  body_prefix ++ [97; 92; 34; 92; 110; 55357; 56832] ++ js "\udc00\\"%string ++ [34; 125].
Proof. reflexivity. Qed.

Lemma request_body_quote_json_string_witness :
  forallb is_code_unit tricky_id = true /\
  request_body tricky_id = [123; 34] ++ js "value"%string ++ [34; 58] ++ quote_json_string tricky_id ++ [125].
Proof. split; [reflexivity | apply request_body_quote_json_string; reflexivity]. Defined.

(** The reference on the id with a surrogate pair: the pair is one code
    point (U+1F600) and is written back as the same two units. *)
Example string_to_code_points_tricky :
  string_to_code_points tricky_id = [97; 34; 10; 128512; 56320; 92].
Proof. reflexivity. Qed.
