(* ===== verification/Axios.v ===== *)
(** * axios: what [axios.post] settles with (index.ts lines 62-67)

    [const { data } = await axios.post(API_URL, body)] relies on two
    behaviours of axios's defaults:
    - [settle] with the default [validateStatus]: a status in
      [200, 300) resolves, and so does a response without a status
      (0); any other status rejects with an AxiosError whose message is
      ["Request failed with status code " + status];
    - [transformResponse]: the body text goes through [JSON.parse]; when
      it is not JSON the parse error is swallowed
      ([transitional.silentJSONParsing]) and [data] is the raw text.

    [json_parse] is [JSON.parse] for the JSON a TronGrid response holds:
    [parse_value], [parse_items] and [parse_members] are a recursive-
    descent reader (RFC 8259 grammar) in a small reader monad
    ([pres_bind], notation [let% (a, r) := p in k]), strings read by
    [JsonBody.json_unescape], integers as the double [JSON.parse] makes
    of them ([BigDecimal.round_double]).  A reader fails with [PSyntax]
    (a syntax error: [JSON.parse] throws), [PNumber] (a number with a
    fraction or an exponent, or an integer from 2^1023 on, near the
    overflow to Infinity: outside the model, [JsonUnmodelled]) or
    [PFuel]; [json_parse_fuel_enough] shows that the fuel [json_parse]
    gives, two units per code unit, never runs out and that more fuel
    changes nothing.  [axios_settle] composes the status rule and the
    decoding.

    [json_print] is the JSON text of a value (how a server writes it);
    [json_parse_print_round] shows that [json_parse] reads back every
    value with code-unit strings and integers below 2^1023, each
    integer rounded to the nearest double ([json_round]), and
    [json_parse_print] that the values with safe integers come back
    unchanged.  The TCP/TLS exchange,
    headers, redirects and timeouts are the network, not modelled;
    nor is the byte-order mark axios's Node adapter strips from a body
    before parsing (TronGrid sends none). *)

From Stdlib Require Import String ZArith List Lia Bool.
From S2P Require Import Prelude JsString JsValue BigDecimal JsonBody.
Import ListNotations.
Open Scope Z_scope.

(** What [axios.post] settles with. *)
Inductive axios_result : Type :=
| AxResolved (data : jsval)
| AxRejected (message : jsstr).

(** The response the HTTP adapter hands to axios. *)
Record http_response : Type := mk_http_response {
  status : Z;
  body : jsstr }.

(** ** JSON.parse *)

Definition is_json_ws (c : Z) : bool := (c =? 32) || (c =? 9) || (c =? 10) || (c =? 13).

Fixpoint skip_ws (s : jsstr) : jsstr :=
  match s with
  | c :: r => if is_json_ws c then skip_ws r else s
  | [] => []
  end.

(** Why a prefix could not be read: a syntax error ([JSON.parse]
    throws), a number outside the model, or the fuel ran out. *)
Inductive perr : Type :=
| PSyntax
| PNumber
| PFuel.

(** The outcome of reading a prefix: an error, or a value with the rest
    of the text. *)
Inductive pres (A : Type) : Type :=
| PErr (e : perr)
| POk (a : A) (rest : jsstr).
Arguments PErr {A} e.
Arguments POk {A} a rest.

(** The reader monad: read a prefix, then go on with the rest. *)
Definition pres_bind {A B} (p : pres A) (k : A -> jsstr -> pres B) : pres B :=
  match p with
  | POk a rest => k a rest
  | PErr e => PErr e
  end.

Declare Scope parse_scope.
Delimit Scope parse_scope with parse.
Notation "'let%' ( a , r ) ':=' p 'in' k" := (pres_bind p (fun a r => k))
  (at level 10, a name, r name, p at level 100, k at level 200) : parse_scope.
Open Scope parse_scope.

Fixpoint take_digits (s : jsstr) : jsstr * jsstr :=
  match s with
  | c :: r => if is_digit c then let '(ds, rest) := take_digits r in (c :: ds, rest) else ([], s)
  | [] => ([], [])
  end.

(** The value of an integer literal: the nearest double. *)
Definition number_value_of (neg : bool) (ds rest : jsstr) : pres jsval :=
  let n := dec_value ds in
  if 2 ^ 1023 <=? n then PErr PNumber
  else POk (JNumber (round_double (if neg then - n else n))) rest.

(** [-?(0|[1-9][0-9]* )], then a fraction or exponent (outside the
    model) or the end of the number; a leading zero followed by digits
    is a syntax error. *)
Definition parse_number (s : jsstr) : pres jsval :=
  let neg := match s with c :: _ => c =? 45 | [] => false end in
  let '(ds, rest) := take_digits (if neg then tl s else s) in
  match ds with
  | [] => PErr PSyntax
  | d :: ds' =>
      if (d =? 48) && negb (match ds' with [] => true | _ => false end) then PErr PSyntax
      else match rest with
           | c :: _ => if (c =? 46) || (c =? 101) || (c =? 69) then PErr PNumber
                       else number_value_of neg ds rest
           | [] => number_value_of neg ds rest
           end
  end.

Definition literal (word : string) (v : jsval) (s : jsstr) : pres jsval :=
  match strip_prefix (js word) s with
  | Some rest => POk v rest
  | None => PErr PSyntax
  end.

Fixpoint parse_value (fuel : nat) (s : jsstr) {struct fuel} : pres jsval :=
  match fuel with
  | O => PErr PFuel
  | S f =>
      match skip_ws s with
      | [] => PErr PSyntax
      | c :: r =>
          if c =? 34 then
            match json_unescape r with
            | Some (str, rest) => POk (JString str) rest
            | None => PErr PSyntax
            end
          else if c =? 91 then
            match skip_ws r with
            | d :: r' =>
                if d =? 93 then POk (JArray []) r'
                else let% (xs, rest) := parse_items f r in POk (JArray xs) rest
            | [] => PErr PSyntax
            end
          else if c =? 123 then
            match skip_ws r with
            | d :: r' =>
                if d =? 125 then POk (JObject []) r'
                else let% (fs, rest) := parse_members f r in POk (JObject fs) rest
            | [] => PErr PSyntax
            end
          else if c =? 110 then literal "null" JNull (c :: r)
          else if c =? 116 then literal "true" (JBool true) (c :: r)
          else if c =? 102 then literal "false" (JBool false) (c :: r)
          else parse_number (c :: r)
      end
  end
with parse_items (fuel : nat) (s : jsstr) {struct fuel} : pres (list jsval) :=
  match fuel with
  | O => PErr PFuel
  | S f =>
      let% (v, rest) := parse_value f s in
      match skip_ws rest with
      | c :: r =>
          if c =? 44 then let% (vs, rest') := parse_items f r in POk (v :: vs) rest'
          else if c =? 93 then POk [v] r
          else PErr PSyntax
      | [] => PErr PSyntax
      end
  end
with parse_members (fuel : nat) (s : jsstr) {struct fuel} : pres (list (jsstr * jsval)) :=
  match fuel with
  | O => PErr PFuel
  | S f =>
      match skip_ws s with
      | c :: r =>
          if c =? 34 then
            match json_unescape r with
            | Some (k, rest) =>
                match skip_ws rest with
                | d :: r' =>
                    if d =? 58 then
                      let% (v, rest') := parse_value f r' in
                      match skip_ws rest' with
                      | e :: r'' =>
                          if e =? 44 then
                            let% (ms, rest'') := parse_members f r'' in POk ((k, v) :: ms) rest''
                          else if e =? 125 then POk [(k, v)] r''
                          else PErr PSyntax
                      | [] => PErr PSyntax
                      end
                    else PErr PSyntax
                | [] => PErr PSyntax
                end
            | None => PErr PSyntax
            end
          else PErr PSyntax
      | [] => PErr PSyntax
      end
  end.

Inductive json_result : Type :=
| JsonValue (v : jsval)
| JsonSyntaxError
| JsonUnmodelled.

(** [JSON.parse(text)]: one value, surrounded by white space only.  The
    fuel, two units per code unit, is always enough
    ([json_parse_fuel_enough]). *)
Definition json_parse (s : jsstr) : json_result :=
  match parse_value (S (2 * length s)) s with
  | POk v rest => if forallb is_json_ws rest then JsonValue v else JsonSyntaxError
  | PErr PSyntax => JsonSyntaxError
  | PErr _ => JsonUnmodelled
  end.

(** ** axios's settlement *)

Definition status_message : jsstr := js "Request failed with status code "%string.

(** [settle] and [transformResponse] of axios's defaults;
    [None] when the body holds a number outside the model. *)
(** axios's [settle]: [!response.status || validateStatus(status)],
    with the default [validateStatus] ([status >= 200 && status < 300]);
    a response without a status (0) resolves. *)
Definition status_resolves (s : Z) : bool := (s =? 0) || ((200 <=? s) && (s <? 300)).

Definition axios_settle (r : http_response) : option axios_result :=
  if status_resolves (status r) then
    match json_parse (body r) with
    | JsonValue v => Some (AxResolved v)
    | JsonSyntaxError => Some (AxResolved (JString (body r)))
    | JsonUnmodelled => None
    end
  else Some (AxRejected (status_message ++ Z_to_dec (status r))).

(** ** The JSON text of a value *)

Fixpoint json_print (v : jsval) : jsstr :=
  match v with
  | JUndefined | JNull => js "null"%string
  | JBool true => js "true"%string
  | JBool false => js "false"%string
  | JNumber n => Z_to_dec n
  | JString s => 34 :: json_escape s ++ [34]
  | JArray xs =>
      91 :: (fix items (l : list jsval) : jsstr :=
               match l with
               | [] => [93]
               | x :: r => json_print x ++ match r with [] => [93] | _ => 44 :: items r end
               end) xs
  | JObject fs =>
      123 :: (fix members (l : list (jsstr * jsval)) : jsstr :=
                match l with
                | [] => [125]
                | (k, x) :: r =>
                    34 :: json_escape k ++ 34 :: 58 :: json_print x
                       ++ match r with [] => [125] | _ => 44 :: members r end
                end) fs
  end.

(** The values a JSON text can carry exactly: no [undefined], integers
    below 2^53, strings of code units. *)
Fixpoint json_printable (v : jsval) : bool :=
  match v with
  | JUndefined => false
  | JNull | JBool _ => true
  | JNumber n => Z.abs n <? 2 ^ 53
  | JString s => forallb is_code_unit s
  | JArray xs => forallb json_printable xs
  | JObject fs => forallb (fun '(k, x) => forallb is_code_unit k && json_printable x) fs
  end.

(** The values a JSON text can carry: no [undefined], integers below
    2^1023 (the doubles of [JSON.parse] are finite there), strings of
    code units. *)
Fixpoint json_readable (v : jsval) : bool :=
  match v with
  | JUndefined => false
  | JNull | JBool _ => true
  | JNumber n => Z.abs n <? 2 ^ 1023
  | JString s => forallb is_code_unit s
  | JArray xs => forallb json_readable xs
  | JObject fs => forallb (fun '(k, x) => forallb is_code_unit k && json_readable x) fs
  end.

(** What [JSON.parse] makes of the text of a value: every integer
    becomes the nearest double. *)
Fixpoint json_round (v : jsval) : jsval :=
  match v with
  | JNumber n => JNumber (round_double n)
  | JArray xs => JArray (map json_round xs)
  | JObject fs => JObject (map (fun '(k, x) => (k, json_round x)) fs)
  | _ => v
  end.

(** The text of a non-empty array's elements and of an object's members
    after the opening bracket. *)
Fixpoint print_items (l : list jsval) : jsstr :=
  match l with
  | [] => [93]
  | x :: r => json_print x ++ match r with [] => [93] | _ => 44 :: print_items r end
  end.

Fixpoint print_members (l : list (jsstr * jsval)) : jsstr :=
  match l with
  | [] => [125]
  | (k, x) :: r =>
      34 :: json_escape k ++ 34 :: 58 :: json_print x
         ++ match r with [] => [125] | _ => 44 :: print_members r end
  end.

(** ** Examples *)

(** A JSON text written with single quotes for double quotes. *)
Definition jtext (s : string) : jsstr := map (fun c => if c =? 39 then 34 else c) (js s).

(** A TronGrid answer for an unknown id, an error answer, a transfer
    whose amount is above 2^53 (parsed as the nearest double), a body
    that is not JSON, a fractional number, and a leading zero. *)
Example json_parse_examples :
  json_parse (js " {} "%string) = JsonValue (JObject []) /\
  json_parse (jtext "{'Error':'class org.tron.core.exception.BadItemException : not found'}") =
    JsonValue (JObject [(js "Error", JString (js "class org.tron.core.exception.BadItemException : not found"))]%string) /\
  json_parse (jtext "{'amount':9007199254740993}") =
    JsonValue (JObject [(js "amount"%string, JNumber 9007199254740992)]) /\
  json_parse (js "<html>502 Bad Gateway</html>"%string) = JsonSyntaxError /\
  json_parse (js "[1.5]"%string) = JsonUnmodelled /\
  json_parse (js "[01]"%string) = JsonSyntaxError.
Proof. vm_compute. repeat split. Qed.

(** axios's [settle]: a response without a status resolves, a 404
    rejects with the status in the message. *)
Example axios_settle_examples :
  axios_settle (mk_http_response 0 (jtext "{}")) = Some (AxResolved (JObject [])) /\
  axios_settle (mk_http_response 404 (jtext "{}")) =
    Some (AxRejected (js "Request failed with status code 404"%string)).
Proof. vm_compute. split; reflexivity. Qed.

(** ** Lemmas *)

Lemma json_print_array xs : json_print (JArray xs) = 91 :: print_items xs.
Proof. reflexivity. Qed.

Lemma json_print_object fs : json_print (JObject fs) = 123 :: print_members fs.
Proof. reflexivity. Qed.

(** What may follow a value in a printed text. *)
Definition ends_value (t : jsstr) : Prop :=
  match t with [] => True | c :: _ => c = 44 \/ c = 93 \/ c = 125 end.

Lemma take_digits_app ds t :
  Forall (fun c => is_digit c = true) ds -> ends_value t -> take_digits (ds ++ t) = (ds, t).
Proof.
  intros Hds Ht. induction Hds as [|d ds Hd _ IH]; simpl.
  - destruct t as [|c t]; [reflexivity|].
    simpl in Ht. unfold is_digit. destruct Ht as [-> | [-> | ->]]; reflexivity.
  - rewrite Hd, IH. reflexivity.
Qed.

Lemma udigits_head fuel n :
  0 < n < 10 ^ Z.of_nat fuel -> exists d ds, udigits fuel n = d :: ds /\ d <> 48.
Proof.
  revert n; induction fuel as [|f IH]; intros n Hn; [simpl in Hn; lia|].
  cbn [udigits]. rewrite Nat2Z.inj_succ, Z.pow_succ_r in Hn by lia.
  destruct (Z.ltb_spec n 10).
  - exists (48 + n mod 10), []. split; [reflexivity|]. rewrite Z.mod_small; lia.
  - destruct (IH (n / 10)) as (d & ds & -> & Hd); [split; zdiv_lia|].
    exists d, (ds ++ [48 + n mod 10]). split; [reflexivity | exact Hd].
Qed.

(** The decimal text of a non-negative integer: no leading zero. *)
Lemma udigits_lead n :
  0 <= n -> exists d ds, udigits (dec_fuel n) n = d :: ds /\ (d = 48 -> ds = []).
Proof.
  intros Hn. destruct (Z.eq_dec n 0) as [-> | Hn0]; [exists 48, []; split; reflexivity|].
  destruct (udigits_head (dec_fuel n) n) as (d & ds & Hu & Hd).
  - split; [lia | apply dec_fuel_enough; lia].
  - exists d, ds. split; [exact Hu | intros; contradiction].
Qed.

Lemma parse_number_udigits (neg : bool) m t :
  0 <= m < 2 ^ 1023 -> ends_value t ->
  parse_number ((if neg then [45] else []) ++ udigits (dec_fuel m) m ++ t) =
  POk (JNumber (round_double (if neg then - m else m))) t.
Proof.
  intros Hm Ht.
  pose proof (udigits_digits (dec_fuel m) m ltac:(lia)) as Hdig.
  pose proof (udigits_value (dec_fuel m) m (conj (proj1 Hm) (dec_fuel_enough m (proj1 Hm)))) as Hval.
  destruct (udigits_lead m) as (d & ds & Hu & Hd); [lia|]. rewrite Hu in *.
  assert (Hdd : 48 <= d <= 57) by (inversion Hdig; unfold is_digit in *; zbool; lia).
  unfold parse_number.
  replace (match (if neg then [45] else []) ++ (d :: ds) ++ t with
           | c :: _ => c =? 45 | [] => false end) with neg
    by (destruct neg; simpl; [reflexivity | symmetry; apply Z.eqb_neq; lia]).
  replace (if neg then tl ((if neg then [45] else []) ++ (d :: ds) ++ t)
           else (if neg then [45] else []) ++ (d :: ds) ++ t) with ((d :: ds) ++ t)
    by (destruct neg; reflexivity).
  rewrite take_digits_app by assumption.
  replace ((d =? 48) && negb match ds with [] => true | _ => false end) with false
    by (destruct (Z.eqb_spec d 48); [rewrite (Hd ltac:(assumption)) | ]; reflexivity).
  assert (Hv : number_value_of neg (d :: ds) t = POk (JNumber (round_double (if neg then - m else m))) t).
  { unfold number_value_of. rewrite Hval. destruct (Z.leb_spec (2 ^ 1023) m); [lia | reflexivity]. }
  destruct t as [|c t]; [exact Hv|].
  destruct Ht as [-> | [-> | ->]]; exact Hv.
Qed.

Lemma parse_number_Z_to_dec n t :
  Z.abs n < 2 ^ 1023 -> ends_value t ->
  parse_number (Z_to_dec n ++ t) = POk (JNumber (round_double n)) t.
Proof.
  intros Hn Ht. unfold Z_to_dec. destruct (Z.ltb_spec n 0).
  - pose proof (parse_number_udigits true (- n) t ltac:(lia) Ht) as Hp.
    rewrite Z.opp_involutive in Hp. exact Hp.
  - exact (parse_number_udigits false n t ltac:(lia) Ht).
Qed.

(** The first code unit of a printed value opens it: it is not white
    space, a separator or a closing bracket. *)
Definition opens_value (s : jsstr) : Prop :=
  exists c w, s = c :: w /\ is_json_ws c = false /\ c <> 44 /\ c <> 93 /\ c <> 125.

Lemma opens_value_app s t : opens_value s -> opens_value (s ++ t).
Proof. intros (c & w & -> & H). exists c, (w ++ t). auto. Qed.

Lemma Z_to_dec_head n : exists c w, Z_to_dec n = c :: w /\ (c = 45 \/ 48 <= c <= 57).
Proof.
  unfold Z_to_dec. destruct (Z.ltb_spec n 0); [eexists _, _; split; [reflexivity | left; reflexivity]|].
  destruct (udigits_lead n) as (d & ds & Hu & _); [lia|].
  pose proof (udigits_digits (dec_fuel n) n ltac:(lia)) as Hdig. rewrite Hu in *.
  inversion Hdig as [|? ? Hd]; subst. unfold is_digit in Hd.
  apply andb_true_iff in Hd as [H1 H2]. apply Z.leb_le in H1, H2.
  exists d, ds. split; [reflexivity | right; lia].
Qed.

Lemma json_print_opens v : opens_value (json_print v).
Proof.
  destruct v as [| | [|] | n | s | xs | fs]; try (eexists _, _; split; [reflexivity | repeat split; discriminate]).
  destruct (Z_to_dec_head n) as (c & w & Hz & Hc). exists c, w.
  unfold is_json_ws. repeat split; [exact Hz | | lia..]. zbool; simpl; reflexivity || lia.
Qed.

Lemma parse_value_number f c r :
  c = 45 \/ 48 <= c <= 57 -> parse_value (S f) (c :: r) = parse_number (c :: r).
Proof.
  intros Hc. cbn [parse_value skip_ws].
  replace (is_json_ws c) with false by (unfold is_json_ws; zbool; simpl; lia).
  zbool; lia || reflexivity.
Qed.

Lemma parse_value_array f u xs t :
  opens_value u -> parse_items f u = POk xs t -> parse_value (S f) (91 :: u) = POk (JArray xs) t.
Proof.
  intros (c & w & -> & Hws & _ & H93 & _) Hp. simpl.
  rewrite Hws. simpl. rewrite Hp. destruct (Z.eqb_spec c 93); [contradiction | reflexivity].
Qed.

Lemma parse_value_object f u fs t :
  opens_value u -> parse_members f u = POk fs t -> parse_value (S f) (123 :: u) = POk (JObject fs) t.
Proof.
  intros (c & w & -> & Hws & _ & _ & H125) Hp. simpl.
  rewrite Hws. simpl. rewrite Hp. destruct (Z.eqb_spec c 125); [contradiction | reflexivity].
Qed.

Lemma parse_items_S f s :
  parse_items (S f) s =
  let% (v, rest) := parse_value f s in
  match skip_ws rest with
  | c :: r =>
      if c =? 44 then let% (vs, rest') := parse_items f r in POk (v :: vs) rest'
      else if c =? 93 then POk [v] r
      else PErr PSyntax
  | [] => PErr PSyntax
  end.
Proof. reflexivity. Qed.

(** What the fuel [f] reads back: a printed value followed by what may
    follow a value, the elements of a non-empty array, the members of a
    non-empty object, each when its text is shorter than [f], with its
    integers rounded to doubles. *)
Definition value_reads (f : nat) : Prop :=
  forall v t, (length (json_print v) < f)%nat -> json_readable v = true -> ends_value t ->
  parse_value f (json_print v ++ t) = POk (json_round v) t.

Definition items_read (f : nat) : Prop :=
  forall xs t, xs <> [] -> (length (print_items xs) < f)%nat -> forallb json_readable xs = true ->
  parse_items f (print_items xs ++ t) = POk (map json_round xs) t.

Definition members_read (f : nat) : Prop :=
  forall fs t, fs <> [] -> (length (print_members fs) < f)%nat ->
  forallb (fun '(k, x) => forallb is_code_unit k && json_readable x) fs = true ->
  parse_members f (print_members fs ++ t) = POk (map (fun '(k, x) => (k, json_round x)) fs) t.

Lemma value_reads_S f : value_reads f -> items_read f -> members_read f -> value_reads (S f).
Proof.
  intros IHv IHi IHm v t Hlen Hpr Ht.
  destruct v as [| | [|] | n | s | [|x r] | [|[k x] r]]; try discriminate Hpr; try reflexivity.
  - cbn [json_print]. destruct (Z_to_dec_head n) as (c & w & Hz & Hc).
    rewrite Hz, <- app_comm_cons, parse_value_number, app_comm_cons, <- Hz by exact Hc.
    apply parse_number_Z_to_dec; [apply Z.ltb_lt; exact Hpr | exact Ht].
  - cbn [json_print]. rewrite <- app_comm_cons, <- app_assoc. simpl.
    rewrite json_unescape_json_escape by exact Hpr. reflexivity.
  - rewrite json_print_array in *. cbn [length] in Hlen.
    apply parse_value_array; [apply opens_value_app, opens_value_app, json_print_opens |].
    apply IHi; [discriminate | lia | exact Hpr].
  - rewrite json_print_object in *. cbn [length] in Hlen.
    apply parse_value_object; [eexists _, _; split; [reflexivity | repeat split; discriminate] |].
    apply IHm; [discriminate | lia | exact Hpr].
Qed.

Lemma items_read_S f : value_reads f -> items_read f -> items_read (S f).
Proof.
  intros IHv IHi [|x r] t Hne Hlen Hpr; [congruence|].
  apply andb_true_iff in Hpr as [Hx Hr]. cbn [print_items] in *.
  rewrite length_app in Hlen. rewrite <- app_assoc, parse_items_S.
  destruct r as [|y r].
  - rewrite IHv by (simpl in *; auto; lia). reflexivity.
  - cbn [app]. remember (print_items (y :: r) ++ t) as u eqn:Hu.
    rewrite IHv by (simpl in *; auto; lia). simpl.
    rewrite Hu, IHi by (simpl in *; auto; lia || discriminate). reflexivity.
Qed.

Lemma members_read_S f : value_reads f -> members_read f -> members_read (S f).
Proof.
  intros IHv IHm [|[k x] r] t Hne Hlen Hpr; [congruence|].
  simpl in Hpr. apply andb_true_iff in Hpr as [Hkx Hr]. apply andb_true_iff in Hkx as [Hk Hx].
  cbn [print_members] in *.
  remember (match r with [] => [125] | _ => 44 :: print_members r end) as m eqn:Hm.
  cbn [length] in Hlen. rewrite !length_app in Hlen. cbn [length] in Hlen. rewrite length_app in Hlen.
  rewrite <- app_comm_cons, <- app_assoc. simpl.
  rewrite json_unescape_json_escape by exact Hk. simpl. rewrite <- app_assoc.
  rewrite IHv by (subst m; destruct r; simpl in *; auto; lia).
  destruct r as [|y r]; subst m; [reflexivity|]. cbn [app].
  remember (print_members (y :: r) ++ t) as u eqn:Hu. simpl.
  rewrite Hu, IHm by (simpl in *; auto; lia || discriminate). reflexivity.
Qed.

Lemma parse_print_reads f : value_reads f /\ items_read f /\ members_read f.
Proof.
  induction f as [|f (IHv & IHi & IHm)].
  - repeat split; intros ? ? ? Hlen; lia.
  - split; [|split]; [apply value_reads_S | apply items_read_S | apply members_read_S]; assumption.
Qed.

(** The whole text of a readable value, with the fuel [json_parse]
    gives. *)
Lemma parse_value_print v :
  json_readable v = true ->
  parse_value (S (2 * length (json_print v))) (json_print v) = POk (json_round v) [].
Proof.
  intros Hv. destruct (parse_print_reads (S (2 * length (json_print v)))) as [Hr _].
  pose proof (Hr v [] ltac:(lia) Hv I) as H. rewrite app_nil_r in H. exact H.
Qed.

Lemma status_resolves_2xx s : 200 <= s < 300 -> status_resolves s = true.
Proof. intros Hs. unfold status_resolves. zbool; simpl; lia || reflexivity. Qed.

Lemma status_resolves_other s : s <> 0 -> s < 200 \/ 300 <= s -> status_resolves s = false.
Proof. intros H0 Hs. unfold status_resolves. zbool; simpl; lia || reflexivity. Qed.

Lemma axios_settle_json r v :
  200 <= status r < 300 -> body r = json_print v -> json_readable v = true ->
  axios_settle r = Some (AxResolved (json_round v)).
Proof.
  intros Hs Hb Hv. unfold axios_settle, json_parse.
  rewrite status_resolves_2xx by exact Hs.
  rewrite Hb, parse_value_print by exact Hv. reflexivity.
Qed.

Lemma axios_settle_text r :
  200 <= status r < 300 -> json_parse (body r) = JsonSyntaxError ->
  axios_settle r = Some (AxResolved (JString (body r))).
Proof.
  intros Hs Hb. unfold axios_settle. rewrite Hb.
  rewrite status_resolves_2xx by exact Hs.
  reflexivity.
Qed.

Lemma axios_settle_status r :
  status r <> 0 -> status r < 200 \/ 300 <= status r ->
  axios_settle r = Some (AxRejected (status_message ++ Z_to_dec (status r))).
Proof.
  intros H0 Hs. unfold axios_settle. rewrite status_resolves_other by assumption. reflexivity.
Qed.

(** ** Fuel

    Every reader that succeeds consumes at least one code unit
    ([parse_consumes]); more fuel never changes a result other than
    [PFuel] ([parse_fuel_mono]); and two units of fuel per code unit of
    the text are enough for the three readers never to run out
    ([parse_no_fuel]). *)

Lemma skip_ws_length s : (length (skip_ws s) <= length s)%nat.
Proof. induction s as [|c s IH]; simpl; [lia|]. destruct (is_json_ws c); simpl; lia. Qed.

Lemma pres_bind_POk {A B} (p : pres A) (k : A -> jsstr -> pres B) b r :
  pres_bind p k = POk b r -> exists a r', p = POk a r' /\ k a r' = POk b r.
Proof. destruct p as [e|a r']; simpl; [discriminate | eauto]. Qed.

Lemma strip_prefix_length p s r : strip_prefix p s = Some r -> (length r + length p = length s)%nat.
Proof.
  revert s; induction p as [|x p IH]; intros [|y s] H; simpl in *; try discriminate.
  - injection H as <-. reflexivity.
  - injection H as <-. simpl. lia.
  - destruct (x =? y); [apply IH in H; lia | discriminate].
Qed.

Lemma take_digits_split s : fst (take_digits s) ++ snd (take_digits s) = s.
Proof.
  induction s as [|c s IH]; simpl; [reflexivity|].
  destruct (is_digit c); [|reflexivity].
  destruct (take_digits s) as [ds rest]. simpl in *. rewrite IH. reflexivity.
Qed.

(** [pres_inv H] takes apart a hypothesis [H : e = POk v r] along the
    branches of [e], keeping the length of each [skip_ws] it meets. *)
Ltac pres_inv H :=
  repeat match type of H with
  | pres_bind _ _ = POk _ _ =>
      let E := fresh "E" in apply pres_bind_POk in H; destruct H as (? & ? & E & H)
  | PErr _ = POk _ _ => discriminate H
  | POk _ _ = POk _ _ => injection H as <- <-
  | context [if ?b then _ else _] => destruct b
  | context [match skip_ws ?t with _ => _ end] =>
      let E := fresh "Ews" in let L := fresh "L" in
      pose proof (skip_ws_length t) as L; destruct (skip_ws t) eqn:E; rewrite ?E in L; simpl in L
  | context [match json_unescape ?t with _ => _ end] =>
      let E := fresh "Eu" in destruct (json_unescape t) as [[? ?]|] eqn:E
  | context [match ?l with [] => _ | _ :: _ => _ end] => destruct l
  end.

Lemma json_unescape_shorter s x r : json_unescape s = Some (x, r) -> (length r < length s)%nat.
Proof.
  assert (Hn : forall n s x r, (length s <= n)%nat -> json_unescape s = Some (x, r) ->
                               (length r < length s)%nat); [|intros; eauto].
  induction n as [|n IH]; intros [|c t] x0 r0 Hs H; simpl in *; try discriminate; [lia|].
  unfold cons_fst in H.
  repeat match type of H with
  | context [match json_unescape ?u with _ => _ end] =>
      let E := fresh "E" in destruct (json_unescape u) as [[? ?]|] eqn:E;
      [apply IH in E; simpl in *; [|lia] | discriminate]
  | Some _ = Some _ => injection H as _ <-; simpl in *; lia
  | None = Some _ => discriminate
  | context [if ?b then _ else _] => destruct b
  | context [match ?o with Some _ => _ | None => _ end] => destruct o
  | context [match ?l with [] => _ | _ :: _ => _ end] => destruct l
  end.
Qed.

Lemma parse_number_shorter s v r : parse_number s = POk v r -> (length r < length s)%nat.
Proof.
  unfold parse_number, number_value_of. intros H.
  remember (match s with c :: _ => c =? 45 | [] => false end) as neg eqn:Hneg. clear Hneg.
  assert (Hl : (length (if neg then tl s else s) <= length s)%nat)
    by (destruct neg; [destruct s; simpl; lia | lia]).
  pose proof (take_digits_split (if neg then tl s else s)) as Hsp.
  destruct (take_digits _) as [ds rest]. simpl in Hsp. rewrite <- Hsp, length_app in Hl.
  cbv beta iota in H. pres_inv H; simpl in *; lia.
Qed.

Lemma literal_shorter word v s v' r :
  literal word v s = POk v' r -> (length r + length (js word) = length s)%nat.
Proof.
  unfold literal. destruct (strip_prefix (js word) s) eqn:E; [|discriminate].
  intros H. injection H as _ <-. apply strip_prefix_length. exact E.
Qed.

Definition value_consumes (f : nat) : Prop :=
  forall s v r, parse_value f s = POk v r -> (length r < length s)%nat.
Definition items_consume (f : nat) : Prop :=
  forall s vs r, parse_items f s = POk vs r -> (length r < length s)%nat.
Definition members_consume (f : nat) : Prop :=
  forall s ms r, parse_members f s = POk ms r -> (length r < length s)%nat.

Lemma parse_consumes f : value_consumes f /\ items_consume f /\ members_consume f.
Proof.
  induction f as [|f (IHv & IHi & IHm)];
    [repeat split; intros s v r H; discriminate H|].
  repeat split; intros s v r H; simpl in H; pres_inv H;
    repeat match goal with
    | E : parse_value f _ = POk _ _ |- _ => apply IHv in E
    | E : parse_items f _ = POk _ _ |- _ => apply IHi in E
    | E : parse_members f _ = POk _ _ |- _ => apply IHm in E
    | E : json_unescape _ = Some _ |- _ => apply json_unescape_shorter in E
    | H : literal _ _ _ = POk _ _ |- _ => apply literal_shorter in H; simpl in H
    | H : parse_number _ = POk _ _ |- _ => apply parse_number_shorter in H; simpl in H
    end; simpl in *; lia.
Qed.

(** [p] is [q], or [p] ran out of fuel. *)
Definition fuel_le {A} (p q : pres A) : Prop := p = PErr PFuel \/ p = q.

Lemma pres_bind_le {A B} (p q : pres A) (k k' : A -> jsstr -> pres B) :
  fuel_le p q -> (forall a r, fuel_le (k a r) (k' a r)) -> fuel_le (pres_bind p k) (pres_bind q k').
Proof. intros [-> | ->] Hk; [left; reflexivity | destruct q; simpl; [right; reflexivity | apply Hk]]. Qed.

Lemma parse_fuel_mono f :
  (forall g s, (f <= g)%nat -> fuel_le (parse_value f s) (parse_value g s)) /\
  (forall g s, (f <= g)%nat -> fuel_le (parse_items f s) (parse_items g s)) /\
  (forall g s, (f <= g)%nat -> fuel_le (parse_members f s) (parse_members g s)).
Proof.
  induction f as [|f (IHv & IHi & IHm)]; [repeat split; intros; left; reflexivity|].
  repeat split; intros [|g] s Hg; [lia| | lia | | lia |]; simpl;
    repeat match goal with
    | |- fuel_le ?x ?x => right; reflexivity
    | |- fuel_le (pres_bind (parse_value _ _) _) _ =>
        apply pres_bind_le; [apply IHv; lia | intros ? ?]
    | |- fuel_le (pres_bind (parse_items _ _) _) _ =>
        apply pres_bind_le; [apply IHi; lia | intros ? ?]
    | |- fuel_le (pres_bind (parse_members _ _) _) _ =>
        apply pres_bind_le; [apply IHm; lia | intros ? ?]
    | |- fuel_le (if ?b then _ else _) _ => destruct b
    | |- fuel_le (match ?e with _ => _ end) _ => destruct e
    end.
Qed.

Lemma pres_bind_no_fuel {A B} (p : pres A) (k : A -> jsstr -> pres B) :
  p <> PErr PFuel -> (forall a r, p = POk a r -> k a r <> PErr PFuel) -> pres_bind p k <> PErr PFuel.
Proof. destruct p as [e|a r]; simpl; [congruence | intros _ Hk; apply Hk; reflexivity]. Qed.

Lemma parse_number_no_fuel s : parse_number s <> PErr PFuel.
Proof.
  unfold parse_number, number_value_of. destruct (take_digits _) as [[|d ds] rest]; [discriminate|].
  destruct (_ && _); [discriminate|].
  destruct rest as [|c rest]; [|destruct (_ || _)]; try discriminate; destruct (_ <=? _); discriminate.
Qed.

Lemma literal_no_fuel word v s : literal word v s <> PErr PFuel.
Proof. unfold literal. destruct (strip_prefix _ _); discriminate. Qed.

Lemma parse_no_fuel f :
  (forall s, (2 * length s < f)%nat -> parse_value f s <> PErr PFuel) /\
  (forall s, (2 * length s + 1 < f)%nat -> parse_items f s <> PErr PFuel) /\
  (forall s, (2 * length s + 1 < f)%nat -> parse_members f s <> PErr PFuel).
Proof.
  induction f as [|f (IHv & IHi & IHm)]; [repeat split; intros; lia|].
  destruct (parse_consumes f) as (Cv & Ci & Cm).
  repeat split; intros s Hs; simpl;
    repeat match goal with
    | |- pres_bind (parse_value f ?t) _ <> _ =>
        let E := fresh "E" in
        apply pres_bind_no_fuel; [apply IHv; simpl in *; lia | intros ? ? E; apply Cv in E]
    | |- pres_bind (parse_items f ?t) _ <> _ =>
        let E := fresh "E" in
        apply pres_bind_no_fuel; [apply IHi; simpl in *; lia | intros ? ? E; apply Ci in E]
    | |- pres_bind (parse_members f ?t) _ <> _ =>
        let E := fresh "E" in
        apply pres_bind_no_fuel; [apply IHm; simpl in *; lia | intros ? ? E; apply Cm in E]
    | |- POk _ _ <> _ => discriminate
    | |- PErr PSyntax <> _ => discriminate
    | |- literal _ _ _ <> _ => apply literal_no_fuel
    | |- parse_number _ <> _ => apply parse_number_no_fuel
    | |- (if ?b then _ else _) <> _ => destruct b
    | |- match skip_ws ?t with _ => _ end <> _ =>
        let E := fresh "Ews" in let L := fresh "L" in
        pose proof (skip_ws_length t) as L; destruct (skip_ws t) eqn:E; simpl in L
    | |- match json_unescape ?t with _ => _ end <> _ =>
        let E := fresh "Eu" in
        destruct (json_unescape t) as [[? ?]|] eqn:E; [apply json_unescape_shorter in E|]
    end.
Qed.

(** Induction on values with a hypothesis for every element of an
    array and every member of an object. *)
Lemma jsval_nested_ind (P : jsval -> Prop) :
  P JUndefined -> P JNull -> (forall b, P (JBool b)) -> (forall n, P (JNumber n)) ->
  (forall s, P (JString s)) -> (forall xs, Forall P xs -> P (JArray xs)) ->
  (forall fs, Forall (fun kx => P (snd kx)) fs -> P (JObject fs)) ->
  forall v, P v.
Proof.
  intros Hu Hn Hb Hnum Hs Ha Ho. fix IH 1.
  intros [| | b | n | s | xs | fs]; [exact Hu | exact Hn | apply Hb | apply Hnum | apply Hs | |].
  - apply Ha. induction xs as [|x xs IHxs]; constructor; [apply IH | exact IHxs].
  - apply Ho. induction fs as [|[k x] fs IHfs]; constructor; [apply IH | exact IHfs].
Qed.

(** A value with safe integers is readable and [JSON.parse] leaves it
    as it is. *)
Lemma json_printable_round v :
  json_printable v = true -> json_readable v = true /\ json_round v = v.
Proof.
  induction v as [| | b | n | s | xs IH | fs IH] using jsval_nested_ind; simpl; intros Hv;
    try discriminate; try (split; reflexivity).
  - apply Z.ltb_lt in Hv. rewrite round_double_exact by lia.
    split; [apply Z.ltb_lt; lia | reflexivity].
  - split; [exact Hv | reflexivity].
  - induction IH as [|x xs Hx _ IHxs]; [split; reflexivity|].
    simpl in *. apply andb_true_iff in Hv as [H1 H2].
    destruct (Hx H1) as [-> ->]. destruct (IHxs H2) as [-> Heq].
    injection Heq as ->. split; reflexivity.
  - induction IH as [|[k x] fs Hx _ IHfs]; [split; reflexivity|].
    simpl in *. apply andb_true_iff in Hv as [H1 H2]. apply andb_true_iff in H1 as [Hk H1].
    destruct (Hx H1) as [-> ->]. destruct (IHfs H2) as [-> Heq].
    rewrite Hk. injection Heq as ->. split; reflexivity.
Qed.

(** ** Properties *)

(** C18: [JSON.parse], as axios applies it to a response body, reads
    the JSON text of every value without [undefined], with strings of
    code units and integers below 2^1023 as that value with each
    integer rounded to the nearest double: no syntax error and no
    unmodelled case arises, and an integer is exact exactly when the
    double is ([json_parse_print] for integers below 2^53). *)
Theorem json_parse_print_round v :
  json_readable v = true -> json_parse (json_print v) = JsonValue (json_round v).
Proof.
  intros Hv. unfold json_parse. rewrite parse_value_print by exact Hv. reflexivity.
Qed.

(** The round trip of the values with safe integers. *)
Corollary json_parse_print v :
  json_printable v = true -> json_parse (json_print v) = JsonValue v.
Proof.
  intros Hv. destruct (json_printable_round v Hv) as [Hr Heq].
  unfold json_parse. rewrite parse_value_print, Heq by exact Hr. reflexivity.
Qed.

(** The fuel of [json_parse] never runs out: for every text [s]
    and every fuel above [2 * length s] (the fuel [json_parse] gives),
    the reader never stops for lack of fuel, and its result does not
    depend on the fuel; so [json_parse] is the reader with unbounded
    fuel, a syntax error is a syntax error of the text, and
    [JsonUnmodelled] comes from a number outside the model only. *)
Theorem json_parse_fuel_enough s f :
  (2 * length s < f)%nat ->
  parse_value f s <> PErr PFuel /\ parse_value f s = parse_value (S (2 * length s)) s.
Proof.
  intros Hf. pose proof (proj1 (parse_no_fuel (S (2 * length s))) s ltac:(lia)) as Hn.
  destruct (proj1 (parse_fuel_mono (S (2 * length s))) f s ltac:(lia)) as [H | H];
    [contradiction | rewrite <- H; split; [exact Hn | reflexivity]].
Qed.

(** A TronGrid-like answer with nested objects and arrays, a negative
    number, an amount above 2^53, and a string with a quote, a
    backslash, a line feed and a surrogate pair. *)
Definition sample_answer : jsval :=
  JObject
    [(js "txID", JString (js "7c2d4ab0"));
     (js "ret", JArray [JObject [(js "contractRet", JString (js "SUCCESS"))]]);
     (js "raw_data", JObject [(js "timestamp", JNumber 1700000000000);
                              (js "amount", JNumber 9007199254740993);
                              (js "note", JString ([34; 92; 10; 55357; 56832] ++ js "ok"))]);
     (js "signature", JArray []);
     (js "fee", JNumber (-42));
     (js "flags", JArray [JBool true; JBool false; JNull])]%string.

Lemma json_parse_print_round_witness :
  json_readable sample_answer = true /\
  json_parse (json_print sample_answer) = JsonValue (json_round sample_answer) /\
  json_round sample_answer <> sample_answer.
Proof.
  split; [vm_compute; reflexivity|]. split; [|vm_compute; discriminate].
  apply json_parse_print_round. vm_compute. reflexivity.
Defined.

(** Ten opening brackets: the reader needs two units of fuel per
    bracket to see that the text is cut short. *)
Lemma json_parse_fuel_enough_witness :
  (2 * length (js "[[[[[[[[[["%string) < 100)%nat /\
  parse_value 100 (js "[[[[[[[[[["%string) = PErr PSyntax /\
  parse_value 11 (js "[[[[[[[[[["%string) = PErr PFuel.
Proof.
  split; [vm_compute; lia|]. split; [|vm_compute; reflexivity].
  rewrite (proj2 (json_parse_fuel_enough (js "[[[[[[[[[["%string) 100 ltac:(vm_compute; lia))).
  vm_compute. reflexivity.
Defined.
