(* ===== verification/PromiseAll.v ===== *)
(** * Promise.all over concurrent tasks (index.ts lines 59-96)

    [getTransactionById] starts one task per id and joins them with
    [Promise.all].  The tasks settle in an order fixed by the network,
    not by the code.  [Promise.all] resolves with the values in input
    order when every task fulfils, and rejects with the reason of the
    first task to reject in settlement order.

    - [promise_all outs order] is the functional model: [outs] are the
      outcomes of the tasks (by input position), [order] the settlement
      order (a permutation of the positions).
    - [promise_all_contract] is the abstract specification: the result is
      the list of values exactly when every task fulfils, and otherwise
      one of the failures; [all_ok] is the sequential reference (awaiting
      the tasks one after the other in input order).
    - [pstep] is the concurrent semantics as a step relation: one step
      settles one pending task; the aggregate promise records the first
      failure.  [pstep_refines] shows that every complete run computes
      [promise_all] of its own settlement order, [pstep_complete] that
      every settlement order is the order of some run, [pstep_invariant]
      that every reachable state keeps the invariant [pinv] and a final
      verdict, and [pstep_terminates] that the relation is well-founded
      (measure: the number of pending tasks) and never stuck.

    - [Join] is the interface the client sees: a join that meets the
      contract for every order; [promise_all_join] is its instance.

    [Unmodelled] outcomes (behaviour outside the model) are propagated
    like rejections. *)

From Stdlib Require Import String ZArith List Lia Bool Permutation Wf_nat Wellfounded.
From S2P Require Import Prelude.
Import ListNotations.
Open Scope res_scope.

Section PromiseAll.

Context {E A : Type}.

Definition is_failure (o : res E A) : bool :=
  match o with Ok _ => false | _ => true end.

(** The aggregate's verdict after one more task settles. *)
Definition settle_verdict (v : option (res E (list A))) (o : option (res E A))
  : option (res E (list A)) :=
  match v with
  | Some _ => v
  | None =>
      match o with
      | Some (Throw e) => Some (Throw e)
      | Some (Unmodelled w) => Some (Unmodelled w)
      | _ => None
      end
  end.

(** The first failure in settlement order. *)
Fixpoint first_failure (outs : list (res E A)) (order : list nat) : option (res E (list A)) :=
  match order with
  | [] => None
  | i :: rest =>
      match settle_verdict None (nth_error outs i) with
      | Some r => Some r
      | None => first_failure outs rest
      end
  end.

(** Awaiting the tasks one by one in input order. *)
Fixpoint all_ok (outs : list (res E A)) : res E (list A) :=
  match outs with
  | [] => Ok []
  | o :: rest => let* a := o in let* l := all_ok rest in Ok (a :: l)
  end.

Definition promise_all (outs : list (res E A)) (order : list nat) : res E (list A) :=
  match first_failure outs order with
  | Some r => r
  | None => all_ok outs
  end.

(** What [Promise.all] promises. *)
Definition promise_all_contract (outs : list (res E A)) (r : res E (list A)) : Prop :=
  (forall l, r = Ok l <-> outs = map Ok l) /\
  (forall e, r = Throw e -> In (Throw e) outs) /\
  (forall w, r = Unmodelled w -> In (Unmodelled w) outs).

(** ** The concurrent semantics *)

Record pstate : Type := mk_pstate {
  pending : list nat;                   (** tasks not settled yet *)
  settled : list nat;                   (** settled tasks, latest first *)
  verdict : option (res E (list A)) }.  (** the first failure, if any *)

Inductive pstep (outs : list (res E A)) : pstate -> pstate -> Prop :=
| pstep_settle pre i post s v :
    pstep outs (mk_pstate (pre ++ i :: post) s v)
               (mk_pstate (pre ++ post) (i :: s) (settle_verdict v (nth_error outs i))).

Inductive pstar (outs : list (res E A)) : pstate -> pstate -> Prop :=
| pstar_refl st : pstar outs st st
| pstar_step st1 st2 st3 : pstep outs st1 st2 -> pstar outs st2 st3 -> pstar outs st1 st3.

Definition pinit (outs : list (res E A)) : pstate :=
  mk_pstate (seq 0 (length outs)) [] None.

(** The value of the aggregate promise once no task is pending. *)
Definition presult (outs : list (res E A)) (st : pstate) : res E (list A) :=
  match verdict st with
  | Some r => r
  | None => all_ok outs
  end.

(** ** Lemmas *)

Lemma first_failure_app outs l1 l2 :
  first_failure outs (l1 ++ l2) =
  match first_failure outs l1 with
  | Some r => Some r
  | None => first_failure outs l2
  end.
Proof.
  induction l1 as [|i l1 IH]; cbn [first_failure app]; [reflexivity|].
  destruct (settle_verdict None (nth_error outs i)); [reflexivity | exact IH].
Qed.

Lemma first_failure_single outs i :
  first_failure outs [i] = settle_verdict None (nth_error outs i).
Proof. cbn [first_failure]. destruct (settle_verdict None (nth_error outs i)); reflexivity. Qed.

Lemma first_failure_some outs order r :
  first_failure outs order = Some r ->
  exists i, In i order /\ settle_verdict None (nth_error outs i) = Some r.
Proof.
  induction order as [|i order IH]; cbn [first_failure In]; [discriminate|].
  destruct (settle_verdict None (nth_error outs i)) eqn:Hv0.
  - intros H. injection H as <-. eauto.
  - intros H. destruct (IH H) as [j [Hj Hv]]. eauto.
Qed.

Lemma first_failure_none outs order i :
  first_failure outs order = None -> In i order -> i < length outs ->
  exists a, nth_error outs i = Some (Ok a).
Proof.
  induction order as [|j order IH]; cbn [first_failure In]; [tauto|].
  destruct (settle_verdict None (nth_error outs j)) eqn:Hv0; [discriminate|].
  intros H [->|Hin] Hlt; [|exact (IH H Hin Hlt)].
  destruct (nth_error outs i) as [[a|e|w]|] eqn:Ei; simpl in Hv0; try discriminate; eauto.
  apply nth_error_None in Ei. lia.
Qed.

Lemma all_ok_map outs l : all_ok outs = Ok l <-> outs = map Ok l.
Proof.
  revert l; induction outs as [|o outs IH]; intros l; simpl.
  - split; intros H; [injection H as <-; reflexivity | destruct l; [reflexivity | discriminate]].
  - split.
    + intros H. res_inv. subst. simpl. f_equal. apply IH. assumption.
    + intros H. destruct l as [|a l]; [discriminate|]. injection H as -> ->.
      simpl. rewrite (proj2 (IH l) eq_refl). reflexivity.
Qed.

Lemma all_ok_Throw outs e : all_ok outs = Throw e -> In (Throw e) outs.
Proof.
  induction outs as [|o outs IH]; simpl; [discriminate|].
  destruct o as [a|e'|w]; simpl; [|intros H; injection H as ->; auto | discriminate].
  destruct (all_ok outs); simpl; try discriminate. intros H. right. apply IH. exact H.
Qed.

Lemma all_ok_Unmodelled outs w : all_ok outs = Unmodelled w -> In (Unmodelled w) outs.
Proof.
  induction outs as [|o outs IH]; simpl; [discriminate|].
  destruct o as [a|e|w']; simpl; [| discriminate | intros H; injection H as ->; auto].
  destruct (all_ok outs); simpl; try discriminate. intros H. right. apply IH. exact H.
Qed.

Lemma settle_verdict_not_ok o r : settle_verdict None o = Some r -> forall l, r <> Ok l.
Proof. destruct o as [[a|e|w]|]; simpl; intros H; try discriminate; injection H as <-; discriminate. Qed.

Lemma first_failure_none_all outs order :
  first_failure outs order = None ->
  forall i, In i order -> settle_verdict None (nth_error outs i) = None.
Proof.
  induction order as [|j order IH]; cbn [first_failure In]; [tauto|].
  destruct (settle_verdict None (nth_error outs j)) eqn:Hv0; [discriminate|].
  intros H i [->|Hin]; [exact Hv0 | exact (IH H i Hin)].
Qed.

(** Tasks that fulfil give no failure, in any order. *)
Lemma first_failure_oks outs pre :
  Forall (fun k => exists a, nth_error outs k = Some (Ok a)) pre -> first_failure outs pre = None.
Proof.
  induction 1 as [|k pre (a & Ha) _ IH]; cbn [first_failure]; [reflexivity|].
  rewrite Ha. exact IH.
Qed.

(** The first failure after fulfilled tasks is the verdict. *)
Lemma promise_all_first_failure outs pre i rest e :
  Forall (fun k => exists a, nth_error outs k = Some (Ok a)) pre ->
  nth_error outs i = Some (Throw e) ->
  promise_all outs (pre ++ i :: rest) = Throw e.
Proof.
  intros Hpre Hi. unfold promise_all.
  rewrite first_failure_app, first_failure_oks by exact Hpre. cbn [first_failure].
  rewrite Hi. reflexivity.
Qed.

Lemma first_failure_map_Ok (l : list A) order : first_failure (map Ok l) order = None.
Proof.
  induction order as [|i order IH]; cbn [first_failure]; [reflexivity|].
  rewrite nth_error_map. destruct (nth_error l i); simpl; exact IH.
Qed.

Lemma first_failure_shift o outs order :
  first_failure (o :: outs) (map S order) = first_failure outs order.
Proof.
  induction order as [|i order IH]; cbn [first_failure map]; [reflexivity|].
  simpl nth_error. destruct (settle_verdict None (nth_error outs i)); [reflexivity | exact IH].
Qed.

(** Awaiting in input order is [Promise.all] with the input order as
    settlement order. *)
Lemma all_ok_input_order outs : all_ok outs = promise_all outs (seq 0 (length outs)).
Proof.
  unfold promise_all. induction outs as [|o outs IH]; [reflexivity|].
  cbn [length seq]. rewrite <- seq_shift. cbn [first_failure].
  rewrite first_failure_shift. simpl nth_error.
  destruct o as [a|e|w]; simpl; [|reflexivity|reflexivity].
  destruct (first_failure outs (seq 0 (length outs))) as [r|] eqn:Hff; [|reflexivity].
  rewrite IH. destruct (first_failure_some _ _ _ Hff) as [i [_ Hi]].
  destruct (nth_error outs i) as [[x|e|w]|]; simpl in Hi; try discriminate;
    injection Hi as <-; reflexivity.
Qed.

(** At most one task fails. *)
Definition at_most_one_failure (outs : list (res E A)) : Prop :=
  forall i j oi oj, nth_error outs i = Some oi -> nth_error outs j = Some oj ->
  is_failure oi = true -> is_failure oj = true -> i = j.

Lemma settle_verdict_failure o r :
  settle_verdict None o = Some r -> exists x, o = Some x /\ is_failure x = true.
Proof. destruct o as [[a|e|w]|]; simpl; intros H; try discriminate; eauto. Qed.

Lemma first_failure_perm outs o1 o2 :
  at_most_one_failure outs -> Permutation o1 o2 ->
  first_failure outs o1 = first_failure outs o2.
Proof.
  intros Hone Hp.
  destruct (first_failure outs o1) as [r1|] eqn:H1, (first_failure outs o2) as [r2|] eqn:H2.
  - destruct (first_failure_some _ _ _ H1) as [k1 [_ Hk1]].
    destruct (first_failure_some _ _ _ H2) as [k2 [_ Hk2]].
    destruct (settle_verdict_failure _ _ Hk1) as [x1 [Hx1 Hf1]].
    destruct (settle_verdict_failure _ _ Hk2) as [x2 [Hx2 Hf2]].
    rewrite (Hone k1 k2 x1 x2 Hx1 Hx2 Hf1 Hf2) in Hk1. congruence.
  - destruct (first_failure_some _ _ _ H1) as [k1 [Hin Hk1]].
    rewrite (first_failure_none_all _ _ H2 k1 (Permutation_in _ Hp Hin)) in Hk1. discriminate.
  - destruct (first_failure_some _ _ _ H2) as [k2 [Hin Hk2]].
    apply Permutation_sym in Hp.
    rewrite (first_failure_none_all _ _ H1 k2 (Permutation_in _ Hp Hin)) in Hk2. discriminate.
  - reflexivity.
Qed.

(** The invariant of the concurrent semantics. *)
Definition pinv (outs : list (res E A)) (st : pstate) : Prop :=
  Permutation (pending st ++ rev (settled st)) (seq 0 (length outs)) /\
  verdict st = first_failure outs (rev (settled st)).

Lemma pinv_init outs : pinv outs (pinit outs).
Proof. split; simpl; [rewrite app_nil_r; reflexivity | reflexivity]. Qed.

Lemma pinv_step outs st st' : pstep outs st st' -> pinv outs st -> pinv outs st'.
Proof.
  intros [pre i post s v] [Hp Hv]; unfold pinv; simpl in *. split.
  - eapply Permutation_trans; [|exact Hp]. rewrite app_assoc.
    eapply Permutation_trans; [apply Permutation_sym, Permutation_cons_append|].
    rewrite <- !app_assoc. simpl. apply Permutation_middle.
  - rewrite first_failure_app, first_failure_single, <- Hv. destruct v; reflexivity.
Qed.

Lemma pinv_star outs st st' : pstar outs st st' -> pinv outs st -> pinv outs st'.
Proof. induction 1; eauto using pinv_step. Qed.

Lemma pstar_from_perm outs p o s v :
  Permutation p o ->
  exists v', pstar outs (mk_pstate p s v) (mk_pstate [] (rev o ++ s) v').
Proof.
  revert p s v; induction o as [|i o IH]; intros p s v Hp.
  - apply Permutation_sym, Permutation_nil in Hp. subst. exists v. constructor.
  - assert (Hin : In i p) by (apply Permutation_sym in Hp; eapply Permutation_in; [exact Hp | left; reflexivity]).
    destruct (in_split _ _ Hin) as [pre [post ->]].
    apply Permutation_sym, Permutation_cons_app_inv, Permutation_sym in Hp.
    destruct (IH _ (i :: s) (settle_verdict v (nth_error outs i)) Hp) as [v' Hrun].
    exists v'. simpl. rewrite <- app_assoc. simpl.
    eapply pstar_step; [apply pstep_settle | exact Hrun].
Qed.

(** A settled verdict is final: a rejected aggregate stays rejected. *)
Lemma pstep_verdict_sticky outs st st' r :
  pstep outs st st' -> verdict st = Some r -> verdict st' = Some r.
Proof. intros [pre i post s v]; simpl. intros ->. reflexivity. Qed.

Lemma pstar_verdict_sticky outs st st' r :
  pstar outs st st' -> verdict st = Some r -> verdict st' = Some r.
Proof. induction 1; eauto using pstep_verdict_sticky. Qed.

(** Each step settles one pending task. *)
Lemma pstep_pending_length outs st st' :
  pstep outs st st' -> length (pending st') < length (pending st).
Proof. intros [pre i post s v]; simpl. rewrite !length_app. simpl. lia. Qed.

(** No deadlock: a state with a pending task can step. *)
Lemma pstep_progress outs st : pending st <> [] -> exists st', pstep outs st st'.
Proof.
  destruct st as [[|i post] s v]; simpl; [contradiction|]. intros _.
  eexists. exact (pstep_settle outs [] i post s v).
Qed.

(** ** Properties *)

Lemma promise_all_contract_holds outs order :
  promise_all_contract outs (promise_all outs order).
Proof.
  unfold promise_all, promise_all_contract.
  destruct (first_failure outs order) as [r|] eqn:Hff.
  - destruct (first_failure_some _ _ _ Hff) as [i [_ Hi]].
    split; [|split].
    + intros l. split; intros H.
      * exfalso. exact (settle_verdict_not_ok _ _ Hi l H).
      * subst outs. rewrite first_failure_map_Ok in Hff. discriminate.
    + intros e ->. destruct (nth_error outs i) as [[a|e'|w]|] eqn:Ei; simpl in Hi;
        try discriminate. injection Hi as ->. eapply nth_error_In. exact Ei.
    + intros w ->. destruct (nth_error outs i) as [[a|e|w']|] eqn:Ei; simpl in Hi;
        try discriminate. injection Hi as ->. eapply nth_error_In. exact Ei.
  - split; [apply all_ok_map | split; [apply all_ok_Throw | apply all_ok_Unmodelled]].
Qed.

(** C29: whatever the settlement order, [Promise.all] keeps its
    contract: it fulfils with the list of values, in input order,
    exactly when every task fulfils, and otherwise it reports the
    failure of one of the tasks. *)
Theorem promise_all_meets_contract outs order :
  promise_all_contract outs (promise_all outs order).
Proof. apply promise_all_contract_holds. Qed.

(** C26: refinement of the concurrent semantics: every complete run
    of [pstep] (every task settled, in any interleaving) settles each
    task exactly once and ends with the value of [promise_all] on its
    own settlement order. *)
Theorem pstep_refines outs st :
  pstar outs (pinit outs) st -> pending st = [] ->
  Permutation (rev (settled st)) (seq 0 (length outs)) /\
  presult outs st = promise_all outs (rev (settled st)).
Proof.
  intros Hrun Hdone. destruct (pinv_star _ _ _ Hrun (pinv_init outs)) as [Hp Hv].
  rewrite Hdone in Hp. split; [exact Hp|].
  unfold presult, promise_all. rewrite Hv. reflexivity.
Qed.

(** C27: every settlement order (every permutation of the tasks) is the
    order of some complete run of [pstep]. *)
Theorem pstep_complete outs order :
  Permutation order (seq 0 (length outs)) ->
  exists st, pstar outs (pinit outs) st /\ pending st = [] /\ rev (settled st) = order.
Proof.
  intros Hp. apply Permutation_sym in Hp.
  destruct (pstar_from_perm outs _ _ [] None Hp) as [v Hrun].
  eexists. split; [exact Hrun|]. simpl. rewrite app_nil_r, rev_involutive. split; reflexivity.
Qed.

(** C30: when at most one task fails, the result does not depend on the
    settlement order: it is the result of awaiting the tasks one by one
    in input order. *)
Theorem promise_all_deterministic outs order :
  at_most_one_failure outs -> Permutation order (seq 0 (length outs)) ->
  promise_all outs order = all_ok outs.
Proof.
  intros Hone Hp. rewrite all_ok_input_order. unfold promise_all.
  rewrite (first_failure_perm _ _ _ Hone Hp). reflexivity.
Qed.

(** C28: the invariant of the concurrent semantics: in every state
    reachable from the start, each task is either pending or settled,
    exactly once, the aggregate's verdict is the first failure among the
    settled tasks, and once the aggregate has a verdict no later step
    changes it (a rejected [Promise.all] stays rejected). *)
Theorem pstep_invariant outs st :
  pstar outs (pinit outs) st ->
  Permutation (pending st ++ rev (settled st)) (seq 0 (length outs)) /\
  verdict st = first_failure outs (rev (settled st)) /\
  (forall st' r, pstar outs st st' -> verdict st = Some r -> verdict st' = Some r).
Proof.
  intros Hrun. destruct (pinv_star _ _ _ Hrun (pinv_init outs)) as [Hp Hv].
  split; [exact Hp | split; [exact Hv|]]. intros st' r. apply pstar_verdict_sticky.
Qed.

(** Termination of the concurrent semantics: there is no infinite
    sequence of settlement steps (each one settles a pending task), and
    a state with a pending task is never stuck, so every run reaches a
    state where all tasks are settled. *)
Theorem pstep_terminates outs :
  well_founded (fun st' st => pstep outs st st') /\
  (forall st, pending st <> [] -> exists st', pstep outs st st').
Proof.
  split; [|apply pstep_progress].
  apply (wf_incl _ _ (ltof _ (fun st => length (pending st)))).
  - intros x y H. exact (pstep_pending_length _ _ _ H).
  - apply well_founded_ltof.
Qed.

End PromiseAll.

(** ** The interface the client relies on

    [getTransactionById] uses the join only through [Join]: a join of
    tasks under a settlement order that meets [promise_all_contract] for
    every order.  [promise_all_join] is [Promise.all]; the client's
    theorems that hold for every join are proved from [join_contract]
    alone, in [JoinLaws]. *)
Class Join : Type := {
  join : forall {E A : Type}, list (res E A) -> list nat -> res E (list A);
  join_contract : forall {E A : Type} (outs : list (res E A)) (order : list nat),
      promise_all_contract outs (join outs order)
}.

#[export] Instance promise_all_join : Join :=
  {| join := @promise_all; join_contract := @promise_all_contract_holds |}.

Section JoinLaws.

Context `{J : Join} {E A : Type}.

Lemma join_map_Ok (l : list A) order : join (E := E) (map Ok l) order = Ok l.
Proof. apply (join_contract (map Ok l) order). reflexivity. Qed.

Lemma join_nil order : join (E := E) (A := A) [] order = Ok [].
Proof. exact (join_map_Ok [] order). Qed.

(** A single task: the join is that task's outcome. *)
Lemma join_single (o : res E A) order : join [o] order = res_map (fun a => [a]) o.
Proof.
  destruct (join_contract [o] order) as (Hok & Hthrow & Hunm).
  destruct (join [o] order) as [l|e|w] eqn:Hj.
  - pose proof (proj1 (Hok l) eq_refl) as Hl.
    destruct l as [|a [|b l]]; try discriminate. injection Hl as ->. reflexivity.
  - destruct (Hthrow e eq_refl) as [Ho|[]]. subst o. reflexivity.
  - destruct (Hunm w eq_refl) as [Ho|[]]. subst o. reflexivity.
Qed.

(** The three outcomes of a join, each with its witness among the tasks. *)
Lemma join_cases (outs : list (res E A)) order :
  (exists l, outs = map Ok l /\ join outs order = Ok l) \/
  (exists e, In (Throw e) outs /\ join outs order = Throw e) \/
  (exists w, In (Unmodelled w) outs /\ join outs order = Unmodelled w).
Proof.
  destruct (join_contract outs order) as (Hok & Hthrow & Hunm).
  destruct (join outs order) as [l|e|w] eqn:Hj; eauto 6.
  left. exists l. split; [apply Hok|]; reflexivity.
Qed.

End JoinLaws.

(** A complete run over two tasks that settle in reverse order. *)
Lemma sample_run :
  pstar [@Ok nat nat 5; Throw 7] (pinit [@Ok nat nat 5; Throw 7])
        (mk_pstate [] [1; 0]%nat (Some (Throw 7))).
Proof.
  eapply pstar_step; [apply (pstep_settle _ [] 0 [1]%nat [] None)|].
  eapply pstar_step; [apply (pstep_settle _ [] 1 [] [0]%nat _)|]. apply pstar_refl.
Qed.

Lemma pstep_refines_witness :
  let outs := [@Ok nat nat 5; Throw 7] in
  let st := mk_pstate [] [1; 0]%nat (Some (Throw 7)) in
  pstar outs (pinit outs) st /\ pending st = [] /\
  Permutation (rev (settled st)) (seq 0 (length outs)) /\
  presult outs st = promise_all outs (rev (settled st)).
Proof.
  intros outs st.
  pose proof sample_run as Hrun.
  split; [exact Hrun|]. split; [reflexivity|]. apply pstep_refines; [exact Hrun | reflexivity].
Defined.

Lemma pstep_complete_witness :
  exists st, pstar [@Ok nat nat 5; Throw 7] (pinit [@Ok nat nat 5; Throw 7]) st /\
             pending st = [] /\ rev (settled st) = [1; 0]%nat.
Proof. apply pstep_complete. simpl. apply perm_swap. Defined.

Lemma promise_all_deterministic_witness :
  promise_all [@Ok nat nat 5; Throw 7] [1; 0]%nat = all_ok [@Ok nat nat 5; Throw 7] /\
  promise_all [@Ok nat nat 5; Throw 7] [1; 0]%nat = Throw 7.
Proof.
  split; [|reflexivity]. apply promise_all_deterministic; [|simpl; apply perm_swap].
  intros i j oi oj Hi Hj Fi Fj.
  destruct i as [|[|i]]; [injection Hi as <-; discriminate | | destruct i; discriminate].
  destruct j as [|[|j]]; [injection Hj as <-; discriminate | reflexivity | destruct j; discriminate].
Defined.

(** With two failing tasks the result depends on the interleaving:
    [Promise.all] reports whichever failure settles first. *)
Example promise_all_order_matters :
  promise_all [@Throw nat nat 1; Throw 2] [0; 1]%nat = Throw 1 /\
  promise_all [@Throw nat nat 1; Throw 2] [1; 0]%nat = Throw 2.
Proof. split; reflexivity. Qed.

Lemma pstep_invariant_witness :
  let outs := [@Ok nat nat 5; Throw 7] in
  let st := mk_pstate [] [1; 0]%nat (Some (Throw 7)) in
  pstar outs (pinit outs) st /\
  verdict st = first_failure outs (rev (settled st)).
Proof.
  intros outs st.
  pose proof sample_run as Hrun.
  split; [exact Hrun|]. exact (proj1 (proj2 (pstep_invariant outs st Hrun))).
Defined.
