(* ===== verification/Fetcher.v ===== *)
(** * getTransactionById (index.ts lines 4 and 51-105)

    The function in four stages, each a definition here:
    - [normalize_ids] (line 56): split on commas, keep the pieces whose
      [trim()] is not empty; the kept pieces are NOT trimmed;
    - the request events (lines 62-67): one [axios.post(API_URL,
      JSON.stringify({ value: txId }))] per id ([JsonBody.request_body]),
      all issued in input order before any response is awaited;
    - [fetch_tx] (lines 60-95): the continuation of one request, from
      axios's outcome to a record, [null], or a thrown exception;
    - [getTransactionById] (lines 59, 96-104): the join of the per-id
      outcomes.  The requests run concurrently, so which rejection
      [Promise.all] reports depends on the order in which the requests
      settle: that order is an explicit argument ([order], a permutation
      of the indices), and the theorems quantify over it.  The join is
      taken through the interface [PromiseAll.Join], whose instance is
      [Promise.all]; the theorems of [FetchProperties] hold for every
      join that meets the contract, and the ones after the sections (the
      witnesses, the timing example) use [Promise.all] itself.

    The network is the section variable [post]: what axios resolves or
    rejects with for a request (URL and body).  The local time zone is
    the section variable [local_tza] of [DateFormat].  The console is
    recorded as a list of events. *)

From Stdlib Require Import String ZArith List Lia Bool Permutation.
From S2P Require Import Prelude JsString Ellipsify JsValue DateFormat BigDecimal PromiseAll JsonBody Axios.
Import ListNotations.
Open Scope Z_scope.
Open Scope res_scope.

(** Line 4. *)
Definition API_URL : jsstr := js "https://api.trongrid.io/wallet/gettransactionbyid"%string.

(** ** Line 56: the ids *)

Definition is_blank (tx : jsstr) : bool :=
  match js_trim tx with [] => true | _ => false end.

Definition normalize_ids (transactionId : jsstr) : list jsstr :=
  filter (fun tx => negb (is_blank tx)) (split_on comma transactionId).

(** ** Lines 62-67: the request

    The body is [JsonBody.request_body]; what [axios.post] settles with
    is an [Axios.axios_result], and [Axios.axios_settle] says which one
    an HTTP response gives. *)

(** ** Lines 60-95: one transaction *)

Definition key_Error : key := KName (js "Error"%string).
Definition key_raw_data : key := KName (js "raw_data"%string).
Definition key_contract : key := KName (js "contract"%string).
Definition key_parameter : key := KName (js "parameter"%string).
Definition key_value : key := KName (js "value"%string).
Definition key_amount : key := KName (js "amount"%string).
Definition key_owner_address : key := KName (js "owner_address"%string).
Definition key_to_address : key := KName (js "to_address"%string).
Definition key_txID : key := KName (js "txID"%string).
Definition key_timestamp : key := KName (js "timestamp"%string).

(** Line 80: [data?.raw_data?.contract[0]?.parameter?.value]; each [?.]
    short-circuits the rest of the chain, the plain [contract[0]] throws
    on undefined. *)
Definition contract_value (data : jsval) : res exn jsval :=
  if is_nullish data then Ok JUndefined else
  let* raw := get_prop data key_raw_data in
  if is_nullish raw then Ok JUndefined else
  let* contract := get_prop raw key_contract in
  let* c0 := get_prop contract (KIndex 0) in
  if is_nullish c0 then Ok JUndefined else
  let* param := get_prop c0 key_parameter in
  if is_nullish param then Ok JUndefined else
  get_prop param key_value.

(** Lines 76-80: [const { amount, owner_address, to_address } = ...]. *)
Definition destructure_value (v : jsval) : res exn (jsval * jsval * jsval) :=
  if is_nullish v then Throw (JsTypeError DestructureNullish) else
  let* amount := get_prop v key_amount in
  let* owner := get_prop v key_owner_address in
  let* to := get_prop v key_to_address in
  Ok (amount, owner, to).

(** Line 84: [ellipsify(data.txID)] on whatever [txID] holds: strings
    are shortened, arrays go through [Array.prototype.slice] and print
    joined by commas in the template literal, the other values have no
    [slice] method ([undefined] and [null] already fail on [.length]). *)
Definition ellipsify_value (v : jsval) : res exn jsstr :=
  match v with
  | JString s => Ok (ellipsify s None)
  | JArray xs =>
      let len := Z.of_nat (length xs) in
      let p := effective_pad len None in
      Ok (to_js_string (JArray (js_slice xs 0 p)) ++ dots
          ++ to_js_string (JArray (js_slice xs (len - p) len)))
  | JUndefined | JNull => Throw (JsTypeError (ReadOfNullish (KName length_key)))
  | JBool _ | JNumber _ | JObject _ => Throw (JsTypeError (NotAFunction (js "slice"%string)))
  end.

(** The record of lines 83-92. *)
Record tx_record : Type := mk_tx_record {
  HASH : jsstr;
  From_Address : jsval;
  To_Address : jsval;
  Amount : jsval;
  Amount_no_decimals : option jsstr;
  Time_of_Transaction : jsstr }.

(** [options?: { includeNoDecimalAmount?: boolean; log?: boolean }]; an
    absent option or field is [false]. *)
Record options : Type := mk_options {
  includeNoDecimalAmount : bool;
  log : bool }.

Definition no_options : options := mk_options false false.

Section Fetch.

Context `{J : Join}.
Variable post : jsstr -> jsstr -> axios_result.
Variable local_tza : Z -> Z.

(** The async callback of lines 60-95 for one id; [n_ids] is
    [transactions.length]; [Ok None] is the [null] of line 73. *)
Definition fetch_tx (n_ids : nat) (opts : options) (txId : jsstr) : res exn (option tx_record) :=
  match post API_URL (request_body txId) with
  | AxRejected message => Throw (AxiosError message)
  | AxResolved data =>
      let* err := get_prop data key_Error in
      if truthy err then
        if (n_ids <=? 1)%nat then Throw (JsError (to_js_string err)) else Ok None
      else
      let* v := contract_value data in
      let* '(amount, owner, to) := destructure_value v in
      let* txid := get_prop data key_txID in
      let* hash := ellipsify_value txid in
      let* nodec := amount_no_decimals (includeNoDecimalAmount opts) amount in
      let* raw := get_prop data key_raw_data in
      let* ts := get_prop raw key_timestamp in
      let* time := formatDate local_tza ts in
      Ok (Some (mk_tx_record hash owner to amount nodec time))
  end.

(** ** Lines 51-105: the whole function *)

(** What the function prints or sends, in order. *)
Inductive event : Type :=
| Request (url body : jsstr)                  (** [axios.post], line 62 *)
| LogTable (rows : list (option tx_record))   (** [console.table], line 98 *)
| LogError (e : exn).                         (** [console.log], line 102 *)

(** The value of [data]: [txsData[0]] (possibly undefined) or the array. *)
Inductive tx_data : Type :=
| DataUndefined
| DataOne (r : option tx_record)
| DataMany (rs : list (option tx_record)).

(** [{ data }], [{ error }] (with [e.message], see [exn_message]), or a
    behaviour outside the model. *)
Inductive response : Type :=
| RData (d : tx_data)
| RError (e : exn)
| RUnmodelled (what : string).

(** Line 100: [txsData.length <= 1 ? txsData[0] : txsData]. *)
Definition data_of (txsData : list (option tx_record)) : tx_data :=
  if (length txsData <=? 1)%nat then
    match txsData with [] => DataUndefined | x :: _ => DataOne x end
  else DataMany txsData.

Definition request_of (txId : jsstr) : event := Request API_URL (request_body txId).

(** [getTransactionById(transactionId, options)] when the requests
    settle in the order [order]. *)
Definition getTransactionById (transactionId : jsstr) (opts : options) (order : list nat)
  : response * list event :=
  let transactions := normalize_ids transactionId in
  let requests := map request_of transactions in
  let txs := map (fetch_tx (length transactions) opts) transactions in
  match join txs order with
  | Ok txsData =>
      (RData (data_of txsData), requests ++ (if log opts then [LogTable txsData] else []))
  | Throw e => (RError e, requests ++ (if log opts then [LogError e] else []))
  | Unmodelled w => (RUnmodelled w, requests)
  end.

End Fetch.

(** ** The response of a well-formed lookup

    The JSON TronGrid returns for a transfer, reduced to the fields the
    code reads. *)
Definition tron_tx_json (txid owner to : jsstr) (amount ts : Z) : jsval :=
  JObject
    [(js "txID", JString txid);
     (js "raw_data",
      JObject
        [(js "contract",
          JArray [JObject [(js "parameter",
                            JObject [(js "value",
                                      JObject [(js "amount", JNumber amount);
                                               (js "owner_address", JString owner);
                                               (js "to_address", JString to)])])]]);
         (js "timestamp", JNumber ts)])]%string.

(** ** Lemmas *)

(** The ids of a comma-joined list of comma-free pieces. *)
Lemma normalize_ids_pieces ps :
  ps <> [] -> Forall (fun p => ~ In comma p) ps ->
  normalize_ids (join_with comma ps) =
  filter (fun p => negb (forallb is_js_whitespace p)) ps.
Proof.
  intros Hne Hf. unfold normalize_ids. rewrite split_join_pieces by assumption.
  apply filter_ext. intros p. f_equal. unfold is_blank.
  destruct (js_trim p) eqn:E.
  - symmetry. apply js_trim_empty_iff. exact E.
  - symmetry. apply not_true_is_false. rewrite <- js_trim_empty_iff, E. discriminate.
Qed.

Section FetchLemmas.

Context `{J : Join}.
Variable post : jsstr -> jsstr -> axios_result.
Variable local_tza : Z -> Z.

Lemma fetch_tx_Ok_None n opts tx :
  fetch_tx post local_tza n opts tx = Ok None -> (2 <= n)%nat.
Proof.
  unfold fetch_tx. destruct (post API_URL (request_body tx)) as [data|m]; [|discriminate].
  destruct (get_prop data key_Error) as [err|e|w]; simpl; try discriminate.
  destruct (truthy err).
  - destruct (Nat.leb_spec n 1); [discriminate | lia].
  - intros H. res_inv. destruct a0 as [[amount owner] to]. res_inv. discriminate.
Qed.

Lemma getTransactionById_fst s opts order :
  fst (getTransactionById post local_tza s opts order) =
  match join (map (fetch_tx post local_tza (length (normalize_ids s)) opts)
                 (normalize_ids s)) order with
  | Ok txsData => RData (data_of txsData)
  | Throw e => RError e
  | Unmodelled w => RUnmodelled w
  end.
Proof.
  unfold getTransactionById. cbv zeta.
  destruct (join _ order); reflexivity.
Qed.

End FetchLemmas.

(** ** Properties *)

Section FetchProperties.

Context `{J : Join}.
Variable post : jsstr -> jsstr -> axios_result.
Variable local_tza : Z -> Z.

(** C1: one id in, one record out: when the input holds a single id,
    [data] is that id's record itself, not an array, whatever the
    settlement order; a provider error cannot become [null] there; and
    every failure of the lookup becomes [{ error }]. *)
Theorem getTransactionById_single s opts order tx :
  normalize_ids s = [tx] ->
  fetch_tx post local_tza 1 opts tx <> Ok None /\
  fst (getTransactionById post local_tza s opts order) =
  match fetch_tx post local_tza 1 opts tx with
  | Ok x => RData (DataOne x)
  | Throw e => RError e
  | Unmodelled w => RUnmodelled w
  end.
Proof.
  intros Hids. split; [intros H; apply fetch_tx_Ok_None in H; lia|].
  rewrite getTransactionById_fst, Hids. simpl map. rewrite join_single.
  destruct (fetch_tx post local_tza 1 opts tx); reflexivity.
Qed.

(** C2: with two ids or more, when every lookup settles without an
    exception, [data] is an array with one entry per id, in input order,
    whatever order the responses arrive in. *)
Theorem getTransactionById_many s opts order rs :
  (2 <= length (normalize_ids s))%nat ->
  map (fetch_tx post local_tza (length (normalize_ids s)) opts) (normalize_ids s) = map Ok rs ->
  fst (getTransactionById post local_tza s opts order) = RData (DataMany rs) /\
  length rs = length (normalize_ids s).
Proof.
  intros Hlen Hall.
  assert (Hl : length rs = length (normalize_ids s))
    by (apply (f_equal (@length _)) in Hall; rewrite !length_map in Hall; lia).
  split; [|exact Hl].
  rewrite getTransactionById_fst, Hall, join_map_Ok.
  unfold data_of. destruct (Nat.leb_spec (length rs) 1); [lia | reflexivity].
Qed.

Lemma getTransactionById_cases s opts order :
  let txs := map (fetch_tx post local_tza (length (normalize_ids s)) opts) (normalize_ids s) in
  (exists rs, txs = map Ok rs /\ fst (getTransactionById post local_tza s opts order) = RData (data_of rs)) \/
  (exists e, In (Throw e) txs /\ fst (getTransactionById post local_tza s opts order) = RError e) \/
  (exists w, In (Unmodelled w) txs /\ fst (getTransactionById post local_tza s opts order) = RUnmodelled w).
Proof.
  intros txs. rewrite getTransactionById_fst. fold txs.
  destruct (join_cases txs order) as [(l & Hl & ->)|[(e & He & ->)|(w & Hw & ->)]];
    [left | right; left | right; right]; eauto.
Qed.

(** C3: [data] and [error] exclude each other and cover the outcomes:
    the result is [{ data }] exactly when every lookup settles without
    an exception (with the records in input order), and otherwise it is
    [{ error }] carrying the exception of one of the lookups. *)
Theorem getTransactionById_outcome s opts order :
  let txs := map (fetch_tx post local_tza (length (normalize_ids s)) opts) (normalize_ids s) in
  (exists rs, txs = map Ok rs /\ fst (getTransactionById post local_tza s opts order) = RData (data_of rs)) \/
  (exists e, In (Throw e) txs /\ fst (getTransactionById post local_tza s opts order) = RError e) \/
  (exists w, In (Unmodelled w) txs /\ fst (getTransactionById post local_tza s opts order) = RUnmodelled w).
Proof. apply getTransactionById_cases. Qed.

(** C4: a provider error (a truthy [Error] field) fails the whole call
    when it is the only id, with the text of [Error] as message, and
    becomes a [null] entry when there are several ids. *)
Theorem fetch_tx_provider_error n opts tx data err :
  post API_URL (request_body tx) = AxResolved data ->
  get_prop data key_Error = Ok err -> truthy err = true ->
  fetch_tx post local_tza n opts tx =
  (if (n <=? 1)%nat then Throw (JsError (to_js_string err)) else Ok None).
Proof. intros Hpost Herr Ht. unfold fetch_tx. rewrite Hpost, Herr. simpl. rewrite Ht. reflexivity. Qed.

(** C7: an input with no non-blank piece (the empty string, or only
    commas and white space) returns [{ data: undefined }]: neither
    [data] nor [error], which the spec's section 7 rules out. *)
Theorem getTransactionById_no_ids s opts order :
  normalize_ids s = [] ->
  getTransactionById post local_tza s opts order =
  (RData DataUndefined, if log opts then [LogTable []] else []).
Proof.
  intros H. unfold getTransactionById. rewrite H. simpl map. rewrite join_nil. reflexivity.
Qed.

(** C8: the ids are the non-blank comma-separated pieces of the input,
    in input order and NOT trimmed (the spec says each piece is
    trimmed; line 56 only trims to test for emptiness). *)
Theorem normalize_ids_join ps :
  ps <> [] -> Forall (fun p => ~ In comma p) ps ->
  normalize_ids (join_with comma ps) =
  filter (fun p => negb (forallb is_js_whitespace p)) ps.
Proof. apply normalize_ids_pieces. Qed.

(** C9: the requests: before anything is logged, one POST of
    [{"value":"<id>"}] to [API_URL] is issued per id, in input order; the
    only other event is the [console.table] of the rows or the
    [console.log] of the error, when [log] is set. *)
Theorem getTransactionById_trace s opts order :
  exists tail,
    snd (getTransactionById post local_tza s opts order) = map request_of (normalize_ids s) ++ tail /\
    (log opts = false -> tail = []) /\
    (forall e, fst (getTransactionById post local_tza s opts order) = RError e ->
               tail = if log opts then [LogError e] else []) /\
    (forall d, fst (getTransactionById post local_tza s opts order) = RData d ->
               exists rows, d = data_of rows /\ tail = if log opts then [LogTable rows] else []).
Proof.
  unfold getTransactionById. cbv zeta.
  destruct (join _ order) as [rows|e|w]; simpl fst; simpl snd.
  - eexists. split; [reflexivity|]. split; [intros ->; reflexivity|].
    split; [discriminate|]. intros d Hd. injection Hd as <-. eauto.
  - eexists. split; [reflexivity|]. split; [intros ->; reflexivity|].
    split; [intros e' He; injection He as <-; reflexivity | discriminate].
  - exists []. rewrite app_nil_r. split; [reflexivity|]. split; [reflexivity|].
    split; discriminate.
Qed.

(** C10: on a well-formed response, the record holds the shortened
    hash, the two addresses and the amount as given, the amount divided
    by 10^6 only when [includeNoDecimalAmount] is set (bignumber.js
    reads the number as [String(amount)], exact below 2^53), and the
    formatted date of the timestamp. *)
Theorem fetch_tx_wellformed n opts tx txid owner to amount ts :
  post API_URL (request_body tx) = AxResolved (tron_tx_json txid owner to amount ts) ->
  fetch_tx post local_tza n opts tx =
  Ok (Some (mk_tx_record (ellipsify txid None) (JString owner) (JString to) (JNumber amount)
              (if includeNoDecimalAmount opts then Some (bn_to_string (BDec (number_string_value amount) 6)) else None)
              (format_time_value local_tza (time_clip ts)))).
Proof.
  intros Hpost. unfold fetch_tx. rewrite Hpost.
  destruct (includeNoDecimalAmount opts);
    cbv -[ellipsify bn_to_string number_string_value format_time_value time_clip]; reflexivity.
Qed.

(** One lookup that throws fails the whole call, whatever the order. *)
Lemma throw_fails_call s opts order tx e :
  In tx (normalize_ids s) ->
  fetch_tx post local_tza (length (normalize_ids s)) opts tx = Throw e ->
  forall d, fst (getTransactionById post local_tza s opts order) <> RData d.
Proof.
  intros Hin Hf d Hd.
  destruct (getTransactionById_cases s opts order) as [[rs [Hrs _]]|[[e' [_ He]]|[w [_ Hw]]]];
    [|congruence|congruence].
  assert (Hin' : In (Throw e) (map (fetch_tx post local_tza (length (normalize_ids s)) opts)
                                   (normalize_ids s)))
    by (rewrite <- Hf; apply in_map; exact Hin).
  rewrite Hrs in Hin'. apply in_map_iff in Hin'. destruct Hin' as [x [Hx _]]. discriminate.
Qed.

(** C5: a response without [raw_data] (TronGrid answers [{}] for an id
    it does not know) is not a provider error: destructuring fails with a
    TypeError, which rejects [Promise.all], so one unknown id fails the
    whole batch instead of becoming a [null] entry. *)
Theorem getTransactionById_unknown_id_fails_batch s opts order tx :
  In tx (normalize_ids s) -> post API_URL (request_body tx) = AxResolved (JObject []) ->
  fetch_tx post local_tza (length (normalize_ids s)) opts tx = Throw (JsTypeError DestructureNullish) /\
  forall d, fst (getTransactionById post local_tza s opts order) <> RData d.
Proof.
  intros Hin Hpost.
  assert (Hf : fetch_tx post local_tza (length (normalize_ids s)) opts tx =
               Throw (JsTypeError DestructureNullish)) by (unfold fetch_tx; rewrite Hpost; reflexivity).
  split; [exact Hf | exact (throw_fails_call s opts order tx _ Hin Hf)].
Qed.

(** C6: a transport failure of one request ([axios.post] rejects)
    fails the whole call, also in a batch, where the spec (section 7)
    says it fails only that item. *)
Theorem getTransactionById_network_failure_fails_batch s opts order tx m :
  In tx (normalize_ids s) -> post API_URL (request_body tx) = AxRejected m ->
  fetch_tx post local_tza (length (normalize_ids s)) opts tx = Throw (AxiosError m) /\
  forall d, fst (getTransactionById post local_tza s opts order) <> RData d.
Proof.
  intros Hin Hpost.
  assert (Hf : fetch_tx post local_tza (length (normalize_ids s)) opts tx = Throw (AxiosError m))
    by (unfold fetch_tx; rewrite Hpost; reflexivity).
  split; [exact Hf | exact (throw_fails_call s opts order tx _ Hin Hf)].
Qed.

End FetchProperties.

(** ** A concrete network, for the witnesses *)

Definition utc : Z -> Z := fun _ => 0.

Definition sample_txid : jsstr :=
  js "7c2d4ab0d9a1bd5e9b6aee0fb1c86e3b2f6c4f1e09c9d77b71a0e2a4c5b8d3f1"%string.
Definition sample_owner : jsstr := js "41a614f803b6fd780986a42c78ec9c7f77e6ded13c"%string.
Definition sample_to : jsstr := js "41e9d79cc47518930bc322d9bf7cddd260a0260a8d"%string.

(** [tx1] is a transfer of 1 TRX (10^6 sun) on 2021-09-18, [tx2] is
    unknown to the provider, [tx3] and [tx4] fail in transport, and every
    other id is rejected by the provider. *)
Definition sample_post (url body : jsstr) : axios_result :=
  if list_eq_dec Z.eq_dec body (request_body (js "tx1"%string)) then
    AxResolved (tron_tx_json sample_txid sample_owner sample_to 1000000 1631923200000)
  else if list_eq_dec Z.eq_dec body (request_body (js "tx2"%string)) then AxResolved (JObject [])
  else if list_eq_dec Z.eq_dec body (request_body (js "tx3"%string)) then
    AxRejected (js "Network Error"%string)
  else if list_eq_dec Z.eq_dec body (request_body (js "tx4"%string)) then
    AxRejected (js "timeout of 0ms exceeded"%string)
  else AxResolved (JObject [(js "Error", JString (js "invalid transaction id"))]%string).

Definition sample_record : tx_record :=
  mk_tx_record (ellipsify sample_txid None) (JString sample_owner) (JString sample_to)
               (JNumber 1000000) None (js "Sat, Sept 18, 2021"%string).

Lemma getTransactionById_single_witness :
  fetch_tx sample_post utc 1 no_options (js "tx1"%string) <> Ok None /\
  fst (getTransactionById sample_post utc (js "tx1"%string) no_options [0%nat]) =
  match fetch_tx sample_post utc 1 no_options (js "tx1"%string) with
  | Ok x => RData (DataOne x)
  | Throw e => RError e
  | Unmodelled w => RUnmodelled w
  end.
Proof. apply getTransactionById_single. vm_compute. reflexivity. Defined.

Lemma getTransactionById_many_witness :
  fst (getTransactionById sample_post utc (js "tx1,bad"%string) no_options [1; 0]%nat) =
  RData (DataMany [Some sample_record; None]) /\
  length [Some sample_record; None] = length (normalize_ids (js "tx1,bad"%string)).
Proof. apply getTransactionById_many; vm_compute; [lia | reflexivity]. Defined.

Lemma fetch_tx_provider_error_witness :
  fetch_tx sample_post utc 2 no_options (js "bad"%string) =
  (if (2 <=? 1)%nat then Throw (JsError (to_js_string (JString (js "invalid transaction id"%string))))
   else Ok None).
Proof.
  apply (fetch_tx_provider_error _ _ _ _ _ (JObject [(js "Error", JString (js "invalid transaction id"))]%string));
    vm_compute; reflexivity.
Defined.

Lemma getTransactionById_no_ids_witness :
  getTransactionById sample_post utc (js ", ,"%string) no_options [] =
  (RData DataUndefined, if log no_options then [LogTable []] else []).
Proof. apply getTransactionById_no_ids. vm_compute. reflexivity. Defined.

Lemma normalize_ids_join_witness :
  normalize_ids (join_with comma [js " a"; js ""; js "b "]%string) =
  filter (fun p => negb (forallb is_js_whitespace p)) [js " a"; js ""; js "b "]%string /\
  normalize_ids (js " a,,b "%string) = [js " a"; js "b "]%string.
Proof.
  split; [|vm_compute; reflexivity].
  apply normalize_ids_join; [discriminate|].
  repeat constructor; vm_compute; intuition discriminate.
Defined.

Lemma fetch_tx_wellformed_witness :
  fetch_tx sample_post utc 2 no_options (js "tx1"%string) =
  Ok (Some (mk_tx_record (ellipsify sample_txid None) (JString sample_owner) (JString sample_to)
              (JNumber 1000000)
              (if includeNoDecimalAmount no_options then Some (bn_to_string (BDec (number_string_value 1000000) 6)) else None)
              (format_time_value utc (time_clip 1631923200000)))).
Proof. apply fetch_tx_wellformed. vm_compute. reflexivity. Defined.

Lemma getTransactionById_network_failure_fails_batch_witness :
  fetch_tx sample_post utc (length (normalize_ids (js "tx1,tx3"%string))) no_options (js "tx3"%string) =
  Throw (AxiosError (js "Network Error"%string)) /\
  forall d, fst (getTransactionById sample_post utc (js "tx1,tx3"%string) no_options [0; 1]%nat) <> RData d.
Proof. apply getTransactionById_network_failure_fails_batch; vm_compute; [right; left | ]; reflexivity. Defined.

Lemma getTransactionById_unknown_id_fails_batch_witness :
  fetch_tx sample_post utc (length (normalize_ids (js "tx1,tx2"%string))) no_options (js "tx2"%string) =
  Throw (JsTypeError DestructureNullish) /\
  forall d, fst (getTransactionById sample_post utc (js "tx1,tx2"%string) no_options [0; 1]%nat) <> RData d.
Proof. apply getTransactionById_unknown_id_fails_batch; vm_compute; [right; left | ]; reflexivity. Defined.

(** C11: which error is reported: whatever the input and the network,
    when the requests settle in the order [pre ++ i :: rest], the
    lookups of [pre] fulfil and the lookup [i] throws [e], the call
    returns [{ error }] with [e]: [Promise.all] reports the first
    rejection in time, not the first in input order.  So two ids whose
    requests fail with different errors give different results under
    different timings. *)
Theorem getTransactionById_error_depends_on_timing post local_tza s opts pre i rest e :
  let txs := map (fetch_tx post local_tza (length (normalize_ids s)) opts) (normalize_ids s) in
  Forall (fun k => exists a, nth_error txs k = Some (Ok a)) pre ->
  nth_error txs i = Some (Throw e) ->
  fst (getTransactionById (J := promise_all_join) post local_tza s opts (pre ++ i :: rest)) = RError e.
Proof.
  intros txs Hpre Hi. rewrite getTransactionById_fst. fold txs.
  change (join txs (pre ++ i :: rest)) with (promise_all txs (pre ++ i :: rest)).
  rewrite (promise_all_first_failure txs pre i rest e Hpre Hi). reflexivity.
Qed.

(** The two orders of two failing requests give the two errors. *)
Lemma getTransactionById_error_depends_on_timing_witness :
  fst (getTransactionById sample_post utc (js "tx3,tx4"%string) no_options [0; 1]%nat) =
  RError (AxiosError (js "Network Error"%string)) /\
  fst (getTransactionById sample_post utc (js "tx3,tx4"%string) no_options [1; 0]%nat) =
  RError (AxiosError (js "timeout of 0ms exceeded"%string)).
Proof.
  split.
  - apply (getTransactionById_error_depends_on_timing sample_post utc (js "tx3,tx4"%string) no_options [] 0 [1%nat]);
      [constructor | vm_compute; reflexivity].
  - apply (getTransactionById_error_depends_on_timing sample_post utc (js "tx3,tx4"%string) no_options [] 1 [0%nat]);
      [constructor | vm_compute; reflexivity].
Defined.

(** An input with commas but a single non-blank piece is one id: [data]
    is the record itself, not a sequence of one (spec section 8 expects
    a sequence for every comma-separated input). *)
Example comma_input_single_record :
  fst (getTransactionById sample_post utc (js "tx1,"%string) no_options [0%nat]) =
  RData (DataOne (Some sample_record)).
Proof. vm_compute. reflexivity. Qed.

(** A truthy [Error] whose string form is empty (an empty array) makes a
    single-id call fail with the empty message (spec section 8 expects a
    non-empty error string). *)
Example provider_error_empty_message :
  fetch_tx (fun _ _ => AxResolved (JObject [(js "Error"%string, JArray [])])) utc 1 no_options
           (js "tx"%string) = Throw (JsError []) /\
  exn_message (JsError []) = Some [].
Proof. split; reflexivity. Qed.
