(* ===== verification/Transport.v ===== *)
(** * getTransactionById over HTTP (index.ts lines 60-95 with axios)

    [Fetcher] takes what [axios.post] settles with as the oracle [post];
    here that oracle is tied to the HTTP response [r] TronGrid sends for
    one request by [answered_by tx r], that is
    [axios_settle r = Some (post API_URL (request_body tx))]
    ([Axios.axios_settle]: axios's status rule and its JSON decoding).
    The theorems follow one request from the status line and the body
    text to the value of [getTransactionById]:
    - a status outside [200, 300) (other than 0, which axios resolves)
      is an AxiosError whose message names the status, and it fails
      the whole call, also in a batch;
    - a 2xx body that is not JSON reaches the code as a string, whose
      destructuring throws a TypeError, and fails the whole call;
    - a 2xx body holding the JSON text of a transfer gives its record. *)

From Stdlib Require Import String ZArith List Lia Bool.
From S2P Require Import Prelude JsString Ellipsify JsValue DateFormat BigDecimal JsonBody Axios PromiseAll Fetcher.
Import ListNotations.
Open Scope Z_scope.

(** The conditions under which [tron_tx_json] can be written as JSON
    text, and what [JSON.parse] reads back from that text. *)
Lemma tron_tx_json_readable txid owner to amount ts :
  forallb is_code_unit (txid ++ owner ++ to) = true ->
  Z.abs amount < 2 ^ 1023 -> Z.abs ts < 2 ^ 1023 ->
  json_readable (tron_tx_json txid owner to amount ts) = true.
Proof.
  intros Hs Ha Ht. rewrite !forallb_app in Hs.
  apply andb_true_iff in Hs as [Hi Hs]. apply andb_true_iff in Hs as [Ho Hto].
  apply Z.ltb_lt in Ha, Ht. simpl in Ha, Ht |- *. rewrite Hi, Ho, Hto, Ha, Ht. reflexivity.
Qed.

Lemma json_round_tron_tx_json txid owner to amount ts :
  json_round (tron_tx_json txid owner to amount ts) =
  tron_tx_json txid owner to (round_double amount) (round_double ts).
Proof. reflexivity. Qed.

Section Transport.

Context `{J : Join}.
Variable post : jsstr -> jsstr -> axios_result.
Variable local_tza : Z -> Z.

(** Lines 62-67, [const { data } = await axios.post(API_URL, body)]:
    the request for [tx] settles as axios settles the HTTP response
    [r]. *)
Definition answered_by (tx : jsstr) (r : http_response) : Prop :=
  axios_settle r = Some (post API_URL (request_body tx)).

(** The lookup of an id whose request failed in axios throws the
    AxiosError. *)
Lemma fetch_tx_rejected n opts tx m :
  post API_URL (request_body tx) = AxRejected m -> fetch_tx post local_tza n opts tx = Throw (AxiosError m).
Proof. intros Hpost. unfold fetch_tx. rewrite Hpost. reflexivity. Qed.

(** A thrown lookup of the only id is the call's [{ error }]. *)
Lemma getTransactionById_single_throw s opts order tx e :
  normalize_ids s = [tx] -> fetch_tx post local_tza 1 opts tx = Throw e ->
  fst (getTransactionById post local_tza s opts order) = RError e.
Proof.
  intros Hids Hf. rewrite getTransactionById_fst, Hids. simpl map.
  rewrite join_single, Hf. reflexivity.
Qed.

(** C12: a response whose status is outside [200, 300) (a 404, a 429
    rate limit, a 5xx; not 0, which axios resolves) makes axios reject
    with "Request failed with status code N"; the lookup throws that AxiosError, no result is
    [{ data }] whatever the other ids and the settlement order, and for
    a single id the call returns [{ error }] with that message. *)
Theorem getTransactionById_http_status s opts order tx r :
  In tx (normalize_ids s) ->
  answered_by tx r ->
  status r <> 0 -> status r < 200 \/ 300 <= status r ->
  fetch_tx post local_tza (length (normalize_ids s)) opts tx =
    Throw (AxiosError (status_message ++ Z_to_dec (status r))) /\
  (forall d, fst (getTransactionById post local_tza s opts order) <> RData d) /\
  (normalize_ids s = [tx] ->
   fst (getTransactionById post local_tza s opts order) =
   RError (AxiosError (status_message ++ Z_to_dec (status r)))).
Proof.
  intros Hin Hr H0 Hs. unfold answered_by in Hr. rewrite axios_settle_status in Hr by assumption. injection Hr as Hpost.
  pose proof (fun n => fetch_tx_rejected n opts tx _ (eq_sym Hpost)) as Hf.
  split; [apply Hf | split; [exact (throw_fails_call post local_tza s opts order tx _ Hin (Hf _)) |]].
  intros Hids. exact (getTransactionById_single_throw s opts order tx _ Hids (Hf 1%nat)).
Qed.

(** C13: a 2xx response whose body is not JSON (an HTML page from a
    proxy, a truncated body) reaches the code as the string itself
    (axios's silent JSON parsing); a string has no [Error] and no
    [raw_data], so the destructuring of line 76 throws a TypeError and
    the whole call fails. *)
Theorem getTransactionById_http_not_json s opts order tx r :
  In tx (normalize_ids s) ->
  answered_by tx r ->
  200 <= status r < 300 -> json_parse (body r) = JsonSyntaxError ->
  fetch_tx post local_tza (length (normalize_ids s)) opts tx = Throw (JsTypeError DestructureNullish) /\
  forall d, fst (getTransactionById post local_tza s opts order) <> RData d.
Proof.
  intros Hin Hr Hs Hb. unfold answered_by in Hr. rewrite axios_settle_text in Hr by assumption. injection Hr as Hpost.
  assert (Hf : fetch_tx post local_tza (length (normalize_ids s)) opts tx =
               Throw (JsTypeError DestructureNullish))
    by (unfold fetch_tx; rewrite <- Hpost; reflexivity).
  split; [exact Hf | exact (throw_fails_call post local_tza s opts order tx _ Hin Hf)].
Qed.

(** C14: end to end, a single id whose request is answered with a 2xx
    status and the JSON text of a transfer (addresses and id of code
    units, amount and timestamp below 2^1023) returns [{ data }] with
    its record: the shortened hash, the addresses, the amount, the
    amount over 10^6 when asked for, and the formatted date, where the
    amount and the timestamp are the doubles [JSON.parse] makes of the
    integers of the text (exact below 2^53, rounded above: the int64
    amounts TronGrid can send lose their last digits before the code
    sees them). *)
Theorem getTransactionById_http_record s opts order tx r txid owner to amount ts :
  normalize_ids s = [tx] ->
  answered_by tx r ->
  200 <= status r < 300 -> body r = json_print (tron_tx_json txid owner to amount ts) ->
  forallb is_code_unit (txid ++ owner ++ to) = true -> Z.abs amount < 2 ^ 1023 -> Z.abs ts < 2 ^ 1023 ->
  fst (getTransactionById post local_tza s opts order) =
  RData (DataOne (Some (mk_tx_record (ellipsify txid None) (JString owner) (JString to)
           (JNumber (round_double amount))
           (if includeNoDecimalAmount opts then Some (bn_to_string (BDec (number_string_value (round_double amount)) 6)) else None)
           (format_time_value local_tza (time_clip (round_double ts)))))).
Proof.
  intros Hids Hr Hs Hb Hstr Ha Ht. unfold answered_by in Hr.
  rewrite (axios_settle_json r (tron_tx_json txid owner to amount ts)) in Hr
    by (auto using tron_tx_json_readable).
  rewrite json_round_tron_tx_json in Hr. injection Hr as Hpost.
  rewrite getTransactionById_fst, Hids. simpl map. rewrite join_single.
  unfold fetch_tx. rewrite <- Hpost.
  destruct (includeNoDecimalAmount opts);
    cbv -[ellipsify bn_to_string number_string_value format_time_value time_clip round_double]; reflexivity.
Qed.

End Transport.

(** ** A concrete server, for the witnesses

    TronGrid's answer to each request body: a transfer for ["tx1"], a
    rate limit for ["tx2"], an HTML page from a proxy for ["tx3"], [{}]
    otherwise; [sample_axios] is what axios settles with for it. *)
Definition sample_server (url body : jsstr) : http_response :=
  if list_eq_dec Z.eq_dec body (request_body (js "tx1"%string)) then
    mk_http_response 200 (json_print (tron_tx_json sample_txid sample_owner sample_to 1000000 1631923200000))
  else if list_eq_dec Z.eq_dec body (request_body (js "tx2"%string)) then
    mk_http_response 429 (jtext "{'Error':'rate limit'}")
  else if list_eq_dec Z.eq_dec body (request_body (js "tx3"%string)) then
    mk_http_response 200 (js "<html>Service Unavailable</html>"%string)
  else mk_http_response 200 (js "{}"%string).

Definition sample_axios (url body : jsstr) : axios_result :=
  match axios_settle (sample_server url body) with Some a => a | None => AxRejected [] end.

Lemma getTransactionById_http_status_witness :
  fst (getTransactionById sample_axios utc (js "tx1,tx2"%string) no_options [1%nat; 0%nat]) <>
    RData (DataMany []) /\
  fst (getTransactionById sample_axios utc (js "tx2"%string) no_options [0%nat]) =
    RError (AxiosError (js "Request failed with status code 429"%string)).
Proof.
  assert (Hs : answered_by sample_axios (js "tx2"%string) (sample_server API_URL (request_body (js "tx2"%string))))
    by (vm_compute; reflexivity).
  split.
  - apply (proj1 (proj2 (getTransactionById_http_status sample_axios utc (js "tx1,tx2"%string) no_options [1%nat; 0%nat]
             (js "tx2"%string) _ ltac:(vm_compute; right; left; reflexivity) Hs ltac:(vm_compute; discriminate) ltac:(right; vm_compute; congruence)))).
  - rewrite (proj2 (proj2 (getTransactionById_http_status sample_axios utc (js "tx2"%string) no_options [0%nat]
             (js "tx2"%string) _ ltac:(vm_compute; left; reflexivity) Hs ltac:(vm_compute; discriminate) ltac:(right; vm_compute; congruence)))
             ltac:(vm_compute; reflexivity)).
    vm_compute. reflexivity.
Defined.

Lemma getTransactionById_http_not_json_witness :
  fetch_tx sample_axios utc 1 no_options (js "tx3"%string) = Throw (JsTypeError DestructureNullish).
Proof.
  apply (getTransactionById_http_not_json sample_axios utc (js "tx3"%string) no_options [0%nat]
           _ (sample_server API_URL (request_body (js "tx3"%string)))
           ltac:(vm_compute; left; reflexivity) ltac:(vm_compute; reflexivity)
           ltac:(vm_compute; split; congruence) ltac:(vm_compute; reflexivity)).
Defined.

Lemma getTransactionById_http_record_witness :
  fst (getTransactionById sample_axios utc (js "tx1"%string) (mk_options true false) [0%nat]) =
  RData (DataOne (Some (mk_tx_record (ellipsify sample_txid None) (JString sample_owner) (JString sample_to)
     (JNumber (round_double 1000000)) (Some (bn_to_string (BDec (number_string_value (round_double 1000000)) 6)))
     (format_time_value utc (time_clip (round_double 1631923200000)))))).
Proof.
  apply (getTransactionById_http_record sample_axios utc (js "tx1"%string) (mk_options true false) [0%nat]
           (js "tx1"%string) (sample_server API_URL (request_body (js "tx1"%string)))
           sample_txid sample_owner sample_to 1000000 1631923200000);
    vm_compute; first [reflexivity | split; congruence | congruence].
Defined.

(** The amount of a transfer above 2^53 sun is rounded by [JSON.parse]
    before the code sees it: the text 9007199254740993 becomes the
    number 9007199254740992. *)
Example http_amount_rounded :
  axios_settle (mk_http_response 200
     (json_print (tron_tx_json sample_txid sample_owner sample_to 9007199254740993 1631923200000))) =
  Some (AxResolved (tron_tx_json sample_txid sample_owner sample_to 9007199254740992 1631923200000)).
Proof. vm_compute. reflexivity. Qed.
