(* ===== verification/TestSuite.v ===== *)
(** * The test suite (src/test/index.test.ts)

    The three Jest tests call [getTransactionById] against the live
    TronGrid API with hashes from a fixture ([./hashes], not in the
    repository).  Their assertions are predicates on the response:
    - [test_random_tx] (lines 5-21): [data] is one object whose [HASH],
      [From Address], [To Address] and [Time of Transaction] are strings
      and whose [Amount] is a number ([expect.objectContaining]);
    - [test_multiple] (lines 23-39): [data] is an array holding an entry
      equal to such an object ([toEqual] ignores the undefined
      ['Amount (no decimals)']);
    - [test_invalid] (lines 41-46): [data] is undefined and [error] a
      string.

    The fixture and the network are parameters: [typed_transfer] is what
    TronGrid answers for a TRX transfer (the fields the code reads, with
    their JSON types), and the theorems say for which hashes and
    answers each test passes, for every settlement order and every join
    that meets the [Promise.all] contract. *)

From Stdlib Require Import String ZArith List Lia Bool.
From S2P Require Import Prelude JsString Ellipsify JsValue DateFormat BigDecimal JsonBody Axios PromiseAll Fetcher.
Import ListNotations.
Open Scope Z_scope.
Open Scope res_scope.

(** [expect.any(String)] and [expect.any(Number)]. *)
Definition any_string (v : jsval) : bool :=
  match v with JString _ => true | _ => false end.

Definition any_number (v : jsval) : bool :=
  match v with JNumber _ => true | _ => false end.

(** The object of lines 12-19 and 29-36; [HASH] and [Time of
    Transaction] are strings by construction of [tx_record]. *)
Definition record_shape (r : tx_record) : bool :=
  any_string (From_Address r) && any_string (To_Address r) && any_number (Amount r).

(** Line 8: [{ log: true }]. *)
Definition test1_options : options := mk_options false true.

(** Lines 11-20. *)
Definition test_random_tx (resp : response) : bool :=
  match resp with
  | RData (DataOne (Some r)) => record_shape r
  | _ => false
  end.

(** Lines 26-38: [Array.isArray(data)] and [arrayContaining]. *)
Definition test_multiple (resp : response) : bool :=
  match resp with
  | RData (DataMany rs) =>
      existsb (fun o => match o with
                        | Some r => record_shape r && match Amount_no_decimals r with
                                                      | None => true | Some _ => false end
                        | None => false
                        end) rs
  | _ => false
  end.

(** Lines 44-45: [typeof data] is ['undefined'] and [typeof error] is
    ['string'] (every exception the code can raise has a string
    message). *)
Definition test_invalid (resp : response) : bool :=
  match resp with RError _ => true | _ => false end.

(** Line 42: [hashes[0] + '0z']. *)
Definition invalid_suffix : jsstr := js "0z"%string.

(** An id that [normalize_ids] keeps as it is: no comma, not blank. *)
Definition is_plain_id (h : jsstr) : bool :=
  negb (existsb (Z.eqb comma) h) && negb (forallb is_js_whitespace h).

(** TronGrid's answer for a TRX transfer, through the accessors the code
    uses: no truthy [Error], a contract value with a numeric [amount]
    and string addresses, a string [txID] and a numeric timestamp. *)
Definition typed_transfer (data : jsval) : bool :=
  match get_prop data key_Error, contract_value data, get_prop data key_txID,
        res_bind (get_prop data key_raw_data) (fun raw => get_prop raw key_timestamp) with
  | Ok err, Ok v, Ok (JString _), Ok (JNumber _) =>
      negb (truthy err) &&
      match get_prop v key_amount, get_prop v key_owner_address, get_prop v key_to_address with
      | Ok (JNumber _), Ok (JString _), Ok (JString _) => true
      | _, _, _ => false
      end
  | _, _, _, _ => false
  end.

(** ** Lemmas *)

Lemma is_plain_id_spec h :
  is_plain_id h = true -> ~ In comma h /\ forallb is_js_whitespace h = false.
Proof.
  unfold is_plain_id. rewrite andb_true_iff, !negb_true_iff. intros [Hc Hw].
  split; [|exact Hw]. intros Hin.
  assert (existsb (Z.eqb comma) h = true) by (apply existsb_exists; exists comma; split; [exact Hin | apply Z.eqb_refl]).
  congruence.
Qed.

Lemma normalize_ids_plain_list hs :
  hs <> [] -> forallb is_plain_id hs = true -> normalize_ids (join_with comma hs) = hs.
Proof.
  intros Hne Hp. rewrite forallb_forall in Hp.
  assert (Hs : forall h, In h hs -> ~ In comma h /\ forallb is_js_whitespace h = false)
    by (intros h Hh; apply is_plain_id_spec, Hp, Hh).
  rewrite normalize_ids_pieces; [| exact Hne | apply Forall_forall; intros h Hh; apply Hs, Hh].
  apply forallb_filter_id, forallb_forall. intros h Hh. rewrite (proj2 (Hs h Hh)). reflexivity.
Qed.

Lemma normalize_ids_plain h : is_plain_id h = true -> normalize_ids h = [h].
Proof.
  intros Hp. change h with (join_with comma [h]) at 1.
  apply normalize_ids_plain_list; [discriminate | simpl; rewrite Hp; reflexivity].
Qed.

Lemma is_plain_id_invalid h : is_plain_id h = true -> is_plain_id (h ++ invalid_suffix) = true.
Proof.
  unfold is_plain_id. rewrite !andb_true_iff, !negb_true_iff. intros [Hc Hw].
  rewrite existsb_app, forallb_app, Hc, Hw. split; reflexivity.
Qed.

Section TestProofs.

Context `{J : Join}.
Variable post : jsstr -> jsstr -> axios_result.
Variable local_tza : Z -> Z.

(** A typed answer gives a record of the tests' shape. *)
Lemma fetch_tx_typed n opts h data :
  post API_URL (request_body h) = AxResolved data -> typed_transfer data = true ->
  exists r, fetch_tx post local_tza n opts h = Ok (Some r) /\ record_shape r = true /\
            (includeNoDecimalAmount opts = false -> Amount_no_decimals r = None).
Proof.
  intros Hpost Ht. unfold typed_transfer in Ht.
  destruct (get_prop data key_Error) as [err|e|w] eqn:HE; try discriminate.
  destruct (contract_value data) as [v|e|w] eqn:HC; try discriminate.
  destruct (get_prop data key_txID) as [[| | | |txid| |]|e|w] eqn:HT; try discriminate.
  destruct (get_prop data key_raw_data) as [raw|e|w] eqn:HR; try discriminate.
  cbn [res_bind] in Ht.
  destruct (get_prop raw key_timestamp) as [[| | |ts| | |]|e|w] eqn:HTs; try discriminate.
  apply andb_prop in Ht as [Hnt Ht]. apply negb_true_iff in Hnt.
  destruct (get_prop v key_amount) as [[| | |amount| | |]|e|w] eqn:HA; try discriminate.
  destruct (get_prop v key_owner_address) as [[| | | |owner| |]|e|w] eqn:HO; try discriminate.
  destruct (get_prop v key_to_address) as [[| | | |to| |]|e|w] eqn:HTo; try discriminate.
  assert (Hv : is_nullish v = false) by (destruct v; try reflexivity; discriminate HA).
  exists (mk_tx_record (ellipsify txid None) (JString owner) (JString to) (JNumber amount)
            (if includeNoDecimalAmount opts then Some (bn_to_string (BDec (number_string_value amount) 6)) else None)
            (format_time_value local_tza (time_clip ts))).
  split; [|split; [reflexivity | intros Hno; cbn; rewrite Hno; reflexivity]].
  unfold fetch_tx. rewrite Hpost. cbn [res_bind]. rewrite HE. cbn [res_bind]. rewrite Hnt, HC.
  cbn [res_bind]. unfold destructure_value. rewrite Hv, HA, HO, HTo. cbn [res_bind].
  rewrite HT. cbn [res_bind ellipsify_value]. rewrite HR. cbn [res_bind]. rewrite HTs.
  destruct (includeNoDecimalAmount opts); reflexivity.
Qed.

(** Every hash of a batch answered with a typed transfer gives a
    record of the tests' shape, in input order. *)
Lemma fetch_all_typed n hs :
  (forall h, In h hs -> exists data,
       post API_URL (request_body h) = AxResolved data /\ typed_transfer data = true) ->
  exists rs, map (fetch_tx post local_tza n no_options) hs = map Ok (map Some rs) /\
    Forall (fun r => record_shape r = true /\ Amount_no_decimals r = None) rs /\
    length rs = length hs.
Proof.
  induction hs as [|h hs IH]; intros Hall; [exists []; repeat constructor|].
  destruct (Hall h (or_introl eq_refl)) as (data & Hpost & Ht).
  destruct (fetch_tx_typed n no_options h data Hpost Ht) as (r & Hf & Hs & Hno).
  destruct IH as (rs & Hm & Hrs & Hl); [intros h' Hh'; apply Hall; right; exact Hh'|].
  exists (r :: rs). cbn [map]. rewrite Hf, Hm.
  split; [reflexivity | split; [constructor; [split; [exact Hs | apply Hno; reflexivity] | exact Hrs]|]].
  simpl. rewrite Hl. reflexivity.
Qed.

(** ** Properties *)

(** C15: the first test ('get random transaction by its ID') passes for
    every hash that TronGrid answers with a typed TRX transfer: [data] is
    one object with string [HASH], addresses and date and a numeric
    [Amount], whatever the settlement order. *)
Theorem test_random_tx_passes h data order :
  is_plain_id h = true ->
  post API_URL (request_body h) = AxResolved data -> typed_transfer data = true ->
  test_random_tx (fst (getTransactionById post local_tza h test1_options order)) = true.
Proof.
  intros Hp Hpost Ht.
  destruct (fetch_tx_typed 1 test1_options h data Hpost Ht) as (r & Hf & Hs & _).
  rewrite getTransactionById_fst, normalize_ids_plain by exact Hp. cbn [map length].
  rewrite Hf, join_single. exact Hs.
Qed.

(** C16: the second test ('get multiple transactions') passes, for
    hashes all answered with typed transfers, exactly when the fixture
    holds at least two hashes: with a single hash [data] is the record
    itself, not an array, and [Array.isArray(data)] fails. *)
Theorem test_multiple_passes hs order :
  hs <> [] -> forallb is_plain_id hs = true ->
  (forall h, In h hs -> exists data,
       post API_URL (request_body h) = AxResolved data /\ typed_transfer data = true) ->
  test_multiple (fst (getTransactionById post local_tza (join_with comma hs) no_options order)) = true
  <-> (2 <= length hs)%nat.
Proof.
  intros Hne Hp Hall.
  destruct (fetch_all_typed (length hs) hs Hall) as (rs & Hm & Hrs & Hl).
  rewrite getTransactionById_fst, normalize_ids_plain_list by assumption.
  rewrite Hm, join_map_Ok. unfold data_of. rewrite length_map, Hl.
  destruct (Nat.leb_spec (length hs) 1).
  - destruct (map Some rs); cbn; split; discriminate || lia.
  - split; [intros _; lia | intros _].
    destruct rs as [|r rs']; [simpl in Hl; lia|].
    inversion Hrs as [|? ? [Hs Hno] _]; subst. cbn -[record_shape]. rewrite Hs, Hno. reflexivity.
Qed.

(** C17: the third test ('returns error for invalid transaction ID')
    passes exactly when the lookup of [hashes[0] + '0z'] throws, as it
    does when TronGrid answers with an [Error] field, with [{}], or when
    the request fails. *)
Theorem test_invalid_passes h order :
  is_plain_id h = true ->
  test_invalid (fst (getTransactionById post local_tza (h ++ invalid_suffix) no_options order)) = true
  <-> exists e, fetch_tx post local_tza 1 no_options (h ++ invalid_suffix) = Throw e.
Proof.
  intros Hp. rewrite getTransactionById_fst, normalize_ids_plain by (apply is_plain_id_invalid; exact Hp).
  cbn [map length]. rewrite join_single.
  destruct (fetch_tx post local_tza 1 no_options (h ++ invalid_suffix)) as [x|e|w];
    cbn; split; intros H; try discriminate; eauto; destruct H as [e' He]; discriminate.
Qed.

End TestProofs.

(** ** Witnesses, on the network of [Fetcher] *)

Lemma test_random_tx_passes_witness :
  is_plain_id (js "tx1"%string) = true /\
  typed_transfer (tron_tx_json sample_txid sample_owner sample_to 1000000 1631923200000) = true /\
  test_random_tx (fst (getTransactionById sample_post utc (js "tx1"%string) test1_options [0%nat])) = true.
Proof.
  split; [reflexivity | split; [reflexivity|]].
  apply (test_random_tx_passes sample_post utc _ (tron_tx_json sample_txid sample_owner sample_to 1000000 1631923200000));
    reflexivity.
Defined.

Lemma test_multiple_passes_witness :
  forallb is_plain_id [js "tx1"; js "tx1"]%string = true /\
  test_multiple (fst (getTransactionById sample_post utc (join_with comma [js "tx1"; js "tx1"]%string)
                        no_options [1; 0]%nat)) = true.
Proof.
  split; [reflexivity|]. apply (test_multiple_passes sample_post utc); [discriminate | reflexivity | | simpl; lia].
  intros h [<- | [<- | []]]; eexists; split; reflexivity.
Defined.

Lemma test_invalid_passes_witness :
  is_plain_id (js "tx"%string) = true /\
  test_invalid (fst (getTransactionById sample_post utc (js "tx"%string ++ invalid_suffix) no_options [0%nat])) = true.
Proof.
  split; [reflexivity|]. apply (test_invalid_passes sample_post utc); [reflexivity|].
  eexists. vm_compute. reflexivity.
Defined.

(** With a one-hash fixture the second test fails. *)
Example test_multiple_single_hash :
  test_multiple (fst (getTransactionById sample_post utc (js "tx1"%string) no_options [0%nat])) = false.
Proof. vm_compute. reflexivity. Qed.
